(** * ida-pro-mcp: protocol router, session tools and YARA chunk loop

    A shallow embedding of the routing and session code of ida-pro-mcp:
    - [server.py]: [dispatch_proxy] (the router) and [main] (startup);
    - [ida_mcp/api_pro.py]: the session tools [open_database],
      [close_database], [switch_database], [list_databases],
      [current_database];
    - [ida_mcp/api_yara.py]: [_get_capstone_context] and
      [generate_yara_rule].

    Python values that cross the JSON-RPC boundary are modelled as [json];
    Python exceptions as an explicit [result] type; module globals
    (FORCE_HEADLESS, HAS_IDALIB, ...) as fields of a configuration record;
    external collaborators (the registries, the HTTP peer, the IDA engine)
    as fields of environment records. *)

From Stdlib Require Import Strings.String Strings.Ascii Strings.Byte List ZArith NArith Bool Lia.
From Stdlib Require Import HexadecimalString.
From Stdlib Require DecimalString.
From Stdlib Require Import Sorting.Sorted.
Import ListNotations.
Set Warnings "-register-all".
Open Scope Z_scope.
Open Scope string_scope.

(** ** Python values and exceptions *)

(** JSON documents, as produced by [json.loads] and returned by the tools. *)
Inductive json : Type :=
| JNull
| JBool (b : bool)
| JNum (n : Z)
| JStr (s : string)
| JArr (items : list json)
| JObj (fields : list (string * json)).

(** The exception classes the modelled code raises or catches by name.
    Every class is a subclass of [Exception]. *)
Inductive exn_class : Type :=
| KeyError
| TypeError
| AttributeError
| ValueError
| RuntimeError
| FileNotFoundError
| GenericException.

Record exn : Type := mk_exn { exn_kind : exn_class; exn_text : string }.

(** [str(e)] *)
Definition py_str (e : exn) : string := exn_text e.

(** A computation that returns a value or raises. *)
Inductive result (A : Type) : Type :=
| Ok (a : A)
| Raise (e : exn).
Arguments Ok {A} a.
Arguments Raise {A} e.

Definition bind {A B} (r : result A) (k : A -> result B) : result B :=
  match r with
  | Ok a => k a
  | Raise e => Raise e
  end.

Notation "x <- c ;; k" := (bind c (fun x => k))
  (at level 61, c at next level, right associativity).

Definition nl : string := String (ascii_of_nat 10) EmptyString.

(** ** Python dictionaries with string keys

    Insertion-ordered, keys unique: an association list in which a lookup
    takes the first binding and an assignment replaces in place. *)
Section Dict.
Context {V : Type}.

Fixpoint dict_get (k : string) (d : list (string * V)) : option V :=
  match d with
  | [] => None
  | (k', v) :: rest => if k' =? k then Some v else dict_get k rest
  end.

Definition dict_has (k : string) (d : list (string * V)) : bool :=
  match dict_get k d with Some _ => true | None => false end.

(** [d[k] = v] *)
Fixpoint dict_set (k : string) (v : V) (d : list (string * V))
  : list (string * V) :=
  match d with
  | [] => [(k, v)]
  | (k', v') :: rest =>
      if k' =? k then (k, v) :: rest else (k', v') :: dict_set k v rest
  end.

(** [del d[k]] *)
Fixpoint dict_del (k : string) (d : list (string * V))
  : list (string * V) :=
  match d with
  | [] => []
  | (k', v') :: rest =>
      if k' =? k then rest else (k', v') :: dict_del k rest
  end.

(** first key whose value satisfies [p], in insertion order *)
Fixpoint dict_find (p : V -> bool) (d : list (string * V))
  : option string :=
  match d with
  | [] => None
  | (k, v) :: rest => if p v then Some k else dict_find p rest
  end.
End Dict.

(** [d.get(k)] on a JSON object: an absent key reads as [None]. *)
Definition obj_get (k : string) (fields : list (string * json)) : json :=
  match dict_get k fields with
  | Some v => v
  | None => JNull
  end.

(** [x is None] *)
Definition is_none (v : json) : bool :=
  match v with JNull => true | _ => false end.

(** [v == s] for a string literal [s] *)
Definition eq_str (v : json) (s : string) : bool :=
  match v with JStr t => t =? s | _ => false end.

(** ** Session manager

    The manager of [ida_mcp/idb_session.py], which the tools of [api_pro.py],
    the router and [main] call into.  Its state and operations follow the
    specification of the session manager (data model and section 4.1). *)
Module SessionManager.

(** Modelled from the spec: the Session record of [idb_session.py], with
    the fields of the spec's data model. *)
Record Session : Type := mk_session {
  session_id : string;
  input_path : string;
  opened_at : Z;
  analysis_complete : bool
}.

(** Modelled from the spec: the state of the session manager of
    [idb_session.py], the insertion-ordered mapping from session id to
    session and the nullable current pointer. *)
Record manager : Type := mk_manager {
  sessions : list (string * Session);
  current : option string
}.

(** Modelled from the spec: what the session manager of [idb_session.py]
    asks of its host, namely the file system, path canonicalisation and
    the final path component, the id generator, the clock and the engine's
    loader. *)
Record host : Type := mk_host {
  path_exists : string -> bool;
  resolve : string -> string;
  path_name : string -> string;
  generate_id : manager -> string;
  now : Z;
  engine_load : string -> bool
}.

(** Modelled from the spec: the manager of [idb_session.py] before any
    session is opened. *)
Definition empty : manager := mk_manager [] None.

(** Modelled from the spec: the number of sessions in the mapping of the
    manager of [idb_session.py]. *)
Definition session_count (m : manager) : nat := length (sessions m).

(** Modelled from the spec: [get_session] of the absent session manager,
    the lookup of an id in the session mapping. *)
Definition get_session (m : manager) (sid : string) : option Session :=
  dict_get sid (sessions m).

(** Modelled from the spec: [current() -> Session | null] of the absent
    session manager. *)
Definition get_current_session (m : manager) : option Session :=
  match current m with
  | Some sid => dict_get sid (sessions m)
  | None => None
  end.

(** Modelled from the spec: [open(path, run_auto_analysis, requested_id?)]
    of the absent session manager.  It fails with NotFound if the path does
    not exist; if an already-open session has the same canonical path it
    returns that session's id without creating a new one; otherwise it
    allocates a new session (generating an id if none is requested, failing
    with Conflict if the requested id collides), loads the target (failing
    with EngineError if the engine cannot load it), optionally runs the
    automatic analysis and sets the session current.  NotFound is raised as
    [FileNotFoundError], Conflict as [ValueError] and EngineError as
    [RuntimeError], the classes the callers in [api_pro.py] catch. *)
Definition open_binary (h : host) (m : manager) (path : string)
    (run_auto_analysis : bool) (requested_id : option string)
  : manager * result string :=
  if negb (path_exists h path) then
    (m, Raise (mk_exn FileNotFoundError ("Input file not found: " ++ path)))
  else
    let canonical := resolve h path in
    match dict_find (fun s => input_path s =? canonical) (sessions m) with
    | Some sid => (m, Ok sid)
    | None =>
        let fresh :=
          match requested_id with
          | Some rid =>
              if dict_has rid (sessions m) then
                Raise (mk_exn ValueError ("Session already exists: " ++ rid))
              else Ok rid
          | None => Ok (generate_id h m)
          end in
        match fresh with
        | Raise e => (m, Raise e)
        | Ok sid =>
            if negb (engine_load h canonical) then
              (m, Raise (mk_exn RuntimeError
                           ("Failed to open database: " ++ canonical)))
            else
              let s := mk_session sid canonical (now h) run_auto_analysis in
              (mk_manager (dict_set sid s (sessions m)) (Some sid), Ok sid)
        end
    end.

(** Modelled from the spec: [close(session_id) -> bool] of the absent
    session manager.  It removes the session from the mapping; returns
    false (not an error) if the id is unknown; if the session was current
    it clears the current pointer. *)
Definition close_session (m : manager) (sid : string)
  : manager * result bool :=
  if dict_has sid (sessions m) then
    let cur :=
      match current m with
      | Some c => if c =? sid then None else Some c
      | None => None
      end in
    (mk_manager (dict_del sid (sessions m)) cur, Ok true)
  else (m, Ok false).

(** Modelled from the spec: [switch(session_id) -> bool] of the absent
    session manager.  It fails with NotFound if the id is unknown;
    otherwise it sets the session current and returns true.  NotFound is
    raised as [ValueError], the class [switch_database] catches first. *)
Definition switch_session (m : manager) (sid : string)
  : manager * result bool :=
  if dict_has sid (sessions m) then
    (mk_manager (sessions m) (Some sid), Ok true)
  else
    (m, Raise (mk_exn ValueError ("Session not found: " ++ sid))).

(** Modelled from the spec: the current flag of a session descriptor of
    [idb_session.py]. *)
Definition is_current (m : manager) (s : Session) : bool :=
  match current m with
  | Some c => c =? session_id s
  | None => false
  end.

(** Modelled from the spec: the session descriptor
    [{session_id, input_path, is_current, analysis_complete}] that
    [Session.to_dict] of the absent module produces. *)
Definition to_dict (m : manager) (s : Session) : json :=
  JObj [ ("session_id", JStr (session_id s));
         ("input_path", JStr (input_path s));
         ("is_current", JBool (is_current m s));
         ("analysis_complete", JBool (analysis_complete s)) ].

(** Modelled from the spec: [list()] of the absent session manager, the
    descriptors in insertion order. *)
Definition list_sessions (m : manager) : list json :=
  map (fun kv => to_dict m (snd kv)) (sessions m).

(** Modelled from the spec: [closeAll()] of the absent session manager. *)
Definition close_all_sessions (m : manager) : manager := empty.

(** Modelled from the spec: the invariant of the manager of
    [idb_session.py] that the current pointer, if set, references a key of
    the mapping. *)
Definition pointer_ok (m : manager) : Prop :=
  match current m with
  | Some c => dict_has c (sessions m) = true
  | None => True
  end.

(** Modelled from the spec: in the mapping of the manager of
    [idb_session.py] every session is stored under its own id. *)
Definition keys_match (m : manager) : Prop :=
  Forall (fun kv => session_id (snd kv) = fst kv) (sessions m).

End SessionManager.

(** ** The session tools of [ida_mcp/api_pro.py]

    Each tool reads the module global [HAS_IDALIB], calls the session manager
    inside a [try] and turns every exception into an error dictionary. *)
Module ApiPro.

Definition error_dict (msg : string) : json := JObj [("error", JStr msg)].

(** [open_database(input_path, run_auto_analysis, session_id)] *)
Definition open_database (HAS_IDALIB : bool) (h : SessionManager.host)
    (manager : SessionManager.manager) (input_path : string)
    (run_auto_analysis : bool) (session_id : option string)
  : SessionManager.manager * json :=
  if negb HAS_IDALIB then
    (manager,
     error_dict "open_database is only supported in headless idalib mode")
  else
    match SessionManager.open_binary h manager input_path
            run_auto_analysis session_id with
    | (manager', Ok session_id_result) =>
        match SessionManager.get_session manager' session_id_result with
        | None =>
            (manager',
             error_dict ("Failed to retrieve session after opening: "
                         ++ session_id_result))
        | Some session =>
            (manager',
             JObj [ ("success", JBool true);
                    ("session", SessionManager.to_dict manager' session);
                    ("message",
                     JStr ("Binary opened successfully: "
                           ++ SessionManager.path_name h
                                (SessionManager.input_path session))) ])
        end
    | (manager', Raise e) =>
        (manager',
         match exn_kind e with
         | FileNotFoundError => error_dict (py_str e)
         | RuntimeError =>
             error_dict ("Failed to open binary: " ++ py_str e)
         | _ => error_dict ("Unexpected error: " ++ py_str e)
         end)
    end.

(** [close_database(session_id)] *)
Definition close_database (HAS_IDALIB : bool)
    (manager : SessionManager.manager) (session_id : string)
  : SessionManager.manager * json :=
  if negb HAS_IDALIB then
    (manager,
     error_dict "close_database is only supported in headless idalib mode")
  else
    match SessionManager.close_session manager session_id with
    | (manager', Ok true) =>
        (manager',
         JObj [ ("success", JBool true);
                ("message", JStr ("Session closed: " ++ session_id)) ])
    | (manager', Ok false) =>
        (manager',
         JObj [ ("success", JBool false);
                ("error", JStr ("Session not found: " ++ session_id)) ])
    | (manager', Raise e) =>
        (manager', error_dict ("Failed to close session: " ++ py_str e))
    end.

(** [switch_database(session_id)].  When [switch_session] returns a false
    value the function body ends without a [return]: the tool yields
    [None]. *)
Definition switch_database (HAS_IDALIB : bool) (h : SessionManager.host)
    (manager : SessionManager.manager) (session_id : string)
  : SessionManager.manager * option json :=
  if negb HAS_IDALIB then
    (manager,
     Some (error_dict
             "switch_database is only supported in headless idalib mode"))
  else
    match SessionManager.switch_session manager session_id with
    | (manager', Ok true) =>
        match SessionManager.get_current_session manager' with
        | None =>
            (manager',
             Some (error_dict
                     "Failed to retrieve current session after switching"))
        | Some session =>
            (manager',
             Some (JObj
               [ ("success", JBool true);
                 ("session", SessionManager.to_dict manager' session);
                 ("message",
                  JStr ("Switched to session: " ++ session_id ++ " ("
                        ++ SessionManager.path_name h
                             (SessionManager.input_path session)
                        ++ ")")) ]))
        end
    | (manager', Ok false) => (manager', None)
    | (manager', Raise e) =>
        (manager',
         Some (match exn_kind e with
               | ValueError => error_dict (py_str e)
               | RuntimeError =>
                   error_dict ("Failed to switch session: " ++ py_str e)
               | _ => error_dict ("Unexpected error: " ++ py_str e)
               end))
    end.

(** [list_databases()] *)
Definition list_databases (HAS_IDALIB : bool)
    (manager : SessionManager.manager) : json :=
  if negb HAS_IDALIB then
    error_dict "list_databases is only supported in headless idalib mode"
  else
    let sessions := SessionManager.list_sessions manager in
    let current_session := SessionManager.get_current_session manager in
    JObj [ ("sessions", JArr sessions);
           ("count", JNum (Z.of_nat (length sessions)));
           ("current_session_id",
            match current_session with
            | Some s => JStr (SessionManager.session_id s)
            | None => JNull
            end) ].

(** [current_database()] *)
Definition current_database (HAS_IDALIB : bool)
    (manager : SessionManager.manager) : json :=
  if negb HAS_IDALIB then
    error_dict "current_database is only supported in headless idalib mode"
  else
    match SessionManager.get_current_session manager with
    | None =>
        error_dict
          "No active session. Use open_database() to open a binary first."
    | Some session => SessionManager.to_dict manager session
    end.

(** A tool result that reports failure: a dictionary with an ["error"]
    entry and no true ["success"] entry. *)
Definition is_error_result (r : json) : bool :=
  match r with
  | JObj fields =>
      match dict_get "error" fields, dict_get "success" fields with
      | Some (JStr _), Some (JBool true) => false
      | Some (JStr _), _ => true
      | _, _ => false
      end
  | _ => false
  end.

(** The session id a successful tool result reports. *)
Definition reported_session_id (r : json) : option string :=
  match r with
  | JObj fields =>
      match dict_get "success" fields, dict_get "session" fields with
      | Some (JBool true), Some (JObj descriptor) =>
          match dict_get "session_id" descriptor with
          | Some (JStr sid) => Some sid
          | _ => None
          end
      | _, _ => None
      end
  | _ => None
  end.

End ApiPro.

(** ** The router: [dispatch_proxy] of [server.py] *)
Module Router.

(** [request: dict | str | bytes | bytearray]: an already decoded
    dictionary, or a serialised document. *)
Inductive request : Type :=
| ReqDict (fields : list (string * json))
| ReqText (payload : string).

(** The module globals [dispatch_proxy] reads.  [LOCAL_MCP_SERVER] is true
    when the global holds a server and false when it is [None]. *)
Record config : Type := mk_config {
  IDA_HOST : string;
  IDA_PORT : Z;
  FORCE_HEADLESS : bool;
  FORCE_RPC : bool;
  HAS_IDALIB : bool;
  LOCAL_MCP_SERVER : bool;
  platform : string
}.

(** What lines 119-128 do with the peer.  The connection object is built
    at line 119, before the [try]: an exception of
    [http.client.HTTPConnection(IDA_HOST, IDA_PORT, timeout=30)] (a host
    with a blank in it, a port that is no number) is handled by nobody.
    Serialising, [conn.request], [conn.getresponse], [response.read],
    [decode] and [json.loads] are inside the [try]: their exceptions are
    handled at line 129. *)
Inductive exchange : Type :=
| InvalidConnection (e : exn)
| ExchangeFailed (e : exn)
| Answered (v : json).

(** The collaborators: [json.loads], the registry of this process
    ([dispatch_original]), the registry of the local engine
    ([LOCAL_MCP_SERVER.registry.dispatch]), the HTTP exchange with the
    peer (build the connection, serialise, POST /mcp, read, decode) and
    [traceback.format_exc]. *)
Record peers : Type := mk_peers {
  json_loads : string -> result json;
  dispatch_original : request -> result (option json);
  local_dispatch : request -> result (option json);
  http_exchange : string -> Z -> request -> exchange;
  format_exc : exn -> string
}.

(** The document the peer answered, or the exception that prevented an
    answer. *)
Definition http_post (p : peers) (host : string) (port : Z)
    (request : request) : result json :=
  match http_exchange p host port request with
  | Answered v => Ok v
  | ExchangeFailed e => Raise e
  | InvalidConnection e => Raise e
  end.

(** Which dispatcher a request was handed to.  [Remote] stands for the
    forwarding step of lines 119-156: it is recorded when that step is
    reached, whatever becomes of the connection. *)
Inductive backend : Type := Original | Local | Remote.

Definition backend_eqb (a b : backend) : bool :=
  match a, b with
  | Original, Original | Local, Local | Remote, Remote => true
  | _, _ => false
  end.

Definition used (b : backend) (trace : list backend) : bool :=
  existsb (backend_eqb b) trace.

(** [request_obj["method"]] *)
Definition subscript_method (request_obj : json) : result json :=
  match request_obj with
  | JObj fields =>
      match dict_get "method" fields with
      | Some v => Ok v
      | None => Raise (mk_exn KeyError "'method'")
      end
  | _ => Raise (mk_exn TypeError "request object is not a dictionary")
  end.

(** [v.startswith(p)]: only strings have the attribute. *)
Definition startswith (v : json) (p : string) : result bool :=
  match v with
  | JStr s => Ok (String.prefix p s)
  | _ => Raise (mk_exn AttributeError "object has no attribute 'startswith'")
  end.

Definition is_discovery (method : json) : bool :=
  eq_str method "tools/list"
  || eq_str method "resources/list"
  || eq_str method "resources/templates/list"
  || eq_str method "prompts/list".

Definition is_open_command (method : json) (fields : list (string * json))
  : bool :=
  if eq_str method "tools/call" then
    match obj_get "params" fields with
    | JObj params => eq_str (obj_get "name" params) "open_database"
    | _ => false
    end
  else false.

(** Lines 95-111: the session query, the classification of the method and
    the condition under which the local registry is used. *)
Definition routes_locally (cfg : config) (m : SessionManager.manager)
    (method : json) (fields : list (string * json)) : bool :=
  let has_active_session :=
    match SessionManager.get_current_session m with
    | Some _ => true
    | None => false
    end in
  FORCE_HEADLESS cfg || is_discovery method
  || is_open_command method fields || has_active_session.

(** What the [try] block of lines 86-117 does. *)
Inductive local_attempt : Type :=
| NotAttempted
| LocalReturned (r : option json)
| LocalReraised (e : exn)
| LocalSwallowed (e : exn).

Definition try_local (cfg : config) (p : peers)
    (m : SessionManager.manager) (request : request) (method : json)
    (fields : list (string * json)) : local_attempt :=
  if routes_locally cfg m method fields then
    match local_dispatch p request with
    | Ok r => LocalReturned r
    | Raise e =>
        if FORCE_HEADLESS cfg then LocalReraised e else LocalSwallowed e
    end
  else NotAttempted.

Definition shortcut (cfg : config) : string :=
  if platform cfg =? "darwin" then "Ctrl+Option+M" else "Ctrl+Alt+M".

Definition error_msg (cfg : config) (full_info : string) : string :=
  if HAS_IDALIB cfg && negb (FORCE_RPC cfg) then
    "Failed to connect to IDA Pro (GUI) and no headless session is active. Use open_database() to open a binary headlessly, or start the IDA GUI and the MCP plugin ("
    ++ shortcut cfg ++ ")." ++ nl ++ full_info
  else
    "Failed to connect to IDA Pro! Did you run Edit -> Plugins -> MCP ("
    ++ shortcut cfg ++ ") to start the server?" ++ nl ++ full_info.

Definition error_response (cfg : config) (p : peers) (e : exn) (id : json)
  : json :=
  JObj [ ("jsonrpc", JStr "2.0");
         ("error",
          JObj [ ("code", JNum (-32000));
                 ("message", JStr (error_msg cfg (format_exc p e)));
                 ("data", JStr (py_str e)) ]);
         ("id", id) ].

(** The value [json.loads(data)] as a return value of type
    [JsonRpcResponse | None]. *)
Definition as_response (v : json) : option json :=
  if is_none v then None else Some v.

(** Lines 119-156: forward to the peer.  An exception of line 119 leaves
    [dispatch_proxy]; an exception inside the [try] is answered with an
    error envelope, or with nothing when the request has no id. *)
Definition forward (cfg : config) (p : peers) (request : request)
    (fields : list (string * json)) : result (option json) :=
  match http_exchange p (IDA_HOST cfg) (IDA_PORT cfg) request with
  | InvalidConnection e => Raise e
  | Answered v => Ok (as_response v)
  | ExchangeFailed e =>
      let id := obj_get "id" fields in
      if is_none id then Ok None
      else Ok (Some (error_response cfg p e id))
  end.

Definition decode (p : peers) (request : request) : result json :=
  match request with
  | ReqDict fields => Ok (JObj fields)
  | ReqText payload => json_loads p payload
  end.

Definition fields_of (request_obj : json) : list (string * json) :=
  match request_obj with JObj fields => fields | _ => [] end.

(** [dispatch_proxy(request)]: the dispatchers used, in order, and the
    value returned or the exception raised. *)
Definition dispatch_proxy (cfg : config) (p : peers)
    (m : SessionManager.manager) (request : request)
  : list backend * result (option json) :=
  match decode p request with
  | Raise e => ([], Raise e)
  | Ok request_obj =>
      match subscript_method request_obj with
      | Raise e => ([], Raise e)
      | Ok method =>
          if eq_str method "initialize" then
            ([Original], dispatch_original p request)
          else
            match startswith method "notifications/" with
            | Raise e => ([], Raise e)
            | Ok true => ([Original], dispatch_original p request)
            | Ok false =>
                let fields := fields_of request_obj in
                let attempt :=
                  if negb (FORCE_RPC cfg) && HAS_IDALIB cfg
                     && LOCAL_MCP_SERVER cfg
                  then try_local cfg p m request method fields
                  else NotAttempted in
                match attempt with
                | LocalReturned r => ([Local], Ok r)
                | LocalReraised e => ([Local], Raise e)
                | LocalSwallowed _ =>
                    ([Local; Remote], forward cfg p request fields)
                | NotAttempted => ([Remote], forward cfg p request fields)
                end
            end
      end
  end.

(** The method of a request, when it has one and it is a string. *)
Definition method_of (p : peers) (request : request) : option string :=
  match decode p request with
  | Ok (JObj fields) =>
      match dict_get "method" fields with
      | Some (JStr s) => Some s
      | _ => None
      end
  | _ => None
  end.

(** The fields of a request that decodes to a dictionary. *)
Definition request_fields (p : peers) (request : request)
  : list (string * json) :=
  match decode p request with
  | Ok request_obj => fields_of request_obj
  | Raise _ => []
  end.

End Router.

(** ** Startup: [main] of [server.py] *)
Module Startup.

(** The namespace [parser.parse_args()] returns. *)
Record args : Type := mk_args {
  install : bool;
  uninstall : bool;
  allow_ida_free : bool;
  transport : string;
  ida_rpc : option string;
  headless : bool;
  rpc_only : bool;
  verbose : bool;
  config : bool;
  input_path : option string
}.

(** The two attributes [main] reads of a parsed URL. *)
Record url : Type := mk_url { hostname : option string; port : option Z }.

(** What [main] asks of the process: [urlparse] (with the attribute reads,
    which raise on a malformed port), the host of the session manager, the
    thread [main] runs on and whether stdin is a terminal. *)
Record system : Type := mk_system {
  urlparse : string -> result url;
  host : SessionManager.host;
  in_main_thread : bool;
  stdin_isatty : bool
}.

(** The observable steps of [main]. *)
Inductive action : Type :=
| Print (line : string)
| InstallIdaPlugin (uninstalling allow_free : bool)
| InstallMcpServers (stdio : bool) (mode : string) (uninstalling : bool)
| PrintMcpConfig (mode : string)
| EnableConsoleMessages (on : bool)
| SetLogLevel (debug : bool)
| LogInfo (msg : string)
| InstallSignalHandlers
| ServeStdio
| ServeHttp (host : string) (port : Z)
| WaitForEnter
| SleepForever.

(** How [main] ends: it returns, calls [sys.exit], or lets an exception
    escape. *)
Inductive ending : Type :=
| Returned
| SysExit (code : Z)
| Uncaught (e : exn).

Record outcome : Type := mk_outcome {
  globals : Router.config;
  manager : SessionManager.manager;
  actions : list action;
  ending_of : ending
}.

(** An action that starts serving requests. *)
Definition is_serving (a : action) : bool :=
  match a with
  | ServeStdio | ServeHttp _ _ => true
  | _ => false
  end.

Definition serves (acts : list action) : bool := existsb is_serving acts.

(** Lines 956-961: the peer's address after the [--ida-rpc] argument; an
    absent or empty argument is falsy and keeps the defaults. *)
Definition parse_ida_rpc (sys : system) (cfg : Router.config) (a : args)
  : result (string * Z) :=
  match ida_rpc a with
  | None => Ok (Router.IDA_HOST cfg, Router.IDA_PORT cfg)
  | Some text =>
      if text =? "" then Ok (Router.IDA_HOST cfg, Router.IDA_PORT cfg)
      else
        u <- urlparse sys text ;;
        match hostname u, port u with
        | Some h, Some p => Ok (h, p)
        | _, _ =>
            Raise (mk_exn GenericException
                     ("Invalid IDA RPC server: " ++ text))
        end
  end.

Definition mode_of (cfg : Router.config) : string :=
  if Router.FORCE_HEADLESS cfg then "headless"
  else if Router.FORCE_RPC cfg then "rpc"
  else "hybrid".

(** Lines 1009-1047: the headless setup.  The third component is the
    exception that escapes, if any. *)
Definition headless_setup (sys : system) (m : SessionManager.manager)
    (a : args)
  : SessionManager.manager * list action * option exn :=
  let logging := [EnableConsoleMessages (verbose a); SetLogLevel (verbose a)] in
  let signals :=
    if in_main_thread sys then [InstallSignalHandlers] else [] in
  match input_path a with
  | None => (m, (logging ++ signals)%list, None)
  | Some path =>
      if negb (SessionManager.path_exists (host sys) path) then
        (m, logging,
         Some (mk_exn FileNotFoundError ("Input file not found: " ++ path)))
      else
        let opening := LogInfo ("opening initial database: " ++ path) in
        match SessionManager.open_binary (host sys) m path true None with
        | (m', Raise e) => (m', (logging ++ [opening])%list, Some e)
        | (m', Ok session_id) =>
            (m',
             (logging
              ++ [opening; LogInfo ("Initial session created: " ++ session_id)]
              ++ signals)%list,
             None)
        end
  end.

(** Lines 1049-1066: start the transport. *)
Definition serve (sys : system) (a : args) : list action * ending :=
  if transport a =? "stdio" then ([ServeStdio], Returned)
  else
    match urlparse sys (transport a) with
    | Raise e => ([], Uncaught e)
    | Ok u =>
        match hostname u, port u with
        | Some h, Some p =>
            ([ServeHttp h p;
              if stdin_isatty sys then WaitForEnter else SleepForever],
             Returned)
        | _, _ =>
            ([], Uncaught (mk_exn GenericException
                             ("Invalid transport URL: " ++ transport a)))
        end
    end.

(** [main()], from the parsed arguments on.  [cfg] holds the module globals
    before the call, [m] the session manager's state. *)
Definition main (sys : system) (cfg : Router.config)
    (m : SessionManager.manager) (a : args) : outcome :=
  match parse_ida_rpc sys cfg a with
  | Raise e => mk_outcome cfg m [] (Uncaught e)
  | Ok (h, p) =>
      let g := Router.mk_config h p (headless a) (rpc_only a)
                 (Router.HAS_IDALIB cfg) (Router.LOCAL_MCP_SERVER cfg)
                 (Router.platform cfg) in
      if Router.FORCE_HEADLESS g && Router.FORCE_RPC g then
        mk_outcome g m
          [Print "Error: Cannot specify both --headless and --rpc-only"]
          (SysExit 1)
      else if Router.FORCE_HEADLESS g && negb (Router.HAS_IDALIB g) then
        mk_outcome g m
          [Print "Error: Headless mode requires idalib but it was not found."]
          (SysExit 1)
      else if install a && uninstall a then
        mk_outcome g m
          [Print "Cannot install and uninstall at the same time"] Returned
      else if install a then
        let plugin :=
          if negb (Router.HAS_IDALIB g) || Router.FORCE_RPC g then
            [InstallIdaPlugin false (allow_ida_free a)]
          else
            [Print "idalib detected. Skipping IDA plugin installation (optional for headless).";
             Print "Use --rpc-only if you still want to install the plugin manually."] in
        mk_outcome g m
          (plugin
           ++ [InstallMcpServers (transport a =? "stdio") (mode_of g) false])%list
          Returned
      else if uninstall a then
        mk_outcome g m
          [InstallIdaPlugin true (allow_ida_free a);
           InstallMcpServers false "hybrid" true]
          Returned
      else if config a then
        mk_outcome g m [PrintMcpConfig (mode_of g)] Returned
      else
        let '(m1, setup, escaped) :=
          if Router.HAS_IDALIB g && negb (Router.FORCE_RPC g) then
            headless_setup sys m a
          else (m, [], None) in
        match escaped with
        | Some e => mk_outcome g m1 setup (Uncaught e)
        | None =>
            let (serving, fin) := serve sys a in
            mk_outcome g m1 (setup ++ serving)%list fin
        end
  end.

(** The exit status of the process: [sys.exit(code)] gives [code], an
    exception that escapes [main] makes the interpreter print the
    traceback and exit with status 1. *)
Definition exit_status (e : ending) : Z :=
  match e with
  | Returned => 0
  | SysExit code => code
  | Uncaught _ => 1
  end.

(** What the process has printed as an error when it ends: the lines
    [main] printed, and the interpreter's report of an escaped
    exception. *)
Definition printed (o : outcome) : list string :=
  (flat_map (fun a => match a with Print line => [line] | _ => [] end)
     (actions o)
   ++ match ending_of o with
      | Uncaught e => [py_str e]
      | _ => []
      end)%list.

End Startup.

(** ** YARA generation: [ida_mcp/api_yara.py] *)
Module Yara.

(** The constants imported from [capstone]. *)
Record capstone : Type := mk_capstone {
  CS_ARCH_X86 : Z;
  CS_ARCH_ARM : Z;
  CS_ARCH_ARM64 : Z;
  CS_ARCH_MIPS : Z;
  CS_MODE_32 : Z;
  CS_MODE_64 : Z;
  CS_MODE_ARM : Z;
  CS_MODE_THUMB : Z;
  CS_MODE_LITTLE_ENDIAN : Z;
  CS_MODE_BIG_ENDIAN : Z;
  CS_MODE_MIPS32 : Z;
  CS_MODE_MIPS64 : Z
}.

(** The calls into the IDA engine.  [get_item_size] returns an [asize_t],
    an unsigned quantity.  [get_bytes] returns [None] when the bytes cannot
    be read. *)
Record ida : Type := mk_ida {
  inf_get_procname : string;
  inf_get_app_bitness : Z;
  inf_is_be : bool;
  get_sreg : Z -> string -> Z;
  get_item_size : Z -> N;
  get_flags : Z -> Z;
  is_code : Z -> bool;
  get_bytes : Z -> Z -> option (list byte)
}.

Record chunk : Type := mk_chunk {
  chunk_bytes : list byte;
  offset : Z;
  is_data : bool
}.

(** A [YaraGenerator] and the chunks added to it, oldest first. *)
Record generator : Type := mk_generator {
  gen_mode : string;
  gen_arch : Z;
  gen_cs_mode : Z;
  chunks : list chunk
}.

(** The module global [HAS_MKYARA], [parse_address] of [utils.py] and the
    rendering done by mkyara ([generate_rule], then [get_rule_string] with
    the rule name set). *)
Record toolkit : Type := mk_toolkit {
  HAS_MKYARA : bool;
  cs : capstone;
  parse_address : string -> result Z;
  rule_string : generator -> string -> result string
}.

Definition error_dict (msg : string) : json := JObj [("error", JStr msg)].

Definition lower_ascii (c : ascii) : ascii :=
  let n := nat_of_ascii c in
  if ((65 <=? n) && (n <=? 90))%nat then ascii_of_nat (n + 32) else c.

(** [s.lower()] *)
Fixpoint lower (s : string) : string :=
  match s with
  | EmptyString => EmptyString
  | String c rest => String (lower_ascii c) (lower rest)
  end.

(** [x in (s1, ..., sn)] *)
Definition str_in (x : string) (l : list string) : bool :=
  existsb (String.eqb x) l.

(** [sep.join(l)] *)
Fixpoint join (sep : string) (l : list string) : string :=
  match l with
  | [] => ""
  | [x] => x
  | x :: rest => x ++ sep ++ join sep rest
  end.

(** [hex(n)] *)
Definition hex (z : Z) : string :=
  (if (z <? 0)%Z then "-0x" else "0x")
  ++ NilZero.string_of_uint (N.to_hex_uint (Z.abs_N z)).

(** [_get_capstone_context(ea)] *)
Definition _get_capstone_context (c : capstone) (e : ida) (ea : Z)
  : result (Z * Z) :=
  let proc_name := lower (inf_get_procname e) in
  let is_64 := (inf_get_app_bitness e =? 64)%Z in
  let is_be := inf_is_be e in
  let endian_mode :=
    if is_be then CS_MODE_BIG_ENDIAN c else CS_MODE_LITTLE_ENDIAN c in
  if str_in proc_name ["metapc"; "80386"; "80486"; "p3"; "p4"; "8086"] then
    Ok (CS_ARCH_X86 c, if is_64 then CS_MODE_64 c else CS_MODE_32 c)
  else if proc_name =? "arm" then
    if is_64 then Ok (CS_ARCH_ARM64 c, Z.lor (CS_MODE_ARM c) endian_mode)
    else
      let is_thumb := (get_sreg e ea "T" =? 1)%Z in
      Ok (CS_ARCH_ARM c,
          Z.lor (if is_thumb then CS_MODE_THUMB c else CS_MODE_ARM c)
                endian_mode)
  else if proc_name =? "mips" then
    Ok (CS_ARCH_MIPS c,
        Z.lor (if is_64 then CS_MODE_MIPS64 c else CS_MODE_MIPS32 c)
              endian_mode)
  else
    Raise (mk_exn ValueError
             ("Architecture '" ++ proc_name
              ++ "' is not currently supported for YARA generation.")).

(** Lines 120-128: the amount by which one iteration advances. *)
Definition item_advance (e : ida) (end_ current : Z) : Z :=
  let item_size := Z.of_N (get_item_size e current) in
  let item_size := if (item_size =? 0)%Z then 1%Z else item_size in
  if (current + item_size >? end_)%Z then (end_ - current)%Z else item_size.

(** Lines 130-158: what one iteration adds to the generator. *)
Definition collect (e : ida) (include_data : bool) (start current : Z)
    (item_size : Z) (gen : generator) : generator :=
  let flags := get_flags e current in
  let code := is_code e flags in
  let should_add := code || include_data in
  let is_data_chunk := negb code in
  if should_add then
    match get_bytes e current item_size with
    | Some (b :: bs) =>
        mk_generator (gen_mode gen) (gen_arch gen) (gen_cs_mode gen)
          (chunks gen
           ++ [mk_chunk (b :: bs) (current - start)%Z is_data_chunk])%list
    | _ => gen
    end
  else gen.

(** The [while current < end] loop of lines 117-160, run for at most
    [fuel] iterations; [None] when the fuel runs out before the loop
    condition fails.  The result is the final value of [current] and the
    generator. *)
Fixpoint chunk_loop (fuel : nat) (e : ida) (include_data : bool)
    (start end_ current : Z) (gen : generator) : option (Z * generator) :=
  if (current <? end_)%Z then
    match fuel with
    | O => None
    | S fuel' =>
        let item_size := item_advance e end_ current in
        let gen' := collect e include_data start current item_size gen in
        chunk_loop fuel' e include_data start end_
          (current + item_size)%Z gen'
    end
  else Some (current, gen).

(** What a call leaves behind: the generator it built, if it built one, and
    the dictionary it returns. *)
Record run : Type := mk_run {
  built : option generator;
  reply : json
}.

Definition valid_modes : list string := ["loose"; "normal"; "strict"].

(** [generate_yara_rule(name, start_addr, end_addr, mode, include_data)];
    [None] when the chunk loop does not finish within [fuel]
    iterations. *)
Definition generate_yara_rule (fuel : nat) (t : toolkit) (e : ida)
    (name start_addr end_addr mode : string) (include_data : bool)
  : option run :=
  if negb (HAS_MKYARA t) then
    Some (mk_run None
      (error_dict
         ("Required libraries not found. Please install 'mkyara' and 'capstone'."
          ++ nl ++ "pip install mkyara capstone")))
  else if negb (str_in mode valid_modes) then
    Some (mk_run None
      (error_dict ("Invalid mode '" ++ mode ++ "'. Must be one of: "
                   ++ join ", " valid_modes)))
  else
    let failed (ex : exn) :=
      error_dict ("Yara generation failed: " ++ py_str ex) in
    match parse_address t start_addr with
    | Raise ex => Some (mk_run None (failed ex))
    | Ok start =>
        match parse_address t end_addr with
        | Raise ex => Some (mk_run None (failed ex))
        | Ok end_ =>
            if (start >=? end_)%Z then
              Some (mk_run None
                (error_dict "Start address must be less than end address."))
            else
              match _get_capstone_context (cs t) e start with
              | Raise ex =>
                  Some (mk_run None
                          match exn_kind ex with
                          | ValueError => error_dict (py_str ex)
                          | _ => failed ex
                          end)
              | Ok (arch, cs_mode) =>
                  let gen := mk_generator mode arch cs_mode [] in
                  match chunk_loop fuel e include_data start end_ start gen
                  with
                  | None => None
                  | Some (_, gen') =>
                      match rule_string t gen' name with
                      | Raise ex => Some (mk_run (Some gen') (failed ex))
                      | Ok text =>
                          Some (mk_run (Some gen')
                            (JObj
                               [ ("success", JBool true);
                                 ("rule", JStr text);
                                 ("info",
                                  JStr ("Generated rule '" ++ name
                                        ++ "' from " ++ hex start ++ " to "
                                        ++ hex end_ ++ " (" ++ mode
                                        ++ " mode)")) ]))
                      end
                  end
              end
        end
    end.

(** [needle in haystack] for strings *)
Fixpoint mentions (needle haystack : string) : bool :=
  String.prefix needle haystack
  || match haystack with
     | EmptyString => false
     | String _ rest => mentions needle rest
     end.

(** An error dictionary whose message contains [word]. *)
Definition error_naming (word : string) (r : json) : bool :=
  match r with
  | JObj [("error", JStr msg)] => mentions word msg
  | _ => false
  end.

Definition is_error_dict (r : json) : bool :=
  match r with
  | JObj [("error", JStr _)] => true
  | _ => false
  end.

End Yara.

(** ** Client configuration: [get_python_executable], [copy_python_env],
    [generate_mcp_config] and [print_mcp_config] of [server.py] *)
Module ClientConfig.

(** What these functions read of the running process: [sys.platform],
    [os.sep], [os.environ.get], [sys.path], [sys.executable], [__file__],
    and the [os.path] functions [exists], [join], [dirname] and
    [abspath]. *)
Record process : Type := mk_process {
  platform : string;
  sep : ascii;
  environ : string -> option string;
  sys_path : list string;
  sys_executable : string;
  script_file : string;
  path_exists : string -> bool;
  join : list string -> string;
  dirname : string -> string;
  abspath : string -> string
}.

(** Truthiness of the value of [os.environ.get]: set and not empty. *)
Definition truthy (value : option string) : option string :=
  match value with
  | Some text => if text =? "" then None else Some text
  | None => None
  end.

(** [s.replace(a, b)] for one-character [a] and [b] *)
Fixpoint replace_char (a b : ascii) (s : string) : string :=
  match s with
  | EmptyString => EmptyString
  | String c rest =>
      String (if Ascii.eqb c a then b else c) (replace_char a b rest)
  end.

(** [s.split(sep)] for a one-character separator: never empty. *)
Fixpoint split_on (sep : ascii) (s : string) : list string :=
  match s with
  | EmptyString => [""]
  | String c rest =>
      if Ascii.eqb c sep then "" :: split_on sep rest
      else
        match split_on sep rest with
        | [] => [String c ""]
        | first :: others => String c first :: others
        end
  end.

(** [s.endswith(suffix)] *)
Definition endswith (suffix s : string) : bool :=
  let n := String.length s in
  let k := String.length suffix in
  (k <=? n)%nat && (substring (n - k) k s =? suffix).

(** A variable that is set to a non-empty value. *)
Definition is_set (o : process) (var : string) : bool :=
  match truthy (environ o var) with
  | Some _ => true
  | None => false
  end.

Definition is_win32 (o : process) : bool := platform o =? "win32".

(** Lines 179-186: the interpreter of the active virtual environment, when
    there is one and the file exists. *)
Definition venv_python (o : process) : option string :=
  match truthy (environ o "VIRTUAL_ENV") with
  | Some venv =>
      let python :=
        if is_win32 o then join o [venv; "Scripts"; "python.exe"]
        else join o [venv; "bin"; "python3"] in
      if path_exists o python then Some python else None
  | None => None
  end.

(** Lines 189-202: the body of the loop over [sys.path], for one entry. *)
Definition zip_candidate (o : process) (path : string) : option string :=
  let path :=
    if is_win32 o then replace_char "/"%char "\"%char path else path in
  let split := split_on (sep o) path in
  if endswith ".zip" (last split "") then
    let path := dirname o path in
    let python_executable :=
      if is_win32 o then join o [path; "python.exe"]
      else join o [path; ".."; "bin"; "python3"] in
    let python_executable := abspath o python_executable in
    if path_exists o python_executable then Some python_executable else None
  else None.

(** The loop of lines 188-202: the first entry that yields a candidate. *)
Fixpoint search_sys_path (o : process) (paths : list string)
  : option string :=
  match paths with
  | [] => None
  | path :: rest =>
      match zip_candidate o path with
      | Some python_executable => Some python_executable
      | None => search_sys_path o rest
      end
  end.

(** [get_python_executable()] *)
Definition get_python_executable (o : process) : string :=
  match venv_python o with
  | Some python => python
  | None =>
      match search_sys_path o (sys_path o) with
      | Some python_executable => python_executable
      | None => sys_executable o
      end
  end.

Definition python_vars : list string :=
  [ "PYTHONHOME"; "PYTHONPATH"; "PYTHONSAFEPATH"; "PYTHONPLATLIBDIR";
    "PYTHONPYCACHEPREFIX"; "PYTHONNOUSERSITE"; "PYTHONUSERBASE" ].

(** The loop of lines 221-225 over the variables still to visit: the flag
    [result] and the dictionary [env] as they stand. *)
Fixpoint copy_vars (o : process) (vars : list string) (result : bool)
    (env : list (string * string)) : bool * list (string * string) :=
  match vars with
  | [] => (result, env)
  | var :: rest =>
      match truthy (environ o var) with
      | Some value => copy_vars o rest true (dict_set var value env)
      | None => copy_vars o rest result env
      end
  end.

(** [copy_python_env(env)]: the value returned and [env] after the call. *)
Definition copy_python_env (o : process) (env : list (string * string))
  : bool * list (string * string) :=
  copy_vars o python_vars false env.

(** [str(n)] for an integer *)
Definition decimal (n : Z) : string :=
  DecimalString.NilZero.string_of_int (Z.to_int n).

(** [f"http://{IDA_HOST}:{IDA_PORT}"] *)
Definition rpc_url (cfg : Router.config) : string :=
  "http://" ++ Router.IDA_HOST cfg ++ ":" ++ decimal (Router.IDA_PORT cfg).

(** Lines 231-239: the argument list of the stdio configuration. *)
Definition stdio_args (o : process) (cfg : Router.config) (mode : string)
  : list string :=
  (script_file o
   :: (if mode =? "headless" then ["--headless"]
       else if mode =? "rpc" then ["--rpc-only"; "--ida-rpc"; rpc_url cfg]
       else if negb (Router.HAS_IDALIB cfg) then ["--ida-rpc"; rpc_url cfg]
       else []))%list.

(** [generate_mcp_config(stdio=..., mode=...)]: the lines printed and the
    dictionary returned. *)
Definition generate_mcp_config (o : process) (cfg : Router.config)
    (stdio : bool) (mode : string) : list string * json :=
  if stdio then
    let mcp_config :=
      [ ("command", JStr (get_python_executable o));
        ("args", JArr (map JStr (stdio_args o cfg mode))) ] in
    let (copied, env) := copy_python_env o [] in
    if copied then
      (["[WARNING] Custom Python environment variables detected"],
       JObj (dict_set "env"
               (JObj (map (fun kv => (fst kv, JStr (snd kv))) env))
               mcp_config))
    else ([], JObj mcp_config)
  else
    ([], JObj [ ("type", JStr "http");
                ("url", JStr (rpc_url cfg ++ "/mcp")) ]).

(** [print_mcp_config(mode)]: the lines printed, given [mcp.name] and
    [json.dumps(..., indent=2)]. *)
Definition print_mcp_config (o : process) (cfg : Router.config)
    (mcp_name : string) (dumps : json -> string) (mode : string)
  : list string :=
  let (warn_http, http) := generate_mcp_config o cfg false mode in
  let (warn_stdio, stdio) := generate_mcp_config o cfg true mode in
  let http_header := "[HTTP MCP CONFIGURATION (Mode: " ++ mode ++ ")]" in
  let stdio_header :=
    nl ++ "[STDIO MCP CONFIGURATION (Mode: " ++ mode ++ ")]" in
  ([http_header]
   ++ warn_http
   ++ [dumps (JObj [("mcpServers", JObj [(mcp_name, http)])])]
   ++ [stdio_header]
   ++ warn_stdio
   ++ [dumps (JObj [("mcpServers", JObj [(mcp_name, stdio)])])])%list.

End ClientConfig.

(** ** Client installation: [install_mcp_servers] of [server.py] *)
Module McpInstall.

(** One entry of the platform's table [configs]: the client's name, its
    configuration directory and the name of its configuration file. *)
Definition client : Type := (string * (string * string))%type.

(** What [install_mcp_servers] takes from its surroundings: the process and
    the module globals read by [generate_mcp_config], [mcp.name], the three
    tables of lines 278-670 with their paths evaluated, [os.path.exists] on
    a configuration directory, [os.path.join] of directory and file,
    [str.strip], the UTF-8 decoding of a file's content (by the text-mode
    [f.read()] of line 709 and by [data.decode("utf-8")] of line 701), and
    the JSON and TOML codecs.  [utf8_decode] raises the
    [UnicodeDecodeError], a [ValueError], of content that is not UTF-8.  A
    JSON or TOML decoder returns [None] where the library raises its own
    decode error. *)
Record host : Type := mk_host {
  process : ClientConfig.process;
  globals : Router.config;
  mcp_name : string;
  win32_configs : list client;
  darwin_configs : list client;
  linux_configs : list client;
  dir_exists : string -> bool;
  join_path : string -> string -> string;
  strip : string -> string;
  utf8_decode : string -> result string;
  json_loads : string -> option json;
  json_dumps : json -> string;
  toml_loads : string -> option json;
  toml_dumps : json -> result string
}.

(** Lines 272-275. *)
Definition special_json_structures : list (string * (option string * string)) :=
  [ ("VS Code", (Some "mcp", "servers"));
    ("Visual Studio 2022", (None, "servers")) ].

Definition old_name : string := "github.com/mrexodia/ida-pro-mcp".

(** A [TypeError] of the interpreter; its text is not modelled. *)
Definition type_error : exn := mk_exn TypeError "unsupported operand".

(** [x in v] for a string [x]: a key of a dictionary, an element of a list,
    a substring of a string; other values are not containers. *)
Definition py_in (x : string) (v : json) : result bool :=
  match v with
  | JObj fields => Ok (dict_has x fields)
  | JArr items => Ok (existsb (fun item => eq_str item x) items)
  | JStr text => Ok (Yara.mentions x text)
  | _ => Raise type_error
  end.

(** [if key not in container: container[key] = {}] followed by
    [container[key]]: the fields of the dictionary afterwards and the value
    read.  On a list or a string either the assignment or the subscript
    raises. *)
Definition ensure (key : string) (container : json)
  : result (list (string * json) * json) :=
  match container with
  | JObj fields =>
      match dict_get key fields with
      | Some value => Ok (fields, value)
      | None => Ok (dict_set key (JObj []) fields, JObj [])
      end
  | _ => Raise type_error
  end.

(** The object [mcp_servers] refers to, and the configuration as a function
    of what that object becomes (the object is shared with [config]). *)
Record located : Type := mk_located {
  table : json;
  put : json -> json
}.

Definition locate_at (key : string) (config : json) : result located :=
  match ensure key config with
  | Raise e => Raise e
  | Ok (fields, value) =>
      Ok (mk_located value (fun t => JObj (dict_set key t fields)))
  end.

(** Lines 722-747. *)
Definition locate (is_toml : bool) (name : string) (config : json)
  : result located :=
  if is_toml then locate_at "mcp_servers" config
  else
    match dict_get name special_json_structures with
    | Some (None, nested_key) => locate_at nested_key config
    | Some (Some top_key, nested_key) =>
        match ensure top_key config with
        | Raise e => Raise e
        | Ok (fields, inner) =>
            match ensure nested_key inner with
            | Raise e => Raise e
            | Ok (inner_fields, value) =>
                Ok (mk_located value
                      (fun t =>
                         JObj (dict_set top_key
                                 (JObj (dict_set nested_key t inner_fields))
                                 fields)))
            end
        end
    | None => locate_at "mcpServers" config
    end.

(** Lines 749-753: the entry under the old name moves to [mcp.name]. *)
Definition migrate (mcp_name : string) (table : json) : result json :=
  match py_in old_name table with
  | Raise e => Raise e
  | Ok false => Ok table
  | Ok true =>
      match table with
      | JObj fields =>
          match dict_get old_name fields with
          | Some value =>
              Ok (JObj (dict_del old_name (dict_set mcp_name value fields)))
          | None => Raise (mk_exn KeyError old_name)
          end
      | _ => Raise type_error
      end
  end.

(** Lines 755-762: [None] when the server is not installed. *)
Definition remove_entry (mcp_name : string) (table : json)
  : result (option json) :=
  match py_in mcp_name table with
  | Raise e => Raise e
  | Ok false => Ok None
  | Ok true =>
      match table with
      | JObj fields => Ok (Some (JObj (dict_del mcp_name fields)))
      | _ => Raise type_error
      end
  end.

(** Line 764: [mcp_servers[mcp.name] = entry]. *)
Definition set_entry (mcp_name : string) (entry : json) (table : json)
  : result json :=
  match table with
  | JObj fields => Ok (JObj (dict_set mcp_name entry fields))
  | _ => Raise type_error
  end.

(** Lines 686-720: the configuration read, the reason it is skipped, or
    the exception that nothing in the loop handles: only
    [tomllib.TOMLDecodeError] and [json.decoder.JSONDecodeError] are caught,
    so the [UnicodeDecodeError] of a file that is not UTF-8 leaves
    [install_mcp_servers]. *)
Inductive reading : Type :=
| Loaded (config : json)
| Unreadable (reason : string)
| ReadRaised (e : exn).

Definition read_config (h : host) (is_toml : bool)
    (files : list (string * string)) (config_path : string) : reading :=
  match dict_get config_path files with
  | None => Loaded (JObj [])
  | Some content =>
      if is_toml then
        if content =? "" then Loaded (JObj [])
        else
          match utf8_decode h content with
          | Raise e => ReadRaised e
          | Ok text =>
              match toml_loads h text with
              | Some config => Loaded config
              | None => Unreadable "invalid TOML"
              end
          end
      else
        match utf8_decode h content with
        | Raise e => ReadRaised e
        | Ok text =>
            let data := strip h text in
            if data =? "" then Loaded (JObj [])
            else
              match json_loads h data with
              | Some config => Loaded config
              | None => Unreadable "invalid JSON"
              end
        end
  end.

(** One iteration of the loop of lines 676-789: the files afterwards, the
    lines printed, and whether the iteration reached [installed += 1] or
    raised. *)
Record step : Type := mk_step {
  files_after : list (string * string);
  printed : list string;
  counted : result bool
}.

(** Lines 766-789: serialise, replace the file atomically, report.  The
    temporary file of lines 768-782 is gone when the step ends: renamed over
    the configuration file, or unlinked when the serialiser raises. *)
Definition write_config (h : host) (is_toml uninstall quiet : bool)
    (files : list (string * string)) (name config_path : string)
    (warnings : list string) (config : json) : step :=
  let serialised :=
    if is_toml then toml_dumps h config else Ok (json_dumps h config) in
  match serialised with
  | Raise e => mk_step files warnings (Raise e)
  | Ok text =>
      mk_step (dict_set config_path text files)
        (warnings
         ++ (if quiet then []
             else [((if uninstall then "Uninstalled" else "Installed")
                    ++ " " ++ name ++ " MCP server (restart required)" ++ nl
                    ++ "  Config: " ++ config_path)%string]))%list
        (Ok true)
  end.

Definition install_client (h : host) (stdio : bool) (mode : string)
    (uninstall quiet : bool) (files : list (string * string)) (c : client)
  : step :=
  let '(name, (config_dir, config_file)) := c in
  let config_path := join_path h config_dir config_file in
  let is_toml := ClientConfig.endswith ".toml" config_file in
  let say (line : string) : list string := if quiet then [] else [line] in
  if negb (dir_exists h config_dir) then
    mk_step files
      (say ("Skipping " ++ name ++ " "
            ++ (if uninstall then "uninstall" else "installation") ++ nl
            ++ "  Config: " ++ config_path ++ " (not found)"))
      (Ok false)
  else
    match read_config h is_toml files config_path with
    | ReadRaised e => mk_step files [] (Raise e)
    | Unreadable reason =>
        mk_step files
          (say ("Skipping " ++ name ++ " uninstall" ++ nl
                ++ "  Config: " ++ config_path ++ " (" ++ reason ++ ")"))
          (Ok false)
    | Loaded config =>
        match locate is_toml name config with
        | Raise e => mk_step files [] (Raise e)
        | Ok loc =>
            match migrate (mcp_name h) (table loc) with
            | Raise e => mk_step files [] (Raise e)
            | Ok migrated =>
                if uninstall then
                  match remove_entry (mcp_name h) migrated with
                  | Raise e => mk_step files [] (Raise e)
                  | Ok None =>
                      mk_step files
                        (say ("Skipping " ++ name ++ " uninstall" ++ nl
                              ++ "  Config: " ++ config_path
                              ++ " (not installed)"))
                        (Ok false)
                  | Ok (Some t) =>
                      write_config h is_toml uninstall quiet files name
                        config_path [] (put loc t)
                  end
                else
                  let (warnings, entry) :=
                    ClientConfig.generate_mcp_config (process h) (globals h)
                      stdio mode in
                  match set_entry (mcp_name h) entry migrated with
                  | Raise e => mk_step files warnings (Raise e)
                  | Ok t =>
                      write_config h is_toml uninstall quiet files name
                        config_path warnings (put loc t)
                  end
            end
        end
    end.

(** The loop of lines 675-789 over the clients still to visit. *)
Fixpoint install_loop (h : host) (stdio : bool) (mode : string)
    (uninstall quiet : bool) (configs : list client)
    (files : list (string * string)) (installed : nat)
  : list (string * string) * list string * result nat :=
  match configs with
  | [] => (files, [], Ok installed)
  | c :: rest =>
      let s := install_client h stdio mode uninstall quiet files c in
      match counted s with
      | Raise e => (files_after s, printed s, Raise e)
      | Ok reached =>
          let '(files', out, r) :=
            install_loop h stdio mode uninstall quiet rest (files_after s)
              (if reached then S installed else installed) in
          (files', (printed s ++ out)%list, r)
      end
  end.

(** Lines 277-673: the table of the platform, if it is a supported one. *)
Definition configs_for (h : host) : option (list client) :=
  let platform := ClientConfig.platform (process h) in
  if platform =? "win32" then Some (win32_configs h)
  else if platform =? "darwin" then Some (darwin_configs h)
  else if platform =? "linux" then Some (linux_configs h)
  else None.

(** [install_mcp_servers(stdio=..., mode=..., uninstall=..., quiet=...)]:
    the files afterwards, the lines printed, and the exception that
    escapes, if any. *)
Definition install_mcp_servers (h : host) (stdio : bool) (mode : string)
    (uninstall quiet : bool) (files : list (string * string))
  : list (string * string) * list string * option exn :=
  match configs_for h with
  | None =>
      (files,
       ["Unsupported platform: " ++ ClientConfig.platform (process h)],
       None)
  | Some configs =>
      match install_loop h stdio mode uninstall quiet configs files 0 with
      | (files', out, Raise e) => (files', out, Some e)
      | (files', out, Ok installed) =>
          if negb uninstall && (installed =? 0)%nat then
            (files',
             (out
              ++ [("No MCP servers installed. For unsupported MCP clients, use the following config:"
                   ++ nl)%string]
              ++ ClientConfig.print_mcp_config (process h) (globals h)
                   (mcp_name h) (json_dumps h) mode)%list,
             None)
          else (files', out, None)
      end
  end.

(** The top-level key of the configuration under which the server table
    lives, per lines 722-747. *)
Definition root_key (is_toml : bool) (name : string) : string :=
  if is_toml then "mcp_servers"
  else
    match dict_get name special_json_structures with
    | Some (None, nested_key) => nested_key
    | Some (Some top_key, _) => top_key
    | None => "mcpServers"
    end.

(** Lines 749-764 on the install path: the table after the migration and
    the assignment of the new entry. *)
Definition install_table (mcp_name : string) (entry : json) (table : json)
  : result json :=
  match migrate mcp_name table with
  | Raise e => Raise e
  | Ok migrated => set_entry mcp_name entry migrated
  end.

(** Lines 749-762 on the uninstall path: [None] when the server is not
    installed. *)
Definition uninstall_table (mcp_name : string) (table : json)
  : result (option json) :=
  match migrate mcp_name table with
  | Raise e => Raise e
  | Ok migrated => remove_entry mcp_name migrated
  end.

(** The configuration an install step hands to the serialiser, when the
    step gets that far. *)
Definition installed_config (h : host) (stdio : bool) (mode : string)
    (files : list (string * string)) (c : client) : option json :=
  let '(name, (config_dir, config_file)) := c in
  let is_toml := ClientConfig.endswith ".toml" config_file in
  if negb (dir_exists h config_dir) then None
  else
    match read_config h is_toml files (join_path h config_dir config_file)
    with
    | Unreadable _ => None
    | ReadRaised _ => None
    | Loaded config =>
        match locate is_toml name config with
        | Raise _ => None
        | Ok loc =>
            match install_table (mcp_name h)
                    (snd (ClientConfig.generate_mcp_config (process h)
                            (globals h) stdio mode))
                    (table loc) with
            | Raise _ => None
            | Ok t => Some (put loc t)
            end
        end
    end.

(** The paths [install_mcp_servers] may write on this host: the
    configuration files of the table's clients whose directory exists. *)
Definition writable_paths (h : host) (configs : list client) : list string :=
  map (fun c : client => join_path h (fst (snd c)) (snd (snd c)))
    (filter (fun c : client => dir_exists h (fst (snd c))) configs).

End McpInstall.

(** ** Plugin installation: [install_ida_plugin] of [server.py] *)
Module PluginInstall.

(** What [install_ida_plugin] observes: [sys.platform], [os.environ],
    [os.path.expanduser("~")], [os.path.join], [glob.glob], the module
    globals [IDA_PLUGIN_LOADER] and [IDA_PLUGIN_PKG], the [os.path]
    predicates and [realpath], whether [os.symlink] of a source to a
    destination raises [OSError], and the directories above a path,
    nearest first ([os.path.split] repeated, as [os.makedirs] does).  Every
    path is observed before the function changes it, so the observations
    are those of the file system at the call. *)
Record machine : Type := mk_machine {
  platform : string;
  environ : string -> option string;
  home : string;
  join : list string -> string;
  glob : string -> list string;
  IDA_PLUGIN_LOADER : string;
  IDA_PLUGIN_PKG : string;
  exists_ : string -> bool;
  lexists : string -> bool;
  isdir : string -> bool;
  islink : string -> bool;
  realpath : string -> string;
  symlink_fails : string -> string -> bool;
  ancestors : string -> list string
}.

(** The steps that change the file system or print. *)
Inductive action : Type :=
| Print (line : string)
| Remove (path : string)
| Rmtree (path : string)
| Makedirs (path : string)
| Symlink (source destination : string)
| Copy (source destination : string)
| Copytree (source destination : string).

Inductive ending : Type :=
| Returned
| SysExit (code : Z)
| Raised (e : exn).

(** The path a call is made on, if it is made on one. *)
Definition target (a : action) : option string :=
  match a with
  | Print _ => None
  | Remove path | Rmtree path | Makedirs path => Some path
  | Symlink _ destination | Copy _ destination | Copytree _ destination =>
      Some destination
  end.

Definition say (quiet : bool) (line : string) : list action :=
  if quiet then [] else [Print line].

(** Lines 800-803: [os.environ["APPDATA"]] raises when the variable is
    missing. *)
Definition ida_folder (m : machine) : result string :=
  if platform m =? "win32" then
    match environ m "APPDATA" with
    | Some appdata => Ok (join m [appdata; "Hex-Rays"; "IDA Pro"])
    | None => Raise (mk_exn KeyError "'APPDATA'")
    end
  else Ok (join m [home m; ".idapro"]).

Definition plugin_folder (m : machine) (folder : string) : string :=
  join m [folder; "plugins"].

Definition loader_destination (m : machine) (folder : string) : string :=
  join m [plugin_folder m folder; "ida_mcp.py"].

Definition pkg_destination (m : machine) (folder : string) : string :=
  join m [plugin_folder m folder; "ida_mcp"].

Definition old_plugin (m : machine) (folder : string) : string :=
  join m [plugin_folder m folder; "mcp-plugin.py"].

(** Lines 832-835 and 882-887: a real directory is removed as a tree,
    anything else as a file. *)
Definition remove_package (m : machine) (path : string) : action :=
  if isdir m path && negb (islink m path) then Rmtree path else Remove path.

(** Lines 823-843. *)
Definition uninstall_steps (m : machine) (quiet : bool) (folder : string)
  : list action :=
  let loader := loader_destination m folder in
  let pkg := pkg_destination m folder in
  let old := old_plugin m folder in
  ((if lexists m loader then
      Remove loader
      :: say quiet ("Uninstalled IDA plugin loader" ++ nl ++ "  Path: "
                    ++ loader)
    else [])
   ++ (if exists_ m pkg then
         remove_package m pkg
         :: say quiet ("Uninstalled IDA plugin package" ++ nl ++ "  Path: "
                       ++ pkg)
       else [])
   ++ (if lexists m old then
         Remove old
         :: say quiet ("Removed old plugin" ++ nl ++ "  Path: " ++ old)
       else []))%list.

(** Lines 858-872: the steps for the loader file and what they add to
    [installed_items]. *)
Definition install_loader (m : machine) (folder : string)
  : list action * list string :=
  let source := IDA_PLUGIN_LOADER m in
  let destination := loader_destination m folder in
  let up_to_date :=
    lexists m destination && (realpath m destination =? source) in
  if up_to_date then ([], [])
  else
    ((if lexists m destination then [Remove destination] else [])
     ++ [if symlink_fails m source destination
         then Copy source destination
         else Symlink source destination],
     [("loader: " ++ destination)%string])%list.

(** Lines 875-894: the steps for the package directory. *)
Definition install_package (m : machine) (folder : string)
  : list action * list string :=
  let source := IDA_PLUGIN_PKG m in
  let destination := pkg_destination m folder in
  let up_to_date :=
    lexists m destination && (realpath m destination =? source) in
  if up_to_date then ([], [])
  else
    ((if lexists m destination then [remove_package m destination] else [])
     ++ [if symlink_fails m source destination
         then Copytree source destination
         else Symlink source destination],
     [("package: " ++ destination)%string])%list.

(** Lines 845-902. *)
Definition install_steps (m : machine) (quiet : bool) (folder : string)
  : list action :=
  let plugins := plugin_folder m folder in
  let old := old_plugin m folder in
  let (loader_actions, loader_items) := install_loader m folder in
  let (pkg_actions, pkg_items) := install_package m folder in
  let installed_items := (loader_items ++ pkg_items)%list in
  ((if exists_ m plugins then [] else [Makedirs plugins])
   ++ (if lexists m old then
         Remove old
         :: say quiet ("Removed old plugin file" ++ nl ++ "  Path: " ++ old)
       else [])
   ++ loader_actions
   ++ pkg_actions
   ++ (if quiet then []
       else
         match installed_items with
         | [] =>
             [Print "Skipping IDA plugin installation (already up to date)"]
         | _ =>
             Print "Installed IDA Pro plugin (IDA restart required)"
             :: map (fun item => Print ("  " ++ item)%string) installed_items
         end))%list.

(** [install_ida_plugin(uninstall=..., quiet=..., allow_ida_free=...)]: the
    steps taken and how the call ends. *)
Definition install_ida_plugin (m : machine)
    (uninstall quiet allow_ida_free : bool) : list action * ending :=
  match ida_folder m with
  | Raise e => ([], Raised e)
  | Ok folder =>
      let free_licenses := glob m (join m [folder; "idafree_*.hexlic"]) in
      if negb allow_ida_free && negb (length free_licenses =? 0)%nat then
        ([Print "IDA Free does not support plugins and cannot be used. Purchase and install IDA Pro instead."],
         SysExit 1)
      else if uninstall then (uninstall_steps m quiet folder, Returned)
      else (install_steps m quiet folder, Returned)
  end.

(** The paths of the actions that change the file system. *)
Definition targets (steps : list action) : list string :=
  flat_map (fun a => match target a with Some p => [p] | None => [] end)
    steps.

(** The directories above a path that [os.makedirs] creates with it: it
    goes up while the directory above does not exist. *)
Fixpoint missing_prefix (m : machine) (dirs : list string) : list string :=
  match dirs with
  | [] => []
  | d :: rest => if exists_ m d then [] else d :: missing_prefix m rest
  end.

(** The paths an action creates, replaces or removes: the path it is called
    on (for [shutil.rmtree] and [shutil.copytree] it stands for the tree
    below it) and, for [os.makedirs], the missing directories above it. *)
Definition changes (m : machine) (a : action) : list string :=
  match a with
  | Print _ => []
  | Remove path | Rmtree path => [path]
  | Makedirs path => path :: missing_prefix m (ancestors m path)
  | Symlink _ destination | Copy _ destination | Copytree _ destination =>
      [destination]
  end.

Definition changed_paths (m : machine) (steps : list action) : list string :=
  flat_map (changes m) steps.

End PluginInstall.

(** ** Sample configurations and requests *)
Module Samples.

(** Hybrid mode with a local engine. *)
Definition hybrid : Router.config :=
  Router.mk_config "127.0.0.1" 13337 false false true true "linux".

(** No local engine at all: the defaults of a machine without idalib. *)
Definition gui_only : Router.config :=
  Router.mk_config "127.0.0.1" 13337 false false false false "linux".

(** [--headless] with idalib present. *)
Definition forced_headless : Router.config :=
  Router.mk_config "127.0.0.1" 13337 true false true true "linux".

(** [--rpc-only] with idalib present. *)
Definition forced_rpc : Router.config :=
  Router.mk_config "127.0.0.1" 13337 false true true true "linux".

Definition refused : exn :=
  mk_exn GenericException "[Errno 111] Connection refused".

Definition engine_down : exn := mk_exn RuntimeError "database is not open".

(** Peers whose local engine fails and whose remote side is unreachable. *)
Definition unreachable : Router.peers :=
  Router.mk_peers
    (fun _ => Raise (mk_exn ValueError "Expecting value"))
    (fun _ => Ok (Some (JObj [("result", JStr "original")])))
    (fun _ => Raise engine_down)
    (fun _ _ _ => Router.ExchangeFailed refused)
    (fun e => "Traceback (most recent call last): " ++ py_str e).

Definition open_call : Router.request :=
  Router.ReqDict
    [ ("jsonrpc", JStr "2.0");
      ("method", JStr "tools/call");
      ("params", JObj [ ("name", JStr "open_database");
                        ("arguments", JObj [("input_path", JStr "/bin/a")]) ]);
      ("id", JNum 7) ].

Definition decompile_call : Router.request :=
  Router.ReqDict
    [ ("jsonrpc", JStr "2.0");
      ("method", JStr "tools/call");
      ("params", JObj [ ("name", JStr "decompile") ]);
      ("id", JNum 7) ].

(** A request without an id: a notification. *)
Definition log_notice : Router.request :=
  Router.ReqDict
    [ ("jsonrpc", JStr "2.0");
      ("method", JStr "logging/setLevel");
      ("params", JObj [ ("level", JStr "debug") ]) ].

Definition initialize : Router.request :=
  Router.ReqDict
    [ ("jsonrpc", JStr "2.0"); ("method", JStr "initialize");
      ("id", JNum 0) ].

(** A host on which /bin/a and /bin/b exist and every file loads. *)
Definition two_binaries : SessionManager.host :=
  SessionManager.mk_host
    (fun path => (path =? "/bin/a") || (path =? "/bin/b"))
    (fun path => path)
    (fun path => path)
    (fun m => "auto-"
              ++ NilZero.string_of_uint
                   (N.to_hex_uint
                      (N.of_nat (length (SessionManager.sessions m)))))
    1700000000
    (fun _ => true).

(** Hybrid mode on macOS. *)
Definition hybrid_darwin : Router.config :=
  Router.mk_config "127.0.0.1" 13337 false false true true "darwin".

(** [--ida-rpc 'http://a b:1'] on a machine without idalib: [main] accepts
    the host name, [HTTPConnection] does not. *)
Definition bad_host : Router.config :=
  Router.mk_config "a b" 1 false false false false "linux".

Definition invalid_url : exn :=
  mk_exn GenericException
    "URL can't contain control characters. 'a b' (found at least ' ')".

Definition local_answer : json :=
  JObj [ ("jsonrpc", JStr "2.0"); ("result", JStr "local"); ("id", JNum 7) ].

Definition remote_answer : json :=
  JObj [ ("jsonrpc", JStr "2.0"); ("result", JStr "remote"); ("id", JNum 7) ].

(** Peers whose local engine answers and whose remote side answers too. *)
Definition engine_up : Router.peers :=
  Router.mk_peers
    (fun _ => Raise (mk_exn ValueError "Expecting value"))
    (fun _ => Ok (Some (JObj [("result", JStr "original")])))
    (fun _ => Ok (Some local_answer))
    (fun _ _ _ => Router.Answered remote_answer)
    (fun e => "Traceback (most recent call last): " ++ py_str e).

(** Peers whose local engine fails while the IDA GUI answers. *)
Definition gui_running : Router.peers :=
  Router.mk_peers
    (fun _ => Raise (mk_exn ValueError "Expecting value"))
    (fun _ => Ok (Some (JObj [("result", JStr "original")])))
    (fun _ => Raise engine_down)
    (fun _ _ _ => Router.Answered remote_answer)
    (fun e => "Traceback (most recent call last): " ++ py_str e).

(** Peers for which a host name with a blank cannot be made a connection,
    and every other host refuses the connection. *)
Definition strict_client : Router.peers :=
  Router.mk_peers
    (fun _ => Raise (mk_exn ValueError "Expecting value"))
    (fun _ => Ok (Some (JObj [("result", JStr "original")])))
    (fun _ => Raise engine_down)
    (fun host _ _ =>
       if host =? "a b" then Router.InvalidConnection invalid_url
       else Router.ExchangeFailed refused)
    (fun e => "Traceback (most recent call last): " ++ py_str e).

(** A host on which /bin/a is also reachable as /bin/./a. *)
Definition dotted_paths : SessionManager.host :=
  SessionManager.mk_host
    (fun path => (path =? "/bin/a") || (path =? "/bin/./a")
                 || (path =? "/bin/b"))
    (fun path => if path =? "/bin/./a" then "/bin/a" else path)
    (fun path => path)
    (fun m => "auto-"
              ++ NilZero.string_of_uint
                   (N.to_hex_uint
                      (N.of_nat (length (SessionManager.sessions m)))))
    1700000000
    (fun _ => true).

Definition plain_system : Startup.system :=
  Startup.mk_system
    (fun text =>
       if text =? "http://127.0.0.1:8744"
       then Ok (Startup.mk_url (Some "127.0.0.1") (Some 8744))
       else Ok (Startup.mk_url None None))
    two_binaries true false.

(** [ida-pro-mcp --headless --rpc-only] *)
Definition both_flags : Startup.args :=
  Startup.mk_args false false false "stdio" None true true false false None.

(** [ida-pro-mcp --headless --rpc-only --ida-rpc nonsense] *)
Definition both_flags_bad_rpc : Startup.args :=
  Startup.mk_args false false false "stdio" (Some "nonsense") true true
    false false None.

(** The values capstone gives its constants. *)
Definition capstone_5 : Yara.capstone :=
  Yara.mk_capstone 3 0 1 2 4 8 0 16 0 (Z.shiftl 1 31) 4 8.

(** A 64-bit x86 database in which every fourth address starts a 3-byte
    instruction and the addresses in between are undefined bytes of
    size 0. *)
Definition x86_engine : Yara.ida :=
  Yara.mk_ida "metapc" 64 false
    (fun _ _ => 0)
    (fun ea => if (ea mod 4 =? 0)%Z then 3%N else 0%N)
    (fun ea => if (ea mod 4 =? 0)%Z then 1536 else 0)
    (fun flags => (flags =? 1536)%Z)
    (fun ea size => Some (repeat x90 (Z.to_nat size))).

Definition parse_hex (text : string) : result Z :=
  if text =? "0x1000" then Ok 4096
  else if text =? "0x1010" then Ok 4112
  else Raise (mk_exn ValueError ("Invalid address: " ++ text)).

Definition with_mkyara : Yara.toolkit :=
  Yara.mk_toolkit true capstone_5 parse_hex
    (fun gen name => Ok ("rule " ++ name ++ " { ... }")).

Definition without_mkyara : Yara.toolkit :=
  Yara.mk_toolkit false capstone_5 parse_hex
    (fun gen name => Ok ("rule " ++ name ++ " { ... }")).

(** [ida-pro-mcp --headless /bin/a] *)
Definition serve_headless : Startup.args :=
  Startup.mk_args false false false "stdio" None true false false false
    (Some "/bin/a").

(** [ida-pro-mcp --rpc-only /bin/a] *)
Definition serve_rpc_only : Startup.args :=
  Startup.mk_args false false false "stdio" None false true false false
    (Some "/bin/a").

(** [ida-pro-mcp --install] *)
Definition install_only : Startup.args :=
  Startup.mk_args true false false "stdio" None false false false false None.

(** A Linux process with PYTHONPATH set, started from a zipped standard
    library next to an existing interpreter. *)
Definition laptop : ClientConfig.process :=
  ClientConfig.mk_process "linux" "/"%char
    (fun var => if var =? "PYTHONPATH" then Some "/opt/lib" else None)
    ["/usr/lib/python311.zip"; "/usr/lib/python3.11"]
    "/usr/bin/python3"
    "/opt/ida-pro-mcp/server.py"
    (fun path => path =? "/usr/bin/python3")
    (fun parts => Yara.join "/" parts)
    (fun path => if path =? "/usr/lib/python311.zip" then "/usr/lib" else path)
    (fun path =>
       if path =? "/usr/lib/../bin/python3" then "/usr/bin/python3"
       else path).

(** The configuration a first install writes for Cursor on [laptop]. *)
Definition cursor_written : json :=
  JObj [ ("mcpServers",
          JObj [ ("ida-pro-mcp",
                  snd (ClientConfig.generate_mcp_config laptop hybrid true
                         "hybrid")) ]) ].

(** A host with three known clients of which only Cursor is present; its
    JSON codec writes the document "doc" and reads it back. *)
Definition dev_host : McpInstall.host :=
  McpInstall.mk_host laptop hybrid "ida-pro-mcp"
    []
    []
    [ ("Cursor", ("/home/u/.cursor", "mcp.json"));
      ("Codex", ("/home/u/.codex", "config.toml"));
      ("VS Code", ("/home/u/.config/Code/User", "settings.json")) ]
    (fun dir => dir =? "/home/u/.cursor")
    (fun dir file => dir ++ "/" ++ file)
    (fun text => text)
    (fun content =>
       if content =? "latin-1" then
         Raise (mk_exn ValueError
                  "'utf-8' codec can't decode byte 0xe9 in position 0")
       else Ok content)
    (fun text => if text =? "doc" then Some cursor_written else None)
    (fun _ => "doc")
    (fun _ => None)
    (fun _ => Ok "toml").

(** A server table holding another server and an entry under the old
    name. *)
Definition old_table : list (string * json) :=
  [ ("other", JObj [("command", JStr "other-server")]);
    ("github.com/mrexodia/ida-pro-mcp", JObj [("command", JStr "python")]) ].

(** A Linux machine on which the plugin package is installed as a real
    directory and the loader as a stale link. *)
Definition copied_install : PluginInstall.machine :=
  PluginInstall.mk_machine "linux" (fun _ => None) "/home/u"
    (fun parts => Yara.join "/" parts)
    (fun _ => [])
    "/opt/ida-pro-mcp/ida_mcp.py"
    "/opt/ida-pro-mcp/ida_mcp"
    (fun path => negb (path =? "/home/u/.idapro/plugins/mcp-plugin.py"))
    (fun path => negb (path =? "/home/u/.idapro/plugins/mcp-plugin.py"))
    (fun path => path =? "/home/u/.idapro/plugins/ida_mcp")
    (fun path => path =? "/home/u/.idapro/plugins/ida_mcp.py")
    (fun path => path)
    (fun _ _ => false)
    (fun path =>
       if path =? "/home/u/.idapro/plugins"
       then ["/home/u/.idapro"; "/home/u"; "/"] else []).

(** A Linux machine on which IDA never ran: the home directory exists and
    nothing below [~/.idapro] does. *)
Definition first_install : PluginInstall.machine :=
  PluginInstall.mk_machine "linux" (fun _ => None) "/home/u"
    (fun parts => Yara.join "/" parts)
    (fun _ => [])
    "/opt/ida-pro-mcp/ida_mcp.py"
    "/opt/ida-pro-mcp/ida_mcp"
    (fun path => (path =? "/home/u") || (path =? "/"))
    (fun path => (path =? "/home/u") || (path =? "/"))
    (fun path => (path =? "/home/u") || (path =? "/"))
    (fun _ => false)
    (fun path => path)
    (fun _ _ => false)
    (fun path =>
       if path =? "/home/u/.idapro/plugins"
       then ["/home/u/.idapro"; "/home/u"; "/"] else []).

End Samples.

(** * Properties *)

(** ** Dictionaries *)
Section DictFacts.
Context {V : Type}.
Implicit Types (d : list (string * V)) (k : string) (v : V).

Lemma dict_get_set_same d k v : dict_get k (dict_set k v d) = Some v.
Proof.
  induction d as [|[k' v'] rest IH]; simpl.
  - now rewrite String.eqb_refl.
  - destruct (k' =? k) eqn:E; simpl.
    + now rewrite String.eqb_refl.
    + now rewrite E.
Qed.

Lemma dict_get_set_other d k k' v :
  k' <> k -> dict_get k' (dict_set k v d) = dict_get k' d.
Proof.
  intros Hne.
  induction d as [|[k0 v0] rest IH]; simpl.
  - destruct (k =? k') eqn:E; [apply String.eqb_eq in E; congruence | easy].
  - destruct (k0 =? k) eqn:E; simpl.
    + apply String.eqb_eq in E; subst k0.
      destruct (k =? k') eqn:E'; [apply String.eqb_eq in E'; congruence|easy].
    + destruct (k0 =? k'); [reflexivity | exact IH].
Qed.

Lemma dict_get_del_other d k k' :
  k' <> k -> dict_get k' (dict_del k d) = dict_get k' d.
Proof.
  intros Hne.
  induction d as [|[k0 v0] rest IH]; simpl; [reflexivity|].
  destruct (k0 =? k) eqn:E; simpl.
  - apply String.eqb_eq in E; subst k0.
    destruct (k =? k') eqn:E'; [apply String.eqb_eq in E'; congruence|easy].
  - destruct (k0 =? k'); [reflexivity | exact IH].
Qed.

(** A key found by [dict_find] is bound, and some binding of it satisfies
    the predicate. *)
Lemma dict_find_some (p : V -> bool) d k :
  dict_find p d = Some k -> exists v, In (k, v) d /\ p v = true.
Proof.
  induction d as [|[k0 v0] rest IH]; simpl; [discriminate|].
  destruct (p v0) eqn:E; intros H.
  - injection H as <-. exists v0. auto.
  - destruct (IH H) as (v & Hin & Hp). exists v. auto.
Qed.

Lemma dict_get_of_in d k v : In (k, v) d -> dict_get k d <> None.
Proof.
  induction d as [|[k0 v0] rest IH]; simpl; [tauto|].
  intros [H | H].
  - injection H as -> ->. now rewrite String.eqb_refl.
  - destruct (k0 =? k); [discriminate | auto].
Qed.


Lemma dict_set_length_bound d k v :
  (length d <= length (dict_set k v d) <= S (length d))%nat.
Proof.
  induction d as [|[k0 v0] rest IH]; simpl; [lia|].
  destruct (k0 =? k); simpl; lia.
Qed.
Lemma dict_get_in d k v : dict_get k d = Some v -> In (k, v) d.
Proof.
  induction d as [|[k0 v0] rest IH]; simpl; [discriminate|].
  destruct (k0 =? k) eqn:E.
  - apply String.eqb_eq in E. intros H. injection H as ->. subst. auto.
  - auto.
Qed.

Lemma dict_find_none (p : V -> bool) d k v :
  dict_find p d = None -> In (k, v) d -> p v = false.
Proof.
  induction d as [|[k0 v0] rest IH]; simpl; [tauto|].
  destruct (p v0) eqn:E; [discriminate|].
  intros Hnone [H | H]; [injection H as _ <-; exact E | auto].
Qed.

Lemma Forall_dict_set (P : string * V -> Prop) d k v :
  Forall P d -> P (k, v) -> Forall P (dict_set k v d).
Proof.
  intros Hd Hkv.
  induction Hd as [|[k0 v0] rest Hhd Htl IH]; simpl.
  - constructor; [exact Hkv | constructor].
  - destruct (k0 =? k); constructor; auto.
Qed.

Lemma Forall_dict_del (P : string * V -> Prop) d k :
  Forall P d -> Forall P (dict_del k d).
Proof.
  intros Hd.
  induction Hd as [|[k0 v0] rest Hhd Htl IH]; simpl.
  - constructor.
  - destruct (k0 =? k); [exact Htl | constructor; auto].
Qed.
End DictFacts.

Lemma eq_str_true (s t : string) : eq_str (JStr s) t = true <-> s = t.
Proof. simpl. apply String.eqb_eq. Qed.

Lemma eq_str_false (s t : string) : eq_str (JStr s) t = false <-> s <> t.
Proof. simpl. apply String.eqb_neq. Qed.

(** ** Routing *)

(** A request with a string method decodes to a dictionary that binds
    ["method"]. *)
Lemma method_of_inv p request method :
  Router.method_of p request = Some method ->
  exists fields,
    Router.decode p request = Ok (JObj fields)
    /\ dict_get "method" fields = Some (JStr method).
Proof.
  unfold Router.method_of.
  destruct (Router.decode p request) as [[| | | | |fields]|]; try discriminate.
  destruct (dict_get "method" fields) as [[| | |s| |]|] eqn:E; try discriminate.
  intros H; injection H as <-. eauto.
Qed.

(** The body of [dispatch_proxy] past the handshake tests. *)
Lemma dispatch_proxy_routed cfg p m request method fields :
  Router.decode p request = Ok (JObj fields) ->
  dict_get "method" fields = Some (JStr method) ->
  method <> "initialize" ->
  String.prefix "notifications/" method = false ->
  Router.dispatch_proxy cfg p m request =
    match
      (if negb (Router.FORCE_RPC cfg) && Router.HAS_IDALIB cfg
          && Router.LOCAL_MCP_SERVER cfg
       then Router.try_local cfg p m request (JStr method) fields
       else Router.NotAttempted)
    with
    | Router.LocalReturned r => ([Router.Local], Ok r)
    | Router.LocalReraised e => ([Router.Local], Raise e)
    | Router.LocalSwallowed _ =>
        ([Router.Local; Router.Remote], Router.forward cfg p request fields)
    | Router.NotAttempted =>
        ([Router.Remote], Router.forward cfg p request fields)
    end.
Proof.
  intros Hdec Hm Hinit Hpre.
  unfold Router.dispatch_proxy. rewrite Hdec. simpl. rewrite Hm.
  apply eq_str_false in Hinit. rewrite Hinit. simpl. rewrite Hpre.
  reflexivity.
Qed.

Lemma is_discovery_spec method :
  Router.is_discovery (JStr method) = true <->
  In method ["tools/list"; "resources/list"; "resources/templates/list";
             "prompts/list"].
Proof.
  unfold Router.is_discovery. rewrite !orb_true_iff, !eq_str_true. simpl.
  intuition congruence.
Qed.

Lemma is_open_command_spec method fields :
  Router.is_open_command (JStr method) fields = true <->
  method = "tools/call"
  /\ exists params,
       dict_get "params" fields = Some (JObj params)
       /\ dict_get "name" params = Some (JStr "open_database").
Proof.
  unfold Router.is_open_command, obj_get.
  destruct (eq_str (JStr method) "tools/call") eqn:E.
  - apply eq_str_true in E. subst method. split.
    + intros H. split; [reflexivity|].
      destruct (dict_get "params" fields) as [[| | | | |params]|];
        try discriminate.
      exists params. split; [reflexivity|].
      destruct (dict_get "name" params) as [[| | |s| |]|]; try discriminate.
      apply eq_str_true in H. now subst s.
    + intros [_ (params & Hp & Hn)]. rewrite Hp, Hn. reflexivity.
  - apply eq_str_false in E. split; [discriminate | tauto].
Qed.

Lemma routes_locally_spec cfg m method fields :
  Router.routes_locally cfg m method fields = true <->
  Router.FORCE_HEADLESS cfg = true
  \/ Router.is_discovery method = true
  \/ Router.is_open_command method fields = true
  \/ SessionManager.get_current_session m <> None.
Proof.
  unfold Router.routes_locally.
  rewrite !orb_true_iff.
  destruct (SessionManager.get_current_session m); intuition congruence.
Qed.

(** C3: a request whose method is "initialize" or starts with
    "notifications/" is handed to the original registry dispatch and to
    nothing else, whatever the mode flags and the session manager's state;
    it is never forwarded to the remote peer. *)
Theorem handshake_dispatches_original :
  forall cfg p m request method,
    Router.method_of p request = Some method ->
    method = "initialize" \/ String.prefix "notifications/" method = true ->
    Router.dispatch_proxy cfg p m request
      = ([Router.Original], Router.dispatch_original p request)
    /\ Router.used Router.Remote
         (fst (Router.dispatch_proxy cfg p m request)) = false.
Proof.
  intros cfg p m request method Hm Hcase.
  destruct (method_of_inv _ _ _ Hm) as (fields & Hdec & Hget).
  assert (Heq : Router.dispatch_proxy cfg p m request
                = ([Router.Original], Router.dispatch_original p request)).
  { unfold Router.dispatch_proxy. rewrite Hdec. simpl. rewrite Hget.
    destruct Hcase as [-> | Hpre].
    - reflexivity.
    - destruct (eq_str (JStr method) "initialize"); [reflexivity|].
      simpl. now rewrite Hpre. }
  split; [exact Heq | now rewrite Heq].
Qed.

Lemma handshake_dispatches_original_witness :
  Router.dispatch_proxy Samples.forced_rpc Samples.unreachable
    SessionManager.empty Samples.initialize
    = ([Router.Original],
       Router.dispatch_original Samples.unreachable Samples.initialize)
  /\ Router.used Router.Remote
       (fst (Router.dispatch_proxy Samples.forced_rpc Samples.unreachable
               SessionManager.empty Samples.initialize)) = false.
Proof.
  apply (handshake_dispatches_original Samples.forced_rpc Samples.unreachable
           SessionManager.empty Samples.initialize "initialize").
  - reflexivity.
  - left. reflexivity.
Defined.

(** The forwarding step, case by case on what the exchange with the peer
    did. *)
Lemma forward_cases cfg p request fields :
  match Router.http_exchange p (Router.IDA_HOST cfg) (Router.IDA_PORT cfg)
          request with
  | Router.InvalidConnection e =>
      Router.forward cfg p request fields = Raise e
  | Router.Answered v =>
      Router.forward cfg p request fields
        = Ok (if is_none v then None else Some v)
  | Router.ExchangeFailed e =>
      Router.forward cfg p request fields
        = Ok (if is_none (obj_get "id" fields) then None
              else Some (Router.error_response cfg p e (obj_get "id" fields)))
  end.
Proof.
  unfold Router.forward.
  destruct (Router.http_exchange p (Router.IDA_HOST cfg) (Router.IDA_PORT cfg)
              request); try reflexivity.
  destruct (is_none (obj_get "id" fields)); reflexivity.
Qed.

(** The routing condition of line 111 in terms of the request. *)
Lemma routes_locally_request cfg m method fields :
  Router.routes_locally cfg m (JStr method) fields = true <->
  (Router.FORCE_HEADLESS cfg = true
   \/ In method ["tools/list"; "resources/list";
                 "resources/templates/list"; "prompts/list"]
   \/ (method = "tools/call"
       /\ exists params,
            dict_get "params" fields = Some (JObj params)
            /\ dict_get "name" params = Some (JStr "open_database"))
   \/ SessionManager.get_current_session m <> None).
Proof.
  rewrite <- is_discovery_spec, <- is_open_command_spec.
  apply routes_locally_spec.
Qed.

(** C1: for a request whose method is neither "initialize" nor prefixed
    with "notifications/", when idalib is present, the local MCP server is
    loaded and FORCE_RPC is not set, the request is dispatched through the
    local registry if and only if FORCE_HEADLESS is set, or the method is
    one of the four discovery methods, or it is a tools/call whose
    params.name is "open_database", or the session manager has a current
    session.  Dispatched means that the registry of the local engine is
    called on the request and decides the outcome: what it returns is
    returned, and what it raises is raised (FORCE_HEADLESS) or followed by
    the forwarding step.  Otherwise the request goes to the peer only, and
    the answer of the peer is the one returned. *)
Theorem local_dispatch_iff :
  forall cfg p m request method,
    Router.method_of p request = Some method ->
    method <> "initialize" ->
    String.prefix "notifications/" method = false ->
    Router.HAS_IDALIB cfg = true ->
    Router.LOCAL_MCP_SERVER cfg = true ->
    Router.FORCE_RPC cfg = false ->
    let condition :=
      Router.FORCE_HEADLESS cfg = true
      \/ In method ["tools/list"; "resources/list";
                    "resources/templates/list"; "prompts/list"]
      \/ (method = "tools/call"
          /\ exists params,
               dict_get "params" (Router.request_fields p request)
                 = Some (JObj params)
               /\ dict_get "name" params = Some (JStr "open_database"))
      \/ SessionManager.get_current_session m <> None in
    let outcome := Router.dispatch_proxy cfg p m request in
    (Router.used Router.Local (fst outcome) = true <-> condition)
    /\ (condition ->
        match Router.local_dispatch p request with
        | Ok r => outcome = ([Router.Local], Ok r)
        | Raise e =>
            if Router.FORCE_HEADLESS cfg
            then outcome = ([Router.Local], Raise e)
            else fst outcome = [Router.Local; Router.Remote]
        end)
    /\ (~ condition ->
        fst outcome = [Router.Remote]
        /\ forall v,
             Router.http_exchange p (Router.IDA_HOST cfg)
               (Router.IDA_PORT cfg) request = Router.Answered v ->
             snd outcome = Ok (if is_none v then None else Some v)).
Proof.
  intros cfg p m request method Hm Hinit Hpre Hlib Hsrv Hrpc.
  destruct (method_of_inv _ _ _ Hm) as (fields & Hdec & Hget).
  rewrite (dispatch_proxy_routed cfg p m request method fields Hdec Hget
             Hinit Hpre).
  unfold Router.request_fields. rewrite Hdec. simpl Router.fields_of.
  rewrite Hrpc, Hlib, Hsrv. simpl negb. simpl andb.
  cbv zeta.
  rewrite <- routes_locally_request.
  unfold Router.try_local.
  destruct (Router.routes_locally cfg m (JStr method) fields).
  - split; [|split].
    + destruct (Router.local_dispatch p request) as [r|e];
        [|destruct (Router.FORCE_HEADLESS cfg)]; simpl; tauto.
    + intros _.
      destruct (Router.local_dispatch p request) as [r|e];
        [|destruct (Router.FORCE_HEADLESS cfg)]; reflexivity.
    + intros Hno. now contradiction Hno.
  - split; [|split].
    + simpl. split; discriminate.
    + discriminate.
    + intros _. split; [reflexivity|].
      intros v Hv. simpl.
      pose proof (forward_cases cfg p request fields) as Hfw.
      rewrite Hv in Hfw. exact Hfw.
Qed.

Lemma local_dispatch_iff_witness :
  Router.local_dispatch Samples.engine_up Samples.open_call
    = Ok (Some Samples.local_answer)
  /\ Router.used Router.Local
       (fst (Router.dispatch_proxy Samples.hybrid Samples.engine_up
               SessionManager.empty Samples.open_call)) = true
  /\ Router.dispatch_proxy Samples.hybrid Samples.engine_up
       SessionManager.empty Samples.open_call
     = ([Router.Local], Ok (Some Samples.local_answer)).
Proof.
  destruct (local_dispatch_iff Samples.hybrid Samples.engine_up
              SessionManager.empty Samples.open_call "tools/call"
              eq_refl ltac:(discriminate) eq_refl eq_refl eq_refl eq_refl)
    as (Hiff & Hlocal & _).
  assert (Hcond :
            Router.FORCE_HEADLESS Samples.hybrid = true
            \/ In "tools/call" ["tools/list"; "resources/list";
                                "resources/templates/list"; "prompts/list"]
            \/ ("tools/call" = "tools/call"
                /\ exists params,
                     dict_get "params"
                       (Router.request_fields Samples.engine_up
                          Samples.open_call) = Some (JObj params)
                     /\ dict_get "name" params
                        = Some (JStr "open_database"))
            \/ SessionManager.get_current_session SessionManager.empty
               <> None).
  { right. right. left. split; [reflexivity|].
    eexists. split; reflexivity. }
  split; [reflexivity|]. split.
  - apply Hiff. exact Hcond.
  - exact (Hlocal Hcond).
Defined.

(** The same request with no session, no discovery and no open command is
    not given to the local registry, although that registry would answer:
    the answer returned is the peer's. *)
Example plain_call_goes_to_peer :
  Router.dispatch_proxy Samples.hybrid Samples.engine_up
    SessionManager.empty Samples.decompile_call
  = ([Router.Remote], Ok (Some Samples.remote_answer)).
Proof. reflexivity. Qed.

(** Whenever the remote peer is used, the value of [dispatch_proxy] is the
    value of the forwarding step. *)
Lemma remote_outcome_is_forward cfg p m request :
  Router.used Router.Remote (fst (Router.dispatch_proxy cfg p m request))
    = true ->
  snd (Router.dispatch_proxy cfg p m request)
    = Router.forward cfg p request (Router.request_fields p request).
Proof.
  unfold Router.dispatch_proxy, Router.request_fields.
  destruct (Router.decode p request) as [request_obj|e]; [|discriminate].
  destruct (Router.subscript_method request_obj) as [method|e];
    [|discriminate].
  destruct (eq_str method "initialize"); [discriminate|].
  destruct (Router.startswith method "notifications/") as [[|]|e];
    try discriminate.
  destruct (if negb (Router.FORCE_RPC cfg) && Router.HAS_IDALIB cfg
               && Router.LOCAL_MCP_SERVER cfg
            then _ else _);
    simpl; intros H; try discriminate; reflexivity.
Qed.



(** The same failure for a request without an id: no response. *)
Example forwarding_failure_notification :
  Router.dispatch_proxy Samples.gui_only Samples.unreachable
    SessionManager.empty Samples.log_notice
  = ([Router.Remote], Ok None).
Proof. reflexivity. Qed.

(** The same failure in hybrid mode on macOS: the other message and the
    other key combination. *)
Example forwarding_failure_hybrid_darwin :
  snd (Router.dispatch_proxy Samples.hybrid_darwin Samples.unreachable
         SessionManager.empty Samples.decompile_call)
    = Ok (Some
            (JObj [ ("jsonrpc", JStr "2.0");
                    ("error",
                     JObj [ ("code", JNum (-32000));
                            ("message",
                             JStr ("Failed to connect to IDA Pro (GUI) and no headless session is active. Use open_database() to open a binary headlessly, or start the IDA GUI and the MCP plugin (Ctrl+Option+M)."
                                   ++ nl
                                   ++ "Traceback (most recent call last): [Errno 111] Connection refused"));
                            ("data", JStr "[Errno 111] Connection refused") ]);
                    ("id", JNum 7) ])).
Proof. reflexivity. Qed.

(** An exception of line 119, where the connection object is built, is not
    a failure of the exchange: it is raised before the [try] and leaves
    [dispatch_proxy]. *)
Lemma invalid_connection_escapes cfg p m request e :
  Router.used Router.Remote (fst (Router.dispatch_proxy cfg p m request))
    = true ->
  Router.http_exchange p (Router.IDA_HOST cfg) (Router.IDA_PORT cfg) request
    = Router.InvalidConnection e ->
  snd (Router.dispatch_proxy cfg p m request) = Raise e.
Proof.
  intros Hremote Hbad.
  rewrite (remote_outcome_is_forward _ _ _ _ Hremote).
  pose proof (forward_cases cfg p request (Router.request_fields p request))
    as Hfw.
  now rewrite Hbad in Hfw.
Qed.

(** With [IDA_HOST] set to a host name that [HTTPConnection] refuses, a
    forwarded request with an id gets no envelope: the exception leaves. *)
Example invalid_host_raises :
  Router.dispatch_proxy Samples.bad_host Samples.strict_client
    SessionManager.empty Samples.decompile_call
  = ([Router.Remote], Raise Samples.invalid_url).
Proof. reflexivity. Qed.

(** Whenever the local registry is used, the attempt was made with the
    routing condition true. *)
Lemma local_used_inv cfg p m request :
  Router.used Router.Local (fst (Router.dispatch_proxy cfg p m request))
    = true ->
  exists method,
    Router.dispatch_proxy cfg p m request =
      match Router.local_dispatch p request with
      | Ok r => ([Router.Local], Ok r)
      | Raise e =>
          if Router.FORCE_HEADLESS cfg then ([Router.Local], Raise e)
          else ([Router.Local; Router.Remote],
                Router.forward cfg p request (Router.request_fields p request))
      end
    /\ Router.routes_locally cfg m method (Router.request_fields p request)
       = true.
Proof.
  unfold Router.dispatch_proxy, Router.request_fields.
  destruct (Router.decode p request) as [request_obj|e]; [|discriminate].
  destruct (Router.subscript_method request_obj) as [method|e];
    [|discriminate].
  destruct (eq_str method "initialize"); [discriminate|].
  destruct (Router.startswith method "notifications/") as [[|]|e];
    try discriminate.
  destruct (negb (Router.FORCE_RPC cfg) && Router.HAS_IDALIB cfg
            && Router.LOCAL_MCP_SERVER cfg); [|discriminate].
  unfold Router.try_local.
  destruct (Router.routes_locally cfg m method (Router.fields_of request_obj))
    eqn:Hroute; [|discriminate].
  intros _. exists method. split; [|exact Hroute].
  destruct (Router.local_dispatch p request);
    [|destruct (Router.FORCE_HEADLESS cfg)]; reflexivity.
Qed.

(** C4: when the local dispatch of a request raises [e], with
    FORCE_HEADLESS set [dispatch_proxy] raises [e] and nothing is forwarded;
    with FORCE_HEADLESS not set the exception is dropped and the request is
    sent to the remote peer, whose exchange decides the outcome of the
    call: the document the peer answers is returned ([None] for null), a
    failed exchange gives the error envelope with code -32000, the
    exception of the exchange as data and the request's id (or [None]
    without an id), and an exception of the connection constructor is
    raised.  In no case does [e] appear in the outcome. *)
Theorem local_failure_policy :
  forall cfg p m request e,
    Router.used Router.Local (fst (Router.dispatch_proxy cfg p m request))
      = true ->
    Router.local_dispatch p request = Raise e ->
    let outcome := Router.dispatch_proxy cfg p m request in
    (Router.FORCE_HEADLESS cfg = true -> outcome = ([Router.Local], Raise e))
    /\ (Router.FORCE_HEADLESS cfg = false ->
        fst outcome = [Router.Local; Router.Remote]
        /\ match Router.http_exchange p (Router.IDA_HOST cfg)
                   (Router.IDA_PORT cfg) request with
           | Router.Answered v =>
               snd outcome = Ok (if is_none v then None else Some v)
           | Router.ExchangeFailed failure =>
               let id := obj_get "id" (Router.request_fields p request) in
               if is_none id then snd outcome = Ok None
               else
                 exists message,
                   snd outcome
                   = Ok (Some
                           (JObj [ ("jsonrpc", JStr "2.0");
                                   ("error",
                                    JObj [ ("code", JNum (-32000));
                                           ("message", JStr message);
                                           ("data",
                                            JStr (exn_text failure)) ]);
                                   ("id", id) ]))
           | Router.InvalidConnection failure =>
               snd outcome = Raise failure
           end).
Proof.
  intros cfg p m request e Hlocal Hraise outcome. subst outcome.
  destruct (local_used_inv _ _ _ _ Hlocal) as (method & Heq & _).
  rewrite Heq, Hraise.
  split; intros ->; [reflexivity|].
  split; [reflexivity|].
  pose proof (forward_cases cfg p request (Router.request_fields p request))
    as Hfw.
  cbn [snd].
  destruct (Router.http_exchange p (Router.IDA_HOST cfg) (Router.IDA_PORT cfg)
              request) as [failure|failure|v]; try exact Hfw.
  cbv zeta. rewrite Hfw.
  destruct (is_none (obj_get "id" (Router.request_fields p request)));
    [reflexivity|].
  eexists. reflexivity.
Qed.

Lemma local_failure_policy_witness :
  Router.dispatch_proxy Samples.forced_headless Samples.unreachable
    SessionManager.empty Samples.decompile_call
    = ([Router.Local], Raise Samples.engine_down)
  /\ fst (Router.dispatch_proxy Samples.hybrid Samples.gui_running
            SessionManager.empty Samples.open_call)
     = [Router.Local; Router.Remote]
  /\ snd (Router.dispatch_proxy Samples.hybrid Samples.gui_running
            SessionManager.empty Samples.open_call)
     = Ok (Some Samples.remote_answer).
Proof.
  split.
  - apply (local_failure_policy Samples.forced_headless Samples.unreachable
             SessionManager.empty Samples.decompile_call Samples.engine_down);
      reflexivity.
  - apply (local_failure_policy Samples.hybrid Samples.gui_running
             SessionManager.empty Samples.open_call Samples.engine_down);
      reflexivity.
Defined.

(** ** Startup *)

(** C8: with both --headless and --rpc-only given, [main] never starts a
    transport: the process ends with exit status 1 and an error printed,
    the session manager untouched; once the --ida-rpc argument is accepted
    [main] prints the error about the two flags and calls [sys.exit(1)]. *)
Theorem contradictory_flags_fatal :
  forall sys cfg m a,
    Startup.headless a = true ->
    Startup.rpc_only a = true ->
    let o := Startup.main sys cfg m a in
    Startup.serves (Startup.actions o) = false
    /\ Startup.exit_status (Startup.ending_of o) = 1
    /\ Startup.printed o <> []
    /\ Startup.manager o = m
    /\ (forall peer,
          Startup.parse_ida_rpc sys cfg a = Ok peer ->
          Startup.actions o
            = [Startup.Print
                 "Error: Cannot specify both --headless and --rpc-only"]
          /\ Startup.ending_of o = Startup.SysExit 1).
Proof.
  intros sys cfg m a Hh Hr o. subst o.
  unfold Startup.main.
  destruct (Startup.parse_ida_rpc sys cfg a) as [[h p]|e].
  - simpl. rewrite Hh, Hr. simpl.
    repeat split; try discriminate; reflexivity.
  - simpl. repeat split; try discriminate.
Qed.

Lemma contradictory_flags_fatal_witness :
  Startup.actions
    (Startup.main Samples.plain_system Samples.hybrid SessionManager.empty
       Samples.both_flags)
    = [Startup.Print "Error: Cannot specify both --headless and --rpc-only"]
  /\ Startup.ending_of
       (Startup.main Samples.plain_system Samples.hybrid SessionManager.empty
          Samples.both_flags)
     = Startup.SysExit 1.
Proof.
  destruct (contradictory_flags_fatal Samples.plain_system Samples.hybrid
              SessionManager.empty Samples.both_flags eq_refl eq_refl)
    as (_ & _ & _ & _ & Hexit).
  apply (Hexit ("127.0.0.1", 13337)). reflexivity.
Defined.

(** With an --ida-rpc argument that does not parse, [main] ends earlier, by
    the exception of line 959. *)
Example contradictory_flags_bad_rpc :
  Startup.ending_of
    (Startup.main Samples.plain_system Samples.hybrid SessionManager.empty
       Samples.both_flags_bad_rpc)
  = Startup.Uncaught
      (mk_exn GenericException "Invalid IDA RPC server: nonsense").
Proof. reflexivity. Qed.

(** ** Sessions *)

Lemma get_session_none_has m sid :
  SessionManager.get_session m sid = None ->
  dict_has sid (SessionManager.sessions m) = false.
Proof.
  unfold SessionManager.get_session, dict_has. now intros ->.
Qed.

(** Opening a path some session already has is answered from the mapping. *)
Lemma open_binary_existing h m path auto rid sid :
  SessionManager.path_exists h path = true ->
  dict_find
    (fun s => SessionManager.input_path s =? SessionManager.resolve h path)
    (SessionManager.sessions m) = Some sid ->
  SessionManager.open_binary h m path auto rid = (m, Ok sid).
Proof.
  intros Hex Hfind. unfold SessionManager.open_binary.
  rewrite Hex. simpl. now rewrite Hfind.
Qed.





(** A path that resolves elsewhere opens a second session. *)
Example open_database_other_path :
  SessionManager.session_count
    (fst (ApiPro.open_database true Samples.dotted_paths
            (fst (ApiPro.open_database true Samples.dotted_paths
                    SessionManager.empty "/bin/a" true None))
            "/bin/b" true None)) = 2%nat.
Proof. reflexivity. Qed.

(** From any state in which sessions are stored under their own ids, opening
    a path that some session already has reports the id of such a session
    and changes nothing. *)
Lemma open_database_existing_session h m path auto rid :
  SessionManager.keys_match m ->
  SessionManager.path_exists h path = true ->
  (exists key s,
     In (key, s) (SessionManager.sessions m)
     /\ SessionManager.input_path s = SessionManager.resolve h path) ->
  exists key s,
    In (key, s) (SessionManager.sessions m)
    /\ SessionManager.input_path s = SessionManager.resolve h path
    /\ ApiPro.reported_session_id
         (snd (ApiPro.open_database true h m path auto rid)) = Some key
    /\ fst (ApiPro.open_database true h m path auto rid) = m.
Proof.
  intros Hkeys Hex (key0 & s0 & Hin0 & Hpath0).
  destruct (dict_find
              (fun s => SessionManager.input_path s
                        =? SessionManager.resolve h path)
              (SessionManager.sessions m)) as [key|] eqn:Hfind.
  - destruct (dict_find_some _ _ _ Hfind) as (s & Hin & Hp).
    apply String.eqb_eq in Hp.
    exists key, s. split; [exact Hin|]. split; [exact Hp|].
    unfold ApiPro.open_database. simpl.
    rewrite (open_binary_existing h m path auto rid key Hex Hfind).
    unfold SessionManager.get_session.
    destruct (dict_get key (SessionManager.sessions m)) as [s1|] eqn:Hget.
    + simpl. split; [|reflexivity].
      assert (Hs1 : SessionManager.session_id s1 = key).
      { apply dict_get_in in Hget. unfold SessionManager.keys_match in Hkeys.
        rewrite Forall_forall in Hkeys. exact (Hkeys _ Hget). }
      now rewrite Hs1.
    + exfalso. exact (dict_get_of_in _ _ _ Hin Hget).
  - exfalso. pose proof (dict_find_none _ _ _ _ Hfind Hin0) as Hno.
    simpl in Hno. rewrite Hpath0, String.eqb_refl in Hno. discriminate.
Qed.

(** The three mutating operations keep sessions stored under their ids. *)
Lemma keys_match_preserved h m :
  SessionManager.keys_match m ->
  (forall path auto rid,
     SessionManager.keys_match
       (fst (SessionManager.open_binary h m path auto rid)))
  /\ (forall sid,
        SessionManager.keys_match (fst (SessionManager.close_session m sid)))
  /\ (forall sid,
        SessionManager.keys_match (fst (SessionManager.switch_session m sid))).
Proof.
  intros Hk. unfold SessionManager.keys_match in *.
  repeat split.
  - intros path auto rid. unfold SessionManager.open_binary.
    destruct (SessionManager.path_exists h path); simpl; [|exact Hk].
    destruct (dict_find _ _); [exact Hk|].
    destruct rid as [rid|];
      [destruct (dict_has rid (SessionManager.sessions m)); [exact Hk|]|];
      (destruct (SessionManager.engine_load h _); simpl;
       [apply Forall_dict_set; [exact Hk | reflexivity] | exact Hk]).
  - intros sid. unfold SessionManager.close_session.
    destruct (dict_has sid (SessionManager.sessions m)); simpl;
      [apply Forall_dict_del; exact Hk | exact Hk].
  - intros sid. unfold SessionManager.switch_session.
    destruct (dict_has sid (SessionManager.sessions m)); exact Hk.
Qed.

(** The three mutating operations keep the current pointer inside the
    mapping. *)
Lemma pointer_ok_preserved h m :
  SessionManager.pointer_ok m ->
  (forall path auto rid,
     SessionManager.pointer_ok
       (fst (SessionManager.open_binary h m path auto rid)))
  /\ (forall sid,
        SessionManager.pointer_ok (fst (SessionManager.close_session m sid)))
  /\ (forall sid,
        SessionManager.pointer_ok (fst (SessionManager.switch_session m sid))).
Proof.
  intros Hp. unfold SessionManager.pointer_ok in *.
  repeat split.
  - intros path auto rid. unfold SessionManager.open_binary.
    destruct (SessionManager.path_exists h path); simpl; [|exact Hp].
    destruct (dict_find _ _); [exact Hp|].
    destruct rid as [rid|];
      [destruct (dict_has rid (SessionManager.sessions m)); [exact Hp|]|];
      (destruct (SessionManager.engine_load h _); simpl; [|exact Hp];
       unfold dict_has; now rewrite dict_get_set_same).
  - intros sid. unfold SessionManager.close_session.
    destruct (dict_has sid (SessionManager.sessions m)); simpl; [|exact Hp].
    destruct (SessionManager.current m) as [c|]; [|exact I].
    destruct (c =? sid) eqn:E; [exact I|].
    apply String.eqb_neq in E. unfold dict_has in *.
    now rewrite dict_get_del_other.
  - intros sid. unfold SessionManager.switch_session.
    destruct (dict_has sid (SessionManager.sessions m)) eqn:E; simpl;
      [exact E | exact Hp].
Qed.



(** C7: for a session id that is not in the mapping, [close_session]
    returns false and [close_database] returns an unsuccessful result
    without raising; in idalib mode it is the success-false dictionary.  The
    manager (mapping and current pointer) is unchanged. *)
Theorem close_unknown_session :
  forall has_idalib m sid,
    SessionManager.get_session m sid = None ->
    SessionManager.close_session m sid = (m, Ok false)
    /\ fst (ApiPro.close_database has_idalib m sid) = m
    /\ ApiPro.is_error_result (snd (ApiPro.close_database has_idalib m sid))
       = true
    /\ (has_idalib = true ->
        snd (ApiPro.close_database has_idalib m sid)
          = JObj [ ("success", JBool false);
                   ("error", JStr ("Session not found: " ++ sid)) ]).
Proof.
  intros has_idalib m sid Hnone.
  apply get_session_none_has in Hnone.
  assert (Hcl : SessionManager.close_session m sid = (m, Ok false)).
  { unfold SessionManager.close_session. now rewrite Hnone. }
  split; [exact Hcl|].
  unfold ApiPro.close_database. rewrite Hcl.
  destruct has_idalib; simpl; repeat split; try reflexivity.
  discriminate.
Qed.

Lemma close_unknown_session_witness :
  ApiPro.close_database true
    (fst (ApiPro.open_database true Samples.two_binaries SessionManager.empty
            "/bin/a" true None))
    "nope"
  = (fst (ApiPro.open_database true Samples.two_binaries SessionManager.empty
            "/bin/a" true None),
     JObj [ ("success", JBool false);
            ("error", JStr "Session not found: nope") ]).
Proof.
  destruct (close_unknown_session true
              (fst (ApiPro.open_database true Samples.two_binaries
                      SessionManager.empty "/bin/a" true None))
              "nope" eq_refl) as (_ & Hm & _ & Hres).
  rewrite (surjective_pairing (ApiPro.close_database _ _ _)).
  rewrite Hm, (Hres eq_refl). reflexivity.
Defined.

(** ** The chunk loop of [generate_yara_rule] *)

(** Inside the range an iteration advances by at least one address and
    never past the end. *)
Lemma item_advance_bounds e end_ current :
  (current < end_)%Z ->
  (1 <= Yara.item_advance e end_ current <= end_ - current)%Z.
Proof.
  intros Hlt. unfold Yara.item_advance.
  pose proof (N2Z.is_nonneg (Yara.get_item_size e current)) as Hsize.
  destruct (Z.of_N (Yara.get_item_size e current) =? 0)%Z eqn:E0.
  - rewrite Z.gtb_ltb. destruct (end_ <? current + 1)%Z eqn:E1.
    + apply Z.ltb_lt in E1. lia.
    + apply Z.ltb_ge in E1. lia.
  - apply Z.eqb_neq in E0. rewrite Z.gtb_ltb.
    destruct (end_ <? current + Z.of_N (Yara.get_item_size e current))%Z
      eqn:E1.
    + lia.
    + apply Z.ltb_ge in E1. lia.
Qed.

(** With as much fuel as there are addresses left, the loop runs to its end
    and leaves [current] at [end_]. *)
Lemma chunk_loop_enough_fuel fuel :
  forall e include_data start end_ current gen,
    (current <= end_)%Z ->
    (Z.to_nat (end_ - current) <= fuel)%nat ->
    exists gen',
      Yara.chunk_loop fuel e include_data start end_ current gen
        = Some (end_, gen').
Proof.
  induction fuel as [|fuel IH]; intros e include_data start end_ current gen
    Hle Hfuel.
  - assert (current = end_) by lia. subst current.
    simpl. rewrite Z.ltb_irrefl. eauto.
  - simpl. destruct (current <? end_)%Z eqn:Hlt.
    + apply Z.ltb_lt in Hlt.
      pose proof (item_advance_bounds e end_ current Hlt) as Hadv.
      apply IH; lia.
    + apply Z.ltb_ge in Hlt. assert (current = end_) by lia. subst current.
      eauto.
Qed.

(** C9: for start < end the chunk loop terminates: at every address of the
    range an iteration advances by at least 1 and not past the end, so
    [current] strictly increases toward [end]; run with end - start
    iterations of fuel or more, the loop returns, with [current = end]. *)
Theorem chunk_loop_terminates :
  forall e include_data start end_ gen,
    (start < end_)%Z ->
    (forall current,
       (start <= current < end_)%Z ->
       (1 <= Yara.item_advance e end_ current)%Z
       /\ (current < current + Yara.item_advance e end_ current <= end_)%Z)
    /\ (forall fuel,
          (Z.to_nat (end_ - start) <= fuel)%nat ->
          exists gen',
            Yara.chunk_loop fuel e include_data start end_ start gen
              = Some (end_, gen')).
Proof.
  intros e include_data start end_ gen Hlt. split.
  - intros current [_ Hcur].
    pose proof (item_advance_bounds e end_ current Hcur). lia.
  - intros fuel Hfuel. apply chunk_loop_enough_fuel; lia.
Qed.

Lemma chunk_loop_terminates_witness :
  exists gen',
    Yara.chunk_loop 16 Samples.x86_engine true 4096 4112 4096
      (Yara.mk_generator "normal" 3 8 [])
    = Some (4112%Z, gen').
Proof.
  apply (chunk_loop_terminates Samples.x86_engine true 4096 4112
           (Yara.mk_generator "normal" 3 8 [])).
  - lia.
  - simpl. lia.
Defined.

(** The same loop at an address where the engine reports size 0: the
    advance is 1. *)
Example item_advance_zero_size :
  Yara.item_advance Samples.x86_engine 4112 4097 = 1%Z.
Proof. reflexivity. Qed.

(** A 3-byte item that would cross the end is clamped. *)
Example item_advance_clamped :
  Yara.item_advance Samples.x86_engine 4098 4096 = 2%Z.
Proof. reflexivity. Qed.

(** Every call of [generate_yara_rule] returns once the fuel covers the
    address range. *)
Lemma generate_yara_rule_returns t e name start_addr end_addr mode
    include_data :
  exists bound, forall fuel,
    (bound <= fuel)%nat ->
    Yara.generate_yara_rule fuel t e name start_addr end_addr mode
      include_data <> None.
Proof.
  unfold Yara.generate_yara_rule.
  destruct (negb (Yara.HAS_MKYARA t)); [exists 0%nat; discriminate|].
  destruct (negb (Yara.str_in mode Yara.valid_modes));
    [exists 0%nat; discriminate|].
  destruct (Yara.parse_address t start_addr) as [start|ex];
    [|exists 0%nat; discriminate].
  destruct (Yara.parse_address t end_addr) as [end_|ex];
    [|exists 0%nat; discriminate].
  destruct (start >=? end_)%Z eqn:Hge; [exists 0%nat; discriminate|].
  destruct (Yara._get_capstone_context (Yara.cs t) e start) as [[arch m]|ex];
    [|exists 0%nat; discriminate].
  exists (Z.to_nat (end_ - start)). intros fuel Hfuel.
  rewrite Z.geb_leb in Hge. apply Z.leb_gt in Hge.
  destruct (chunk_loop_enough_fuel fuel e include_data start end_ start
              (Yara.mk_generator mode arch m []) ltac:(lia) Hfuel)
    as (gen' & ->).
  destruct (Yara.rule_string t gen' name); discriminate.
Qed.

(** ** Input validation of [generate_yara_rule] *)

Lemma prefix_app (n rest : string) : String.prefix n (n ++ rest) = true.
Proof.
  induction n as [|c n IH]; simpl.
  - destruct rest; reflexivity.
  - destruct (ascii_dec c c); [exact IH | congruence].
Qed.

Lemma mentions_prefix (n haystack : string) :
  String.prefix n haystack = true -> Yara.mentions n haystack = true.
Proof.
  intros H. destruct haystack; cbn [Yara.mentions]; rewrite H; reflexivity.
Qed.

Lemma mentions_app (n before rest : string) :
  Yara.mentions n (before ++ n ++ rest) = true.
Proof.
  induction before as [|c before IH].
  - change ("" ++ n ++ rest) with (n ++ rest).
    apply mentions_prefix, prefix_app.
  - simpl. rewrite IH. apply orb_true_r.
Qed.

(** Without mkyara the library check of line 89 answers first: the error
    returned for the mode "bogus" is the one about the missing libraries and
    does not name the mode. *)
Lemma invalid_mode_unnamed_without_mkyara :
  Yara.str_in "bogus" Yara.valid_modes = false
  /\ Yara.generate_yara_rule 0 Samples.without_mkyara Samples.x86_engine
       "rule1" "0x1000" "0x1010" "bogus" false
     = Some (Yara.mk_run None
               (Yara.error_dict
                  ("Required libraries not found. Please install 'mkyara' and 'capstone'."
                   ++ nl ++ "pip install mkyara capstone")))
  /\ option_map (fun r => Yara.error_naming "bogus" (Yara.reply r))
       (Yara.generate_yara_rule 0 Samples.without_mkyara Samples.x86_engine
          "rule1" "0x1000" "0x1010" "bogus" false)
     = Some false.
Proof. repeat split. Qed.

(** C10, amended: when mkyara and capstone are available, for every mode
    outside loose/normal/strict [generate_yara_rule] returns the error
    dictionary with the invalid-mode message, which names the mode, and for
    every pair of addresses that parse to start >= end it returns an error
    dictionary, the address-order one when the mode is valid; when the
    libraries are not available every call, whatever its arguments, returns
    the missing-libraries error dictionary.  In all these cases the call
    returns with any fuel and no generator is built. *)
Theorem generate_yara_rule_rejects :
  forall fuel t e name start_addr end_addr mode include_data,
    let outcome :=
      Yara.generate_yara_rule fuel t e name start_addr end_addr mode
        include_data in
    (Yara.HAS_MKYARA t = false ->
     outcome
     = Some (Yara.mk_run None
               (JObj [("error",
                       JStr ("Required libraries not found. Please install 'mkyara' and 'capstone'."
                             ++ nl ++ "pip install mkyara capstone"))])))
    /\ (Yara.HAS_MKYARA t = true ->
        Yara.str_in mode Yara.valid_modes = false ->
        outcome
        = Some (Yara.mk_run None
                  (JObj [("error",
                          JStr ("Invalid mode '" ++ mode
                                ++ "'. Must be one of: loose, normal, strict"))]))
        /\ Yara.mentions mode
             ("Invalid mode '" ++ mode
              ++ "'. Must be one of: loose, normal, strict") = true)
    /\ (Yara.HAS_MKYARA t = true ->
        forall start end_,
          Yara.parse_address t start_addr = Ok start ->
          Yara.parse_address t end_addr = Ok end_ ->
          (start >= end_)%Z ->
          exists msg,
            outcome = Some (Yara.mk_run None (JObj [("error", JStr msg)]))
            /\ (Yara.str_in mode Yara.valid_modes = true ->
                msg = "Start address must be less than end address.")).
Proof.
  intros fuel t e name start_addr end_addr mode include_data outcome.
  subst outcome. unfold Yara.generate_yara_rule.
  split; [|split].
  - intros ->. reflexivity.
  - intros -> Hmode. cbn [negb]. rewrite Hmode. cbn [negb].
    split; [reflexivity|]. apply (mentions_app mode "Invalid mode '").
  - intros -> start end_ Hs He Hge. cbn [negb].
    destruct (Yara.str_in mode Yara.valid_modes) eqn:Hmode; cbn [negb].
    + rewrite Hs, He.
      assert (Hgeb : (start >=? end_)%Z = true) by (apply Z.geb_le; lia).
      rewrite Hgeb. eexists. split; [reflexivity|]. reflexivity.
    + eexists. split; [reflexivity | discriminate].
Qed.

Lemma generate_yara_rule_rejects_witness :
  Yara.generate_yara_rule 0 Samples.with_mkyara Samples.x86_engine
    "rule1" "0x1010" "0x1000" "normal" false
  = Some (Yara.mk_run None
            (JObj [("error",
                    JStr "Start address must be less than end address.")]))
  /\ Yara.generate_yara_rule 0 Samples.with_mkyara Samples.x86_engine
       "rule1" "0x1000" "0x1010" "fast" false
     = Some (Yara.mk_run None
               (JObj [("error",
                       JStr "Invalid mode 'fast'. Must be one of: loose, normal, strict")]))
  /\ Yara.generate_yara_rule 0 Samples.without_mkyara Samples.x86_engine
       "rule1" "0x1000" "0x1010" "normal" false
     = Some (Yara.mk_run None
               (JObj [("error",
                       JStr ("Required libraries not found. Please install 'mkyara' and 'capstone'."
                             ++ nl ++ "pip install mkyara capstone"))])).
Proof.
  split; [|split].
  - destruct (generate_yara_rule_rejects 0 Samples.with_mkyara
                Samples.x86_engine "rule1" "0x1010" "0x1000" "normal" false)
      as (_ & _ & Horder).
    destruct (Horder eq_refl 4112%Z 4096%Z eq_refl eq_refl ltac:(lia))
      as (msg & Hres & Hmsg).
    rewrite Hres, (Hmsg eq_refl). reflexivity.
  - destruct (generate_yara_rule_rejects 0 Samples.with_mkyara
                Samples.x86_engine "rule1" "0x1000" "0x1010" "fast" false)
      as (_ & Hmode & _).
    exact (proj1 (Hmode eq_refl eq_refl)).
  - destruct (generate_yara_rule_rejects 0 Samples.without_mkyara
                Samples.x86_engine "rule1" "0x1000" "0x1010" "normal" false)
      as (Hmissing & _).
    exact (Hmissing eq_refl).
Defined.

(** With mkyara available the same invalid mode is named in the error. *)
Example invalid_mode_named_with_mkyara :
  Yara.generate_yara_rule 0 Samples.with_mkyara Samples.x86_engine
    "rule1" "0x1000" "0x1010" "bogus" false
  = Some (Yara.mk_run None
            (Yara.error_dict
               "Invalid mode 'bogus'. Must be one of: loose, normal, strict")).
Proof. reflexivity. Qed.

(** A whole run over sixteen addresses: four code items are collected. *)
Example generate_yara_rule_sample :
  option_map (fun r => option_map (fun g => length (Yara.chunks g))
                         (Yara.built r))
    (Yara.generate_yara_rule 16 Samples.with_mkyara Samples.x86_engine
       "rule1" "0x1000" "0x1010" "normal" false)
  = Some (Some 4%nat).
Proof. reflexivity. Qed.

(** * Further properties of the router *)

Lemma method_of_none_raises cfg p m request :
  Router.method_of p request = None ->
  exists e, Router.dispatch_proxy cfg p m request = ([], Raise e).
Proof.
  unfold Router.method_of, Router.dispatch_proxy.
  destruct (Router.decode p request) as [request_obj|e]; [|eauto].
  destruct request_obj as [| | | | |fields]; simpl; eauto.
  destruct (dict_get "method" fields) as [[| | |s| |]|]; simpl; eauto.
  discriminate.
Qed.

Lemma method_of_some_dispatches cfg p m request method :
  Router.method_of p request = Some method ->
  fst (Router.dispatch_proxy cfg p m request) <> [].
Proof.
  intros Hm.
  destruct (method_of_inv _ _ _ Hm) as (fields & Hdec & Hget).
  destruct (String.eqb method "initialize") eqn:Hinit.
  - unfold Router.dispatch_proxy. rewrite Hdec. simpl. rewrite Hget.
    simpl. rewrite Hinit. discriminate.
  - apply String.eqb_neq in Hinit.
    destruct (String.prefix "notifications/" method) eqn:Hpre.
    + unfold Router.dispatch_proxy. rewrite Hdec. simpl. rewrite Hget.
      apply eq_str_false in Hinit. rewrite Hinit. simpl. rewrite Hpre.
      discriminate.
    + rewrite (dispatch_proxy_routed cfg p m request method fields Hdec Hget
                 Hinit Hpre).
      destruct (negb (Router.FORCE_RPC cfg) && Router.HAS_IDALIB cfg
                && Router.LOCAL_MCP_SERVER cfg);
        [destruct (Router.try_local cfg p m request (JStr method) fields)|];
        discriminate.
Qed.

(** X1: some dispatcher is used exactly when the request decodes to a
    dictionary whose "method" is a string; every other request (undecodable
    text, a non-dictionary document, a missing or non-string method) makes
    [dispatch_proxy] raise before any dispatcher is involved. *)
Theorem dispatcher_used_iff_string_method :
  forall cfg p m request,
    (fst (Router.dispatch_proxy cfg p m request) <> []
     <-> exists method, Router.method_of p request = Some method)
    /\ (Router.method_of p request = None ->
        exists e, Router.dispatch_proxy cfg p m request = ([], Raise e)).
Proof.
  intros cfg p m request. split; [split|].
  - intros Hused.
    destruct (Router.method_of p request) as [method|] eqn:Hm; [eauto|].
    destruct (method_of_none_raises cfg p m request Hm) as (e & Heq).
    rewrite Heq in Hused. now contradiction Hused.
  - intros (method & Hm). eapply method_of_some_dispatches; eauto.
  - apply method_of_none_raises.
Qed.

(** X2: when FORCE_HEADLESS is not set, the only exception a request that
    is neither the handshake nor a notification can make [dispatch_proxy]
    raise is the one of the connection constructor of line 119, and it is
    raised exactly when the request reaches the forwarding step: a local
    failure is absorbed by forwarding and a failure of the exchange itself
    becomes an error envelope or [None]. *)
Theorem routed_request_raises_only_invalid_connection :
  forall cfg p m request method,
    Router.method_of p request = Some method ->
    method <> "initialize" ->
    String.prefix "notifications/" method = false ->
    Router.FORCE_HEADLESS cfg = false ->
    forall e,
      snd (Router.dispatch_proxy cfg p m request) = Raise e
      <->
      (Router.used Router.Remote (fst (Router.dispatch_proxy cfg p m request))
         = true
       /\ Router.http_exchange p (Router.IDA_HOST cfg) (Router.IDA_PORT cfg)
            request = Router.InvalidConnection e).
Proof.
  intros cfg p m request method Hm Hinit Hpre Hfh e.
  destruct (method_of_inv _ _ _ Hm) as (fields & Hdec & Hget).
  rewrite (dispatch_proxy_routed cfg p m request method fields Hdec Hget
             Hinit Hpre).
  pose proof (forward_cases cfg p request fields) as Hfw.
  assert (Hraise :
            Router.forward cfg p request fields = Raise e
            <-> Router.http_exchange p (Router.IDA_HOST cfg)
                  (Router.IDA_PORT cfg) request = Router.InvalidConnection e).
  { destruct (Router.http_exchange p (Router.IDA_HOST cfg)
                (Router.IDA_PORT cfg) request) as [bad|bad|v];
      rewrite Hfw; split; intros H; try discriminate; congruence. }
  destruct (negb (Router.FORCE_RPC cfg) && Router.HAS_IDALIB cfg
            && Router.LOCAL_MCP_SERVER cfg).
  - unfold Router.try_local. rewrite Hfh.
    destruct (Router.routes_locally cfg m (JStr method) fields);
      [destruct (Router.local_dispatch p request)|]; simpl.
    + split; [discriminate | intros [H _]; discriminate].
    + rewrite Hraise. tauto.
    + rewrite Hraise. tauto.
  - simpl. rewrite Hraise. tauto.
Qed.

Lemma routed_request_raises_only_invalid_connection_witness :
  snd (Router.dispatch_proxy Samples.bad_host Samples.strict_client
         SessionManager.empty Samples.decompile_call)
  = Raise Samples.invalid_url.
Proof.
  apply (proj2 (routed_request_raises_only_invalid_connection
                  Samples.bad_host Samples.strict_client
                  SessionManager.empty Samples.decompile_call "tools/call"
                  eq_refl ltac:(discriminate) eq_refl eq_refl
                  Samples.invalid_url)).
  split; reflexivity.
Defined.

(** X3: with FORCE_RPC set, or without idalib, or without a loaded local
    server, a request that is neither the handshake nor a notification is
    only forwarded: the local registry is not used, whatever the session
    manager holds, and a peer that answers has its answer returned as it
    is. *)
Theorem proxy_only_modes :
  forall cfg p m request method,
    Router.method_of p request = Some method ->
    method <> "initialize" ->
    String.prefix "notifications/" method = false ->
    Router.FORCE_RPC cfg = true \/ Router.HAS_IDALIB cfg = false
    \/ Router.LOCAL_MCP_SERVER cfg = false ->
    Router.dispatch_proxy cfg p m request
      = ([Router.Remote],
         Router.forward cfg p request (Router.request_fields p request))
    /\ (forall v,
          Router.http_post p (Router.IDA_HOST cfg) (Router.IDA_PORT cfg)
            request = Ok v ->
          snd (Router.dispatch_proxy cfg p m request)
            = Ok (if is_none v then None else Some v)).
Proof.
  intros cfg p m request method Hm Hinit Hpre Hmode.
  destruct (method_of_inv _ _ _ Hm) as (fields & Hdec & Hget).
  rewrite (dispatch_proxy_routed cfg p m request method fields Hdec Hget
             Hinit Hpre).
  unfold Router.request_fields. rewrite Hdec. simpl Router.fields_of.
  assert (Hoff : negb (Router.FORCE_RPC cfg) && Router.HAS_IDALIB cfg
                 && Router.LOCAL_MCP_SERVER cfg = false).
  { destruct Hmode as [-> | [-> | ->]];
      [reflexivity | apply andb_false_intro1, andb_false_r
      | apply andb_false_r]. }
  rewrite Hoff. split; [reflexivity|].
  intros v Hv. simpl. unfold Router.forward.
  unfold Router.http_post in Hv.
  destruct (Router.http_exchange p (Router.IDA_HOST cfg) (Router.IDA_PORT cfg)
              request); try discriminate.
  injection Hv as ->. reflexivity.
Qed.

Lemma proxy_only_modes_witness :
  Router.dispatch_proxy Samples.forced_rpc Samples.unreachable
    SessionManager.empty Samples.open_call
  = ([Router.Remote],
     Router.forward Samples.forced_rpc Samples.unreachable Samples.open_call
       (Router.request_fields Samples.unreachable Samples.open_call)).
Proof.
  apply (proxy_only_modes Samples.forced_rpc Samples.unreachable
           SessionManager.empty Samples.open_call "tools/call").
  - reflexivity.
  - discriminate.
  - reflexivity.
  - left. reflexivity.
Defined.

(** * Further properties of startup *)

(** What is known once [main] has started a transport. *)
Lemma main_serves_inv sys cfg m a :
  Startup.serves (Startup.actions (Startup.main sys cfg m a)) = true ->
  (exists h port,
     Startup.parse_ida_rpc sys cfg a = Ok (h, port)
     /\ Startup.globals (Startup.main sys cfg m a)
        = Router.mk_config h port (Startup.headless a) (Startup.rpc_only a)
            (Router.HAS_IDALIB cfg) (Router.LOCAL_MCP_SERVER cfg)
            (Router.platform cfg))
  /\ Startup.install a = false
  /\ Startup.uninstall a = false
  /\ Startup.config a = false
  /\ (Startup.headless a = true ->
      Startup.rpc_only a = false /\ Router.HAS_IDALIB cfg = true)
  /\ (forall path,
        Router.HAS_IDALIB cfg = true ->
        Startup.rpc_only a = false ->
        Startup.input_path a = Some path ->
        SessionManager.path_exists (Startup.host sys) path = true
        /\ exists sid,
             SessionManager.open_binary (Startup.host sys) m path true None
             = (Startup.manager (Startup.main sys cfg m a), Ok sid)).
Proof.
  unfold Startup.main.
  destruct (Startup.parse_ida_rpc sys cfg a) as [[h port]|e];
    [|discriminate].
  cbn [Router.FORCE_HEADLESS Router.FORCE_RPC Router.HAS_IDALIB].
  destruct (Startup.headless a) eqn:Hh; destruct (Startup.rpc_only a) eqn:Hr;
    destruct (Router.HAS_IDALIB cfg) eqn:Hlib;
    destruct (Startup.install a) eqn:Hi; destruct (Startup.uninstall a) eqn:Hu;
    destruct (Startup.config a) eqn:Hc;
    cbn [andb negb orb]; try discriminate.
  all: unfold Startup.headless_setup.
  all: destruct (Startup.input_path a) as [path|] eqn:Hp.
  all: try (destruct (SessionManager.path_exists (Startup.host sys) path) eqn:Hex;
     cbn [negb]).
  all: try (destruct (SessionManager.open_binary (Startup.host sys) m path true None)
        as [m' [sid|e]] eqn:Hopen).
  all: try discriminate.
  all: destruct (Startup.serve sys a) as [serving fin].
  all: cbn [Startup.actions Startup.globals Startup.manager].
  all: intros _; repeat split; eauto; try discriminate.
  all: match goal with H : Some _ = Some _ |- _ => injection H as <- end;
    eauto.
Qed.

(** X4: [main] starts a transport only in run mode: not with --install,
    --uninstall or --config, not with both mode flags, and with --headless
    only when idalib is present. *)
Theorem main_serves_only_in_run_mode :
  forall sys cfg m a,
    Startup.serves (Startup.actions (Startup.main sys cfg m a)) = true ->
    Startup.install a = false
    /\ Startup.uninstall a = false
    /\ Startup.config a = false
    /\ (Startup.headless a = true ->
        Startup.rpc_only a = false /\ Router.HAS_IDALIB cfg = true).
Proof.
  intros sys cfg m a Hserves.
  destruct (main_serves_inv sys cfg m a Hserves) as (_ & Hi & Hu & Hc & Hh & _).
  auto.
Qed.

(** X5: when idalib is present, --rpc-only is not given and an input file
    is named, [main] starts a transport only after that file was found and
    [open_binary] returned a session id; the manager it leaves behind is the
    one [open_binary] produced. *)
Theorem main_serves_after_initial_open :
  forall sys cfg m a path,
    Startup.serves (Startup.actions (Startup.main sys cfg m a)) = true ->
    Router.HAS_IDALIB cfg = true ->
    Startup.rpc_only a = false ->
    Startup.input_path a = Some path ->
    SessionManager.path_exists (Startup.host sys) path = true
    /\ exists sid,
         SessionManager.open_binary (Startup.host sys) m path true None
         = (Startup.manager (Startup.main sys cfg m a), Ok sid).
Proof.
  intros sys cfg m a path Hserves.
  destruct (main_serves_inv sys cfg m a Hserves) as (_ & _ & _ & _ & _ & H).
  apply H.
Qed.

(** X6: [main] leaves the session manager as it found it whenever
    --rpc-only is given, idalib is absent, no input file is named, or one of
    --install, --uninstall, --config is given. *)
Theorem main_leaves_sessions :
  forall sys cfg m a,
    Startup.rpc_only a = true \/ Router.HAS_IDALIB cfg = false
    \/ Startup.input_path a = None \/ Startup.install a = true
    \/ Startup.uninstall a = true \/ Startup.config a = true ->
    Startup.manager (Startup.main sys cfg m a) = m.
Proof.
  intros sys cfg m a Hcase. unfold Startup.main.
  destruct (Startup.parse_ida_rpc sys cfg a) as [[h port]|e];
    [|reflexivity].
  cbn [Router.FORCE_HEADLESS Router.FORCE_RPC Router.HAS_IDALIB].
  destruct (Startup.headless a) eqn:Hh; destruct (Startup.rpc_only a) eqn:Hr;
    destruct (Router.HAS_IDALIB cfg) eqn:Hlib;
    destruct (Startup.install a) eqn:Hi; destruct (Startup.uninstall a) eqn:Hu;
    destruct (Startup.config a) eqn:Hc;
    cbn [andb negb orb]; try reflexivity.
  all: try (destruct (Startup.serve sys a); reflexivity).
  all: unfold Startup.headless_setup;
    destruct (Startup.input_path a) eqn:Hp;
    [exfalso; intuition congruence|];
    destruct (Startup.serve sys a); reflexivity.
Qed.

(** --headless without idalib is fatal at startup: once the --ida-rpc
    argument is accepted [main] prints the error and calls [sys.exit(1)]
    without starting a transport or touching the session manager. *)
Lemma headless_without_idalib_fatal :
  forall sys cfg m a peer,
    Startup.headless a = true ->
    Startup.rpc_only a = false ->
    Router.HAS_IDALIB cfg = false ->
    Startup.parse_ida_rpc sys cfg a = Ok peer ->
    Startup.actions (Startup.main sys cfg m a)
      = [Startup.Print
           "Error: Headless mode requires idalib but it was not found."]
    /\ Startup.ending_of (Startup.main sys cfg m a) = Startup.SysExit 1
    /\ Startup.manager (Startup.main sys cfg m a) = m.
Proof.
  intros sys cfg m a [h port] Hh Hr Hlib Hparse.
  unfold Startup.main. rewrite Hparse.
  cbn [Router.FORCE_HEADLESS Router.FORCE_RPC Router.HAS_IDALIB].
  rewrite Hh, Hr, Hlib. simpl. auto.
Qed.

(** X7: after a start with --rpc-only, the router under the globals [main]
    left behind only forwards: a request that is neither the handshake nor a
    notification never reaches the local registry. *)
Theorem rpc_only_start_only_forwards :
  forall sys cfg m a p request method,
    Startup.rpc_only a = true ->
    Startup.serves (Startup.actions (Startup.main sys cfg m a)) = true ->
    Router.method_of p request = Some method ->
    method <> "initialize" ->
    String.prefix "notifications/" method = false ->
    fst (Router.dispatch_proxy (Startup.globals (Startup.main sys cfg m a)) p
           (Startup.manager (Startup.main sys cfg m a)) request)
    = [Router.Remote].
Proof.
  intros sys cfg m a p request method Hr Hserves Hm Hinit Hpre.
  destruct (main_serves_inv sys cfg m a Hserves)
    as ((h & port & _ & Hg) & _).
  destruct (method_of_inv _ _ _ Hm) as (fields & Hdec & Hget).
  rewrite (dispatch_proxy_routed _ p _ request method fields Hdec Hget
             Hinit Hpre).
  rewrite Hg, Hr. reflexivity.
Qed.

(** X8: after a start with --headless and a loaded local server, the router
    under the globals [main] left behind never forwards: a request that is
    neither the handshake nor a notification goes to the local registry
    alone, and its outcome, result or exception, is that of the local
    dispatch. *)
Theorem headless_start_never_forwards :
  forall sys cfg m a p request method,
    Startup.headless a = true ->
    Router.LOCAL_MCP_SERVER cfg = true ->
    Startup.serves (Startup.actions (Startup.main sys cfg m a)) = true ->
    Router.method_of p request = Some method ->
    method <> "initialize" ->
    String.prefix "notifications/" method = false ->
    Router.dispatch_proxy (Startup.globals (Startup.main sys cfg m a)) p
      (Startup.manager (Startup.main sys cfg m a)) request
    = ([Router.Local], Router.local_dispatch p request).
Proof.
  intros sys cfg m a p request method Hh Hsrv Hserves Hm Hinit Hpre.
  destruct (main_serves_inv sys cfg m a Hserves)
    as ((h & port & _ & Hg) & _ & _ & _ & Hflags & _).
  destruct (Hflags Hh) as (Hr & Hlib).
  destruct (method_of_inv _ _ _ Hm) as (fields & Hdec & Hget).
  rewrite (dispatch_proxy_routed _ p _ request method fields Hdec Hget
             Hinit Hpre).
  rewrite Hg, Hh, Hr, Hlib, Hsrv.
  unfold Router.try_local, Router.routes_locally. simpl.
  destruct (Router.local_dispatch p request); reflexivity.
Qed.

Lemma main_serves_only_in_run_mode_witness :
  Startup.install Samples.serve_headless = false
  /\ Startup.uninstall Samples.serve_headless = false
  /\ Startup.config Samples.serve_headless = false
  /\ (Startup.headless Samples.serve_headless = true ->
      Startup.rpc_only Samples.serve_headless = false
      /\ Router.HAS_IDALIB Samples.hybrid = true).
Proof.
  apply (main_serves_only_in_run_mode Samples.plain_system Samples.hybrid
           SessionManager.empty Samples.serve_headless).
  reflexivity.
Defined.

Lemma main_serves_after_initial_open_witness :
  SessionManager.path_exists (Startup.host Samples.plain_system) "/bin/a"
    = true
  /\ exists sid,
       SessionManager.open_binary (Startup.host Samples.plain_system)
         SessionManager.empty "/bin/a" true None
       = (Startup.manager
            (Startup.main Samples.plain_system Samples.hybrid
               SessionManager.empty Samples.serve_headless),
          Ok sid).
Proof.
  apply (main_serves_after_initial_open Samples.plain_system Samples.hybrid
           SessionManager.empty Samples.serve_headless "/bin/a");
    reflexivity.
Defined.

Lemma main_leaves_sessions_witness :
  Startup.manager
    (Startup.main Samples.plain_system Samples.hybrid SessionManager.empty
       Samples.serve_rpc_only)
  = SessionManager.empty.
Proof.
  apply (main_leaves_sessions Samples.plain_system Samples.hybrid
           SessionManager.empty Samples.serve_rpc_only).
  left. reflexivity.
Defined.

Lemma headless_without_idalib_fatal_witness :
  Startup.actions
    (Startup.main Samples.plain_system Samples.gui_only SessionManager.empty
       Samples.serve_headless)
    = [Startup.Print
         "Error: Headless mode requires idalib but it was not found."]
  /\ Startup.ending_of
       (Startup.main Samples.plain_system Samples.gui_only
          SessionManager.empty Samples.serve_headless)
     = Startup.SysExit 1
  /\ Startup.manager
       (Startup.main Samples.plain_system Samples.gui_only
          SessionManager.empty Samples.serve_headless)
     = SessionManager.empty.
Proof.
  apply (headless_without_idalib_fatal Samples.plain_system Samples.gui_only
           SessionManager.empty Samples.serve_headless ("127.0.0.1", 13337));
    reflexivity.
Defined.

Lemma rpc_only_start_only_forwards_witness :
  fst (Router.dispatch_proxy
         (Startup.globals
            (Startup.main Samples.plain_system Samples.hybrid
               SessionManager.empty Samples.serve_rpc_only))
         Samples.unreachable
         (Startup.manager
            (Startup.main Samples.plain_system Samples.hybrid
               SessionManager.empty Samples.serve_rpc_only))
         Samples.open_call)
  = [Router.Remote].
Proof.
  apply (rpc_only_start_only_forwards Samples.plain_system Samples.hybrid
           SessionManager.empty Samples.serve_rpc_only Samples.unreachable
           Samples.open_call "tools/call");
    try reflexivity.
  discriminate.
Defined.

Lemma headless_start_never_forwards_witness :
  Router.dispatch_proxy
    (Startup.globals
       (Startup.main Samples.plain_system Samples.hybrid
          SessionManager.empty Samples.serve_headless))
    Samples.unreachable
    (Startup.manager
       (Startup.main Samples.plain_system Samples.hybrid
          SessionManager.empty Samples.serve_headless))
    Samples.decompile_call
  = ([Router.Local],
     Router.local_dispatch Samples.unreachable Samples.decompile_call).
Proof.
  apply (headless_start_never_forwards Samples.plain_system Samples.hybrid
           SessionManager.empty Samples.serve_headless Samples.unreachable
           Samples.decompile_call "tools/call");
    try reflexivity.
  discriminate.
Defined.

(** * Further properties of YARA generation *)

(** One iteration adds at most one chunk; a chunk added at [current] has
    offset [current - start], holds the non-empty bytes the engine returned
    for the requested size, and is flagged as data exactly when the address
    is not code. *)
Lemma collect_adds e include_data start current item_size gen :
  exists new,
    Yara.chunks (Yara.collect e include_data start current item_size gen)
      = (Yara.chunks gen ++ new)%list
    /\ (length new <= 1)%nat
    /\ Yara.gen_mode (Yara.collect e include_data start current item_size gen)
       = Yara.gen_mode gen
    /\ Forall
         (fun c =>
            Yara.offset c = current - start
            /\ Yara.get_bytes e current item_size = Some (Yara.chunk_bytes c)
            /\ Yara.chunk_bytes c <> []
            /\ Yara.is_data c
               = negb (Yara.is_code e (Yara.get_flags e current))
            /\ (Yara.is_data c = true -> include_data = true))
         new.
Proof.
  unfold Yara.collect.
  destruct (Yara.is_code e (Yara.get_flags e current)) eqn:Hcode;
    destruct include_data; simpl;
    try (exists []; rewrite app_nil_r; repeat split; simpl; try lia;
         constructor).
  all: destruct (Yara.get_bytes e current item_size) as [[|b bs]|] eqn:Hb;
    try (exists []; rewrite app_nil_r; repeat split; simpl; try lia;
         constructor).
  all: eexists [_]; simpl; repeat split; try lia; try constructor; simpl;
    repeat split; try discriminate; try constructor.
Qed.

(** The chunks a run of the loop adds, in order. *)
Lemma chunk_loop_invariant fuel :
  forall e include_data start end_ current gen final gen',
    start <= current ->
    Yara.chunk_loop fuel e include_data start end_ current gen
      = Some (final, gen') ->
    exists added,
      Yara.chunks gen' = (Yara.chunks gen ++ added)%list
      /\ Yara.gen_mode gen' = Yara.gen_mode gen
      /\ StronglySorted Z.lt (map Yara.offset added)
      /\ Forall
           (fun c =>
              current - start <= Yara.offset c < end_ - start
              /\ Yara.get_bytes e (start + Yara.offset c)
                   (Yara.item_advance e end_ (start + Yara.offset c))
                 = Some (Yara.chunk_bytes c)
              /\ Yara.chunk_bytes c <> []
              /\ start + Yara.offset c
                 + Yara.item_advance e end_ (start + Yara.offset c) <= end_
              /\ Yara.is_data c
                 = negb (Yara.is_code e
                           (Yara.get_flags e (start + Yara.offset c)))
              /\ (Yara.is_data c = true -> include_data = true))
           added.
Proof.
  induction fuel as [|fuel IH];
    intros e include_data start end_ current gen final gen' Hge Hrun;
    simpl in Hrun; destruct (current <? end_)%Z eqn:Hlt; try discriminate.
  - injection Hrun as <- <-. exists []. rewrite app_nil_r.
    repeat split; constructor.
  - apply Z.ltb_lt in Hlt.
    pose proof (item_advance_bounds e end_ current Hlt) as Hadv.
    apply IH in Hrun; [|lia].
    destruct Hrun as (rest & Hchunks & Hmode & Hsorted & Hrest).
    destruct (collect_adds e include_data start current
                (Yara.item_advance e end_ current) gen)
      as (new & Hnew & Hlen & Hnmode & Hnewp).
    exists (new ++ rest)%list.
    rewrite Hchunks, Hnew, app_assoc. split; [reflexivity|].
    split; [congruence|].
    assert (Hlater : Forall (fun c => current - start < Yara.offset c) rest).
    { eapply Forall_impl; [|exact Hrest]. simpl. intros c Hc. lia. }
    split.
    + rewrite map_app.
      destruct Hnewp as [|c new' Hc Hnew']; simpl; [exact Hsorted|].
      destruct new' as [|c2 new'']; [|simpl in Hlen; lia].
      simpl. constructor; [exact Hsorted|].
      rewrite Forall_map. destruct Hc as (-> & _). exact Hlater.
    + apply Forall_app. split.
      * eapply Forall_impl; [|exact Hnewp]. simpl.
        intros c (Hoff & Hbytes & Hne & Hdata & Hinc).
        rewrite Hoff.
        replace (start + (current - start)) with current by lia.
        repeat split; auto; lia.
      * eapply Forall_impl; [|exact Hrest]. simpl.
        intros c Hc. repeat split; try apply Hc; lia.
  - injection Hrun as <- <-. exists []. rewrite app_nil_r.
    repeat split; constructor.
Qed.

Lemma str_in_In x l : Yara.str_in x l = true <-> In x l.
Proof.
  unfold Yara.str_in. rewrite existsb_exists. split.
  - intros (y & Hin & Heq). apply String.eqb_eq in Heq. now subst.
  - intros Hin. exists x. split; [exact Hin | apply String.eqb_refl].
Qed.

(** A call that built a generator passed every check and ran the loop from
    the start address with an empty generator. *)
Lemma generate_built_inv fuel t e name start_addr end_addr mode include_data
    r gen :
  Yara.generate_yara_rule fuel t e name start_addr end_addr mode include_data
    = Some r ->
  Yara.built r = Some gen ->
  exists start end_ arch cs_mode final,
    Yara.HAS_MKYARA t = true
    /\ Yara.str_in mode Yara.valid_modes = true
    /\ Yara.parse_address t start_addr = Ok start
    /\ Yara.parse_address t end_addr = Ok end_
    /\ start < end_
    /\ Yara._get_capstone_context (Yara.cs t) e start = Ok (arch, cs_mode)
    /\ Yara.chunk_loop fuel e include_data start end_ start
         (Yara.mk_generator mode arch cs_mode []) = Some (final, gen)
    /\ ((exists ex,
           Yara.rule_string t gen name = Raise ex
           /\ Yara.reply r
              = Yara.error_dict ("Yara generation failed: " ++ py_str ex))
        \/ exists text,
             Yara.rule_string t gen name = Ok text
             /\ Yara.reply r
                = JObj [ ("success", JBool true);
                         ("rule", JStr text);
                         ("info",
                          JStr ("Generated rule '" ++ name ++ "' from "
                                ++ Yara.hex start ++ " to " ++ Yara.hex end_
                                ++ " (" ++ mode ++ " mode)")) ]).
Proof.
  unfold Yara.generate_yara_rule.
  destruct (Yara.HAS_MKYARA t); cbn [negb];
    [|intros H; injection H as <-; discriminate].
  destruct (Yara.str_in mode Yara.valid_modes); cbn [negb];
    [|intros H; injection H as <-; discriminate].
  destruct (Yara.parse_address t start_addr) as [start|ex];
    [|intros H; injection H as <-; discriminate].
  destruct (Yara.parse_address t end_addr) as [end_|ex];
    [|intros H; injection H as <-; discriminate].
  destruct (start >=? end_)%Z eqn:Hge;
    [intros H; injection H as <-; discriminate|].
  destruct (Yara._get_capstone_context (Yara.cs t) e start)
    as [[arch cs_mode]|ex] eqn:Hctx;
    [|intros H; injection H as <-; discriminate].
  destruct (Yara.chunk_loop fuel e include_data start end_ start _)
    as [[final gen']|] eqn:Hloop; [|discriminate].
  rewrite Z.geb_leb in Hge. apply Z.leb_gt in Hge.
  destruct (Yara.rule_string t gen' name) as [text|ex] eqn:Hrule;
    intros H; injection H as <-; simpl; intros Hb; injection Hb as <-;
    exists start, end_, arch, cs_mode, final;
    (do 7 (split; [auto|])).
  - right. exists text. auto.
  - left. exists ex. auto.
Qed.

(** X9: the chunks collected by [generate_yara_rule] have strictly
    increasing offsets, all inside the range: at least 0 and less than
    end - start. *)
Theorem chunk_offsets_increase_within_range :
  forall fuel t e name start_addr end_addr mode include_data r gen start end_,
    Yara.generate_yara_rule fuel t e name start_addr end_addr mode
      include_data = Some r ->
    Yara.built r = Some gen ->
    Yara.parse_address t start_addr = Ok start ->
    Yara.parse_address t end_addr = Ok end_ ->
    StronglySorted Z.lt (map Yara.offset (Yara.chunks gen))
    /\ Forall (fun c => 0 <= Yara.offset c < end_ - start) (Yara.chunks gen).
Proof.
  intros fuel t e name start_addr end_addr mode include_data r gen start end_
    Hrun Hbuilt Hs He.
  destruct (generate_built_inv _ _ _ _ _ _ _ _ _ _ Hrun Hbuilt)
    as (s & en & arch & cs_mode & final & _ & _ & Hs' & He' & _ & _ & Hloop
        & _).
  rewrite Hs in Hs'. rewrite He in He'.
  injection Hs' as <-. injection He' as <-.
  apply chunk_loop_invariant in Hloop; [|lia].
  destruct Hloop as (added & Hchunks & _ & Hsorted & Hall).
  simpl in Hchunks. rewrite Hchunks. split; [exact Hsorted|].
  eapply Forall_impl; [|exact Hall]. simpl. intros c Hc. lia.
Qed.

(** The advance of lines 120-128 in closed form: the engine's item size,
    raised to 1 and cut at the end address. *)
Lemma item_advance_closed e end_ current :
  Yara.item_advance e end_ current
  = Z.min (Z.max 1 (Z.of_N (Yara.get_item_size e current))) (end_ - current).
Proof.
  unfold Yara.item_advance.
  pose proof (N2Z.is_nonneg (Yara.get_item_size e current)) as Hsize.
  destruct (Z.of_N (Yara.get_item_size e current) =? 0)%Z eqn:E0.
  - apply Z.eqb_eq in E0. rewrite E0. rewrite Z.gtb_ltb.
    destruct (end_ <? current + 1)%Z eqn:E1.
    + apply Z.ltb_lt in E1. lia.
    + apply Z.ltb_ge in E1. lia.
  - apply Z.eqb_neq in E0. rewrite Z.gtb_ltb.
    destruct (end_ <? current + Z.of_N (Yara.get_item_size e current))%Z
      eqn:E1.
    + apply Z.ltb_lt in E1. lia.
    + apply Z.ltb_ge in E1. lia.
Qed.

(** X10: every chunk collected by [generate_yara_rule] holds exactly the
    bytes the engine returned for the chunk's address and the size of the
    iteration at that address, which is the engine's item size there, raised
    to 1 when it is 0 and cut so that the read ends at the end address at
    the latest; the bytes are not empty. *)
Theorem chunk_bytes_from_engine_within_range :
  forall fuel t e name start_addr end_addr mode include_data r gen start end_,
    Yara.generate_yara_rule fuel t e name start_addr end_addr mode
      include_data = Some r ->
    Yara.built r = Some gen ->
    Yara.parse_address t start_addr = Ok start ->
    Yara.parse_address t end_addr = Ok end_ ->
    Forall
      (fun c =>
         let address := start + Yara.offset c in
         let size :=
           Z.min (Z.max 1 (Z.of_N (Yara.get_item_size e address)))
                 (end_ - address) in
         Yara.item_advance e end_ address = size
         /\ 1 <= size
         /\ address + size <= end_
         /\ Yara.get_bytes e address size = Some (Yara.chunk_bytes c)
         /\ Yara.chunk_bytes c <> [])
      (Yara.chunks gen).
Proof.
  intros fuel t e name start_addr end_addr mode include_data r gen start end_
    Hrun Hbuilt Hs He.
  destruct (generate_built_inv _ _ _ _ _ _ _ _ _ _ Hrun Hbuilt)
    as (s & en & arch & cs_mode & final & _ & _ & Hs' & He' & _ & _ & Hloop
        & _).
  rewrite Hs in Hs'. rewrite He in He'.
  injection Hs' as <-. injection He' as <-.
  apply chunk_loop_invariant in Hloop; [|lia].
  destruct Hloop as (added & Hchunks & _ & _ & Hall).
  simpl in Hchunks. rewrite Hchunks.
  eapply Forall_impl; [|exact Hall]. cbv beta zeta.
  intros c (Hoff & Hbytes & Hne & Hend & _).
  pose proof (item_advance_bounds e end_ (start + Yara.offset c)
                ltac:(lia)) as Hadv.
  rewrite <- item_advance_closed.
  repeat split; auto; lia.
Qed.

(** X11: a chunk collected by [generate_yara_rule] is flagged as data
    exactly when the engine does not report code at its address; without
    [include_data] no data chunk is collected at all. *)
Theorem chunk_data_flags :
  forall fuel t e name start_addr end_addr mode include_data r gen start,
    Yara.generate_yara_rule fuel t e name start_addr end_addr mode
      include_data = Some r ->
    Yara.built r = Some gen ->
    Yara.parse_address t start_addr = Ok start ->
    Forall
      (fun c =>
         Yara.is_data c
         = negb (Yara.is_code e (Yara.get_flags e (start + Yara.offset c))))
      (Yara.chunks gen)
    /\ (include_data = false ->
        Forall (fun c => Yara.is_data c = false) (Yara.chunks gen)).
Proof.
  intros fuel t e name start_addr end_addr mode include_data r gen start
    Hrun Hbuilt Hs.
  destruct (generate_built_inv _ _ _ _ _ _ _ _ _ _ Hrun Hbuilt)
    as (s & en & arch & cs_mode & final & _ & _ & Hs' & _ & _ & _ & Hloop
        & _).
  rewrite Hs in Hs'. injection Hs' as <-.
  apply chunk_loop_invariant in Hloop; [|lia].
  destruct Hloop as (added & Hchunks & _ & _ & Hall).
  simpl in Hchunks. rewrite Hchunks. split.
  - eapply Forall_impl; [|exact Hall]. simpl. intros c Hc. apply Hc.
  - intros Hinc. eapply Forall_impl; [|exact Hall]. simpl.
    intros c (_ & _ & _ & _ & _ & Hdata).
    destruct (Yara.is_data c); [|reflexivity].
    rewrite Hinc in Hdata. symmetry. now apply Hdata.
Qed.

(** X12: [_get_capstone_context] succeeds exactly for the processor names
    that are, in lower case, one of the six x86 names, "arm" or "mips"; for
    any other processor it raises a [ValueError] that names it. *)
Theorem capstone_context_supported :
  forall c e ea,
    ((exists arch_mode, Yara._get_capstone_context c e ea = Ok arch_mode)
     <-> In (Yara.lower (Yara.inf_get_procname e))
            ["metapc"; "80386"; "80486"; "p3"; "p4"; "8086"; "arm"; "mips"])
    /\ (~ In (Yara.lower (Yara.inf_get_procname e))
            ["metapc"; "80386"; "80486"; "p3"; "p4"; "8086"; "arm"; "mips"] ->
        Yara._get_capstone_context c e ea
        = Raise (mk_exn ValueError
                   ("Architecture '" ++ Yara.lower (Yara.inf_get_procname e)
                    ++ "' is not currently supported for YARA generation."))).
Proof.
  intros c e ea. unfold Yara._get_capstone_context.
  set (proc := Yara.lower (Yara.inf_get_procname e)).
  destruct (Yara.str_in proc ["metapc"; "80386"; "80486"; "p3"; "p4"; "8086"])
    eqn:Hx86.
  - apply str_in_In in Hx86. split.
    + split; [intros _ | eauto].
      simpl in *. intuition.
    + intros Hno. exfalso. apply Hno. simpl in *. intuition.
  - assert (Hnot : ~ In proc ["metapc"; "80386"; "80486"; "p3"; "p4"; "8086"]).
    { intros Hin. apply str_in_In in Hin. congruence. }
    destruct (proc =? "arm") eqn:Harm.
    + apply String.eqb_eq in Harm. split.
      * split; [intros _; rewrite Harm; simpl; tauto|].
        intros _. destruct (Yara.inf_get_app_bitness e =? 64)%Z; eauto.
      * intros Hno. exfalso. apply Hno. rewrite Harm. simpl. tauto.
    + apply String.eqb_neq in Harm.
      destruct (proc =? "mips") eqn:Hmips.
      * apply String.eqb_eq in Hmips. split.
        -- split; [intros _; rewrite Hmips; simpl; tauto | eauto].
        -- intros Hno. exfalso. apply Hno. rewrite Hmips. simpl. tauto.
      * apply String.eqb_neq in Hmips. split; [|reflexivity].
        split; [intros (am & H); discriminate|].
        intros Hin. exfalso. simpl in Hin, Hnot.
        intuition congruence.
Qed.

(** X13: [generate_yara_rule] reports success only after every check has
    passed: mkyara is available, the mode is one of loose, normal, strict,
    both addresses parsed with start < end and the processor is supported;
    the rule it returns is the rendering of the generator it built, whose
    mode is the requested one. *)
Theorem success_only_after_validation :
  forall fuel t e name start_addr end_addr mode include_data r fields,
    Yara.generate_yara_rule fuel t e name start_addr end_addr mode
      include_data = Some r ->
    Yara.reply r = JObj fields ->
    dict_get "success" fields = Some (JBool true) ->
    Yara.HAS_MKYARA t = true
    /\ In mode ["loose"; "normal"; "strict"]
    /\ (exists start end_,
          Yara.parse_address t start_addr = Ok start
          /\ Yara.parse_address t end_addr = Ok end_
          /\ start < end_
          /\ exists arch_mode,
               Yara._get_capstone_context (Yara.cs t) e start = Ok arch_mode)
    /\ (exists gen text,
          Yara.built r = Some gen
          /\ Yara.gen_mode gen = mode
          /\ Yara.rule_string t gen name = Ok text
          /\ dict_get "rule" fields = Some (JStr text)).
Proof.
  intros fuel t e name start_addr end_addr mode include_data r fields
    Hrun Hreply Hsucc.
  destruct (Yara.built r) as [gen|] eqn:Hbuilt.
  - destruct (generate_built_inv _ _ _ _ _ _ _ _ _ _ Hrun Hbuilt)
      as (s & en & arch & cs_mode & final & Hlib & Hmode & Hs & He & Hlt
          & Hctx & Hloop & Hout).
    destruct Hout as [(ex & _ & Herr) | (text & Hrule & Hok)].
    + rewrite Herr in Hreply. injection Hreply as <-. discriminate.
    + rewrite Hok in Hreply. injection Hreply as <-.
      apply chunk_loop_invariant in Hloop; [|lia].
      destruct Hloop as (_ & _ & Hgm & _).
      split; [exact Hlib|]. split; [now apply str_in_In|].
      split; [exists s, en; eauto 6|].
      exists gen, text. auto.
  - exfalso. revert Hrun. unfold Yara.generate_yara_rule.
    repeat match goal with
           | |- context [if ?b then _ else _] => destruct b
           | |- context [match ?x with _ => _ end] => destruct x
           end;
      intros H; try discriminate; injection H as <-;
      simpl in *; try discriminate;
      injection Hreply as <-; discriminate.
Qed.

Lemma chunk_offsets_increase_within_range_witness :
  exists gen,
    option_map Yara.built
      (Yara.generate_yara_rule 16 Samples.with_mkyara Samples.x86_engine
         "rule1" "0x1000" "0x1010" "normal" true) = Some (Some gen)
    /\ StronglySorted Z.lt (map Yara.offset (Yara.chunks gen))
    /\ Forall (fun c => 0 <= Yara.offset c < 4112 - 4096) (Yara.chunks gen).
Proof.
  eexists. split; [vm_compute; reflexivity|].
  eapply (chunk_offsets_increase_within_range 16 Samples.with_mkyara
            Samples.x86_engine "rule1" "0x1000" "0x1010" "normal" true);
    [vm_compute; reflexivity | reflexivity | reflexivity | reflexivity].
Defined.

Lemma chunk_bytes_from_engine_within_range_witness :
  exists gen,
    option_map Yara.built
      (Yara.generate_yara_rule 16 Samples.with_mkyara Samples.x86_engine
         "rule1" "0x1000" "0x1010" "normal" true) = Some (Some gen)
    /\ Forall
         (fun c =>
            let address := 4096 + Yara.offset c in
            let size :=
              Z.min
                (Z.max 1
                   (Z.of_N (Yara.get_item_size Samples.x86_engine address)))
                (4112 - address) in
            Yara.item_advance Samples.x86_engine 4112 address = size
            /\ 1 <= size
            /\ address + size <= 4112
            /\ Yara.get_bytes Samples.x86_engine address size
               = Some (Yara.chunk_bytes c)
            /\ Yara.chunk_bytes c <> [])
         (Yara.chunks gen).
Proof.
  eexists. split; [vm_compute; reflexivity|].
  eapply (chunk_bytes_from_engine_within_range 16 Samples.with_mkyara
            Samples.x86_engine "rule1" "0x1000" "0x1010" "normal" true);
    [vm_compute; reflexivity | reflexivity | reflexivity | reflexivity].
Defined.

Lemma chunk_data_flags_witness :
  exists gen,
    option_map Yara.built
      (Yara.generate_yara_rule 16 Samples.with_mkyara Samples.x86_engine
         "rule1" "0x1000" "0x1010" "normal" false) = Some (Some gen)
    /\ Forall (fun c => Yara.is_data c = false) (Yara.chunks gen).
Proof.
  eexists. split; [vm_compute; reflexivity|].
  eapply (chunk_data_flags 16 Samples.with_mkyara Samples.x86_engine
            "rule1" "0x1000" "0x1010" "normal" false);
    [vm_compute; reflexivity | reflexivity | reflexivity | reflexivity].
Defined.

Lemma success_only_after_validation_witness :
  Yara.HAS_MKYARA Samples.with_mkyara = true
  /\ In "normal" ["loose"; "normal"; "strict"]
  /\ (exists start end_,
        Yara.parse_address Samples.with_mkyara "0x1000" = Ok start
        /\ Yara.parse_address Samples.with_mkyara "0x1010" = Ok end_
        /\ start < end_
        /\ exists arch_mode,
             Yara._get_capstone_context (Yara.cs Samples.with_mkyara)
               Samples.x86_engine start = Ok arch_mode).
Proof.
  edestruct (success_only_after_validation 16 Samples.with_mkyara
               Samples.x86_engine "rule1" "0x1000" "0x1010" "normal" false)
    as (Hlib & Hmode & Haddr & _);
    [vm_compute; reflexivity | reflexivity | reflexivity |].
  split; [exact Hlib|]. split; [exact Hmode | exact Haddr].
Defined.

(** * Properties of the client configuration *)

Lemma search_sys_path_exists o paths python :
  ClientConfig.search_sys_path o paths = Some python ->
  ClientConfig.path_exists o python = true.
Proof.
  induction paths as [|path rest IH]; simpl; [discriminate|].
  destruct (ClientConfig.zip_candidate o path) as [candidate|] eqn:Hc;
    [|exact IH].
  intros H. injection H as <-.
  unfold ClientConfig.zip_candidate in Hc. cbv zeta in Hc.
  match type of Hc with
  | (if ?b then _ else _) = _ => destruct b; [|discriminate]
  end.
  match type of Hc with
  | (if ?b then _ else _) = _ => destruct b eqn:Hex; [|discriminate]
  end.
  injection Hc as <-. exact Hex.
Qed.

(** X14: [get_python_executable] returns [sys.executable] or a path that
    exists: a virtual-environment or zip-derived candidate that is missing
    on disk is never returned. *)
Theorem python_executable_exists_or_default :
  forall o,
    ClientConfig.get_python_executable o = ClientConfig.sys_executable o
    \/ ClientConfig.path_exists o (ClientConfig.get_python_executable o)
       = true.
Proof.
  intros o. unfold ClientConfig.get_python_executable.
  destruct (ClientConfig.venv_python o) as [python|] eqn:Hv.
  - right. unfold ClientConfig.venv_python in Hv.
    destruct (ClientConfig.truthy _) as [venv|]; [|discriminate].
    match type of Hv with
    | (if ?b then _ else _) = _ => destruct b eqn:Hex; [|discriminate]
    end.
    injection Hv as <-. exact Hex.
  - destruct (ClientConfig.search_sys_path o (ClientConfig.sys_path o))
      as [python|] eqn:Hs; [right | left; reflexivity].
    eapply search_sys_path_exists; eauto.
Qed.


Lemma copy_vars_flag o vars :
  forall result env,
    fst (ClientConfig.copy_vars o vars result env)
    = result || existsb (ClientConfig.is_set o) vars.
Proof.
  induction vars as [|var rest IH]; intros result env; simpl.
  - now rewrite orb_false_r.
  - unfold ClientConfig.is_set at 1.
    destruct (ClientConfig.truthy (ClientConfig.environ o var)); rewrite IH.
    + simpl. now rewrite orb_true_r.
    + reflexivity.
Qed.

Lemma copy_vars_lookup o vars :
  forall result env k,
    dict_get k (snd (ClientConfig.copy_vars o vars result env))
    = if Yara.str_in k vars && ClientConfig.is_set o k
      then ClientConfig.truthy (ClientConfig.environ o k)
      else dict_get k env.
Proof.
  induction vars as [|var rest IH]; intros result env k; simpl;
    [reflexivity|].
  destruct (ClientConfig.truthy (ClientConfig.environ o var)) as [value|]
    eqn:Hvar; rewrite IH; unfold Yara.str_in in *; simpl.
  - destruct (k =? var) eqn:E.
    + apply String.eqb_eq in E. subst var. simpl.
      unfold ClientConfig.is_set. rewrite Hvar.
      destruct (existsb (String.eqb k) rest); simpl;
        [reflexivity | apply dict_get_set_same].
    + simpl. destruct (existsb (String.eqb k) rest && ClientConfig.is_set o k);
        [reflexivity|].
      apply dict_get_set_other. now apply String.eqb_neq.
  - destruct (k =? var) eqn:E; [|reflexivity].
    apply String.eqb_eq in E. subst var. simpl.
    unfold ClientConfig.is_set. rewrite Hvar. now rewrite andb_false_r.
Qed.

Lemma copy_vars_unchanged o vars :
  forall result env,
    fst (ClientConfig.copy_vars o vars result env) = false ->
    snd (ClientConfig.copy_vars o vars result env) = env.
Proof.
  induction vars as [|var rest IH]; intros result env; simpl; [reflexivity|].
  destruct (ClientConfig.truthy (ClientConfig.environ o var)); [|apply IH].
  rewrite copy_vars_flag. discriminate.
Qed.

Lemma is_set_spec o var :
  ClientConfig.is_set o var = true
  <-> exists value, ClientConfig.environ o var = Some value /\ value <> "".
Proof.
  unfold ClientConfig.is_set, ClientConfig.truthy.
  destruct (ClientConfig.environ o var) as [text|].
  - destruct (text =? "") eqn:E.
    + apply String.eqb_eq in E. split; [discriminate|].
      intros (value & Hv & Hne). congruence.
    + apply String.eqb_neq in E. split; [eauto | reflexivity].
  - split; [discriminate|]. intros (value & Hv & _). discriminate.
Qed.

(** X15: [copy_python_env] returns true exactly when one of the seven
    Python variables is set to a non-empty value in the environment; when it
    returns false the dictionary passed in is left as it was. *)
Theorem copy_python_env_flag :
  forall o env,
    (fst (ClientConfig.copy_python_env o env) = true
     <-> exists var value,
           In var ClientConfig.python_vars
           /\ ClientConfig.environ o var = Some value /\ value <> "")
    /\ (fst (ClientConfig.copy_python_env o env) = false ->
        snd (ClientConfig.copy_python_env o env) = env).
Proof.
  intros o env. unfold ClientConfig.copy_python_env. split.
  - rewrite copy_vars_flag, orb_false_l, existsb_exists. split.
    + intros (var & Hin & Hset). apply is_set_spec in Hset.
      destruct Hset as (value & Hv & Hne). eauto.
    + intros (var & value & Hin & Hv & Hne). exists var. split; [exact Hin|].
      apply is_set_spec. eauto.
  - apply copy_vars_unchanged.
Qed.

(** X16: after [copy_python_env] the dictionary maps each of the seven
    Python variables that is set to a non-empty value to that value, and
    every other key to what it held before. *)
Theorem copy_python_env_contents :
  forall o env,
    (forall var value,
       In var ClientConfig.python_vars ->
       ClientConfig.environ o var = Some value -> value <> "" ->
       dict_get var (snd (ClientConfig.copy_python_env o env)) = Some value)
    /\ (forall k,
          ~ In k ClientConfig.python_vars
          \/ ClientConfig.environ o k = None
          \/ ClientConfig.environ o k = Some "" ->
          dict_get k (snd (ClientConfig.copy_python_env o env))
          = dict_get k env).
Proof.
  intros o env. unfold ClientConfig.copy_python_env. split.
  - intros var value Hin Hv Hne. rewrite copy_vars_lookup.
    apply str_in_In in Hin. rewrite Hin.
    assert (Hset : ClientConfig.is_set o var = true)
      by (apply is_set_spec; eauto).
    rewrite Hset. simpl.
    unfold ClientConfig.truthy. rewrite Hv.
    apply String.eqb_neq in Hne. now rewrite Hne.
  - intros k Hk. rewrite copy_vars_lookup.
    destruct (Yara.str_in k ClientConfig.python_vars) eqn:Hin;
      [|reflexivity].
    destruct (ClientConfig.is_set o k) eqn:Hset; [|reflexivity].
    exfalso. apply is_set_spec in Hset. destruct Hset as (value & Hv & Hne).
    apply str_in_In in Hin.
    destruct Hk as [Hk | [Hk | Hk]]; [tauto | congruence | congruence].
Qed.

(** X17: the stdio configuration carries the interpreter chosen by
    [get_python_executable] and an argument list that starts with the
    script and never holds both --headless and --rpc-only: --headless is
    passed exactly for mode "headless", --rpc-only exactly for mode "rpc",
    and --ida-rpc with the peer's URL exactly for mode "rpc" or, outside
    mode "headless", when idalib is absent. *)
Theorem stdio_config_arguments :
  forall o cfg mode,
    exists fields args,
      snd (ClientConfig.generate_mcp_config o cfg true mode) = JObj fields
      /\ dict_get "command" fields
         = Some (JStr (ClientConfig.get_python_executable o))
      /\ dict_get "args" fields
         = Some (JArr (map JStr (ClientConfig.script_file o :: args)))
      /\ (In "--headless" args <-> mode = "headless")
      /\ (In "--rpc-only" args <-> mode = "rpc")
      /\ (In "--ida-rpc" args
          <-> mode = "rpc"
              \/ (mode <> "headless" /\ Router.HAS_IDALIB cfg = false))
      /\ (In "--ida-rpc" args ->
          exists before,
            args = (before ++ ["--ida-rpc"; ClientConfig.rpc_url cfg])%list)
      /\ ~ (In "--headless" args /\ In "--rpc-only" args).
Proof.
  intros o cfg mode.
  assert (Hurl : forall flag, String "-" flag <> ClientConfig.rpc_url cfg)
    by (intros flag; unfold ClientConfig.rpc_url; simpl; discriminate).
  unfold ClientConfig.generate_mcp_config, ClientConfig.stdio_args.
  destruct (ClientConfig.copy_python_env o []) as [copied env].
  set (args := if mode =? "headless" then _ else _).
  exists (if copied
          then dict_set "env"
                 (JObj (map (fun kv => (fst kv, JStr (snd kv))) env))
                 [ ("command", JStr (ClientConfig.get_python_executable o));
                   ("args", JArr (map JStr (ClientConfig.script_file o
                                            :: args))) ]
          else [ ("command", JStr (ClientConfig.get_python_executable o));
                 ("args", JArr (map JStr (ClientConfig.script_file o
                                          :: args))) ]),
         args.
  split; [destruct copied; reflexivity|].
  split; [destruct copied; reflexivity|].
  split; [destruct copied; reflexivity|].
  assert (U1 : ClientConfig.rpc_url cfg <> "--headless")
    by (intros H; exact (Hurl _ (eq_sym H))).
  assert (U2 : ClientConfig.rpc_url cfg <> "--rpc-only")
    by (intros H; exact (Hurl _ (eq_sym H))).
  assert (U3 : ClientConfig.rpc_url cfg <> "--ida-rpc")
    by (intros H; exact (Hurl _ (eq_sym H))).
  subst args.
  destruct (mode =? "headless") eqn:Hh;
    [apply String.eqb_eq in Hh
    |apply String.eqb_neq in Hh;
     destruct (mode =? "rpc") eqn:Hr;
     [apply String.eqb_eq in Hr
     |apply String.eqb_neq in Hr;
      destruct (Router.HAS_IDALIB cfg) eqn:Hlib]];
    cbn [negb In];
    (split; [intuition (try discriminate; try congruence)|]);
    (split; [intuition (try discriminate; try congruence)|]);
    (split; [intuition (try discriminate; try congruence)|]);
    (split; [|intuition (try discriminate; try congruence)]).
  - subst mode. intuition discriminate.
  - intros _. exists ["--rpc-only"]. reflexivity.
  - tauto.
  - intros _. exists []. reflexivity.
Qed.
(** * Properties of the client installation *)

Section UniqueKeys.
Context {V : Type}.
Implicit Types (d : list (string * V)) (k : string) (v : V).

Lemma dict_get_not_in d k : ~ In k (map fst d) -> dict_get k d = None.
Proof.
  induction d as [|[k0 v0] rest IH]; simpl; [reflexivity|].
  intros Hno. destruct (k0 =? k) eqn:E.
  - apply String.eqb_eq in E. tauto.
  - apply IH. tauto.
Qed.

Lemma dict_set_keys d k v x :
  In x (map fst (dict_set k v d)) <-> x = k \/ In x (map fst d).
Proof.
  induction d as [|[k0 v0] rest IH]; simpl; [intuition|].
  destruct (k0 =? k) eqn:E; simpl.
  - apply String.eqb_eq in E. subst k0. intuition.
  - rewrite IH. intuition.
Qed.

Lemma dict_del_keys d k x :
  In x (map fst (dict_del k d)) -> In x (map fst d).
Proof.
  induction d as [|[k0 v0] rest IH]; simpl; [tauto|].
  destruct (k0 =? k); simpl; intuition.
Qed.

Lemma NoDup_dict_set d k v :
  NoDup (map fst d) -> NoDup (map fst (dict_set k v d)).
Proof.
  induction d as [|[k0 v0] rest IH]; simpl; intros Hnd.
  - constructor; [tauto | constructor].
  - inversion Hnd as [|? ? Hnotin Hrest]; subst.
    destruct (k0 =? k) eqn:E; simpl.
    + apply String.eqb_eq in E. subst k0. now constructor.
    + apply String.eqb_neq in E. constructor; [|auto].
      rewrite dict_set_keys. intros [H | H]; [congruence | tauto].
Qed.

Lemma NoDup_dict_del d k :
  NoDup (map fst d) -> NoDup (map fst (dict_del k d)).
Proof.
  induction d as [|[k0 v0] rest IH]; simpl; intros Hnd; [constructor|].
  inversion Hnd as [|? ? Hnotin Hrest]; subst.
  destruct (k0 =? k); simpl; [exact Hrest|].
  constructor; [|auto]. intros Hin. apply Hnotin.
  eapply dict_del_keys; eauto.
Qed.

Lemma dict_get_del_same d k :
  NoDup (map fst d) -> dict_get k (dict_del k d) = None.
Proof.
  induction d as [|[k0 v0] rest IH]; simpl; intros Hnd; [reflexivity|].
  inversion Hnd as [|? ? Hnotin Hrest]; subst.
  destruct (k0 =? k) eqn:E; simpl.
  - apply String.eqb_eq in E. subst k0. now apply dict_get_not_in.
  - rewrite E. auto.
Qed.

Lemma dict_set_set d k v v' :
  dict_set k v (dict_set k v' d) = dict_set k v d.
Proof.
  induction d as [|[k0 v0] rest IH]; simpl.
  - now rewrite String.eqb_refl.
  - destruct (k0 =? k) eqn:E; simpl.
    + now rewrite String.eqb_refl.
    + rewrite E. now rewrite IH.
Qed.

Lemma dict_set_same_value d k v :
  dict_get k d = Some v -> dict_set k v d = d.
Proof.
  induction d as [|[k0 v0] rest IH]; simpl; [discriminate|].
  destruct (k0 =? k) eqn:E.
  - apply String.eqb_eq in E. intros H. injection H as ->. now subst.
  - intros H. now rewrite IH.
Qed.

Lemma dict_del_absent d k : dict_get k d = None -> dict_del k d = d.
Proof.
  induction d as [|[k0 v0] rest IH]; simpl; [reflexivity|].
  destruct (k0 =? k); [discriminate|]. intros H. now rewrite IH.
Qed.
End UniqueKeys.

(** What the migration does to a server table that is a dictionary. *)
Lemma migrate_dict mcp_name fields :
  NoDup (map fst fields) ->
  mcp_name <> McpInstall.old_name ->
  exists migrated,
    McpInstall.migrate mcp_name (JObj fields) = Ok (JObj migrated)
    /\ dict_get McpInstall.old_name migrated = None
    /\ (forall k,
          k <> mcp_name -> k <> McpInstall.old_name ->
          dict_get k migrated = dict_get k fields)
    /\ NoDup (map fst migrated).
Proof.
  intros Hnd Hne.
  unfold McpInstall.migrate, McpInstall.py_in, dict_has.
  destruct (dict_get McpInstall.old_name fields) as [old|] eqn:Hold.
  - eexists. split; [reflexivity|]. split.
    + apply dict_get_del_same. now apply NoDup_dict_set.
    + split; [|now apply NoDup_dict_del, NoDup_dict_set].
      intros k Hk1 Hk2.
      rewrite dict_get_del_other, dict_get_set_other by congruence.
      reflexivity.
  - exists fields. auto.
Qed.

(** X18: installing into a server table that is a dictionary (keys unique)
    binds [mcp.name] to the new entry, removes the entry under the old name,
    leaves every other server as it was and keeps the keys unique. *)
Theorem install_table_entry :
  forall mcp_name entry fields,
    NoDup (map fst fields) ->
    mcp_name <> McpInstall.old_name ->
    exists fields',
      McpInstall.install_table mcp_name entry (JObj fields)
        = Ok (JObj fields')
      /\ dict_get mcp_name fields' = Some entry
      /\ dict_get McpInstall.old_name fields' = None
      /\ (forall k,
            k <> mcp_name -> k <> McpInstall.old_name ->
            dict_get k fields' = dict_get k fields)
      /\ NoDup (map fst fields').
Proof.
  intros mcp_name entry fields Hnd Hne.
  destruct (migrate_dict mcp_name fields Hnd Hne)
    as (migrated & Hmig & Hold & Hother & Hnd').
  unfold McpInstall.install_table. rewrite Hmig. simpl.
  eexists. split; [reflexivity|].
  split; [apply dict_get_set_same|].
  split; [rewrite dict_get_set_other by congruence; exact Hold|].
  split; [|now apply NoDup_dict_set].
  intros k Hk1 Hk2. rewrite dict_get_set_other by congruence.
  now apply Hother.
Qed.

(** X19: uninstalling from a server table that is a dictionary (keys
    unique) reports "not installed" exactly when neither [mcp.name] nor the
    old name is bound; otherwise the table afterwards binds neither name and
    leaves every other server as it was. *)
Theorem uninstall_table_entry :
  forall mcp_name fields,
    NoDup (map fst fields) ->
    mcp_name <> McpInstall.old_name ->
    (dict_get mcp_name fields = None
     /\ dict_get McpInstall.old_name fields = None
     /\ McpInstall.uninstall_table mcp_name (JObj fields) = Ok None)
    \/ (exists fields',
          McpInstall.uninstall_table mcp_name (JObj fields)
            = Ok (Some (JObj fields'))
          /\ (dict_get mcp_name fields <> None
              \/ dict_get McpInstall.old_name fields <> None)
          /\ dict_get mcp_name fields' = None
          /\ dict_get McpInstall.old_name fields' = None
          /\ (forall k,
                k <> mcp_name -> k <> McpInstall.old_name ->
                dict_get k fields' = dict_get k fields)).
Proof.
  intros mcp_name fields Hnd Hne.
  unfold McpInstall.uninstall_table, McpInstall.migrate,
    McpInstall.remove_entry, McpInstall.py_in, dict_has.
  destruct (dict_get McpInstall.old_name fields) as [old|] eqn:Hold; simpl.
  - right. unfold dict_has.
    rewrite dict_get_del_other, dict_get_set_same by congruence.
    eexists. split; [reflexivity|].
    split; [right; congruence|].
    assert (Hnd' : NoDup (map fst (dict_del McpInstall.old_name
                                     (dict_set mcp_name old fields))))
      by now apply NoDup_dict_del, NoDup_dict_set.
    split; [now apply dict_get_del_same|].
    split.
    + rewrite dict_get_del_other by congruence.
      apply dict_get_del_same. now apply NoDup_dict_set.
    + intros k Hk1 Hk2.
      rewrite !dict_get_del_other, dict_get_set_other by congruence.
      reflexivity.
  - destruct (dict_get mcp_name fields) as [cur|] eqn:Hcur.
    + right. eexists. split; [reflexivity|].
      split; [left; congruence|].
      split; [now apply dict_get_del_same|].
      split; [rewrite dict_get_del_other by congruence; exact Hold|].
      intros k Hk1 Hk2. now rewrite dict_get_del_other by congruence.
    + left. auto.
Qed.

Lemma ensure_inv key container fields value :
  McpInstall.ensure key container = Ok (fields, value) ->
  exists original,
    container = JObj original
    /\ dict_get key fields = Some value
    /\ (forall k, k <> key -> dict_get k fields = dict_get k original)
    /\ (forall v, dict_set key v fields = dict_set key v original).
Proof.
  unfold McpInstall.ensure.
  destruct container as [| | | | |original]; try discriminate.
  destruct (dict_get key original) as [found|] eqn:Hget; intros H;
    injection H as <- <-; exists original.
  - repeat split; auto.
  - split; [reflexivity|]. split; [apply dict_get_set_same|].
    split; [intros k Hk; now apply dict_get_set_other|].
    intros v. apply dict_set_set.
Qed.

Lemma ensure_after_put key v fields :
  McpInstall.ensure key (JObj (dict_set key v fields))
  = Ok (dict_set key v fields, v).
Proof.
  unfold McpInstall.ensure. now rewrite dict_get_set_same.
Qed.

Lemma locate_at_inv key config loc :
  McpInstall.locate_at key config = Ok loc ->
  exists original fields,
    config = JObj original
    /\ McpInstall.ensure key config = Ok (fields, McpInstall.table loc)
    /\ McpInstall.put loc = (fun t => JObj (dict_set key t fields)).
Proof.
  unfold McpInstall.locate_at.
  destruct (McpInstall.ensure key config) as [[fields value]|e] eqn:Hens;
    [|discriminate].
  intros H. injection H as <-.
  destruct (ensure_inv _ _ _ _ Hens) as (original & -> & _).
  exists original, fields. auto.
Qed.

(** X20: for a configuration that is a dictionary, putting a server table
    back changes nothing at the top level except the key the table lives
    under, and locating the table again in the result finds the table that
    was put. *)
Theorem put_changes_only_the_table :
  forall is_toml name fields loc t,
    McpInstall.locate is_toml name (JObj fields) = Ok loc ->
    exists fields',
      McpInstall.put loc t = JObj fields'
      /\ (forall k,
            k <> McpInstall.root_key is_toml name ->
            dict_get k fields' = dict_get k fields)
      /\ exists loc',
           McpInstall.locate is_toml name (JObj fields') = Ok loc'
           /\ McpInstall.table loc' = t.
Proof.
  intros is_toml name fields loc t.
  assert (Hat : forall key,
             McpInstall.locate_at key (JObj fields) = Ok loc ->
             exists fields',
               McpInstall.put loc t = JObj fields'
               /\ (forall k, k <> key ->
                              dict_get k fields' = dict_get k fields)
               /\ exists loc',
                    McpInstall.locate_at key (JObj fields') = Ok loc'
                    /\ McpInstall.table loc' = t).
  { intros key Hloc.
    destruct (locate_at_inv _ _ _ Hloc) as (original & f0 & Heq & Hens & Hput).
    injection Heq as <-.
    destruct (ensure_inv _ _ _ _ Hens) as (orig & Heq & _ & Hother & _).
    injection Heq as <-.
    rewrite Hput. eexists. split; [reflexivity|]. split.
    - intros k Hk. rewrite dict_get_set_other by congruence. now apply Hother.
    - unfold McpInstall.locate_at. rewrite ensure_after_put.
      eexists. split; reflexivity. }
  unfold McpInstall.locate, McpInstall.root_key.
  destruct is_toml; [apply Hat|].
  destruct (dict_get name McpInstall.special_json_structures)
    as [[[top_key|] nested_key]|]; try apply Hat.
  destruct (McpInstall.ensure top_key (JObj fields)) as [[f0 inner]|e]
    eqn:Htop; [|discriminate].
  destruct (McpInstall.ensure nested_key inner) as [[inner_fields value]|e]
    eqn:Hnested; [|discriminate].
  intros H. injection H as <-. cbn [McpInstall.put McpInstall.table].
  destruct (ensure_inv _ _ _ _ Htop) as (orig & Heq & _ & Hother & _).
  injection Heq as <-.
  eexists. split; [reflexivity|]. split.
  - intros k Hk. rewrite dict_get_set_other by congruence. now apply Hother.
  - rewrite ensure_after_put, ensure_after_put.
    eexists. split; reflexivity.
Qed.

Lemma write_config_files h is_toml uninstall quiet files name config_path
    warnings config :
  let s := McpInstall.write_config h is_toml uninstall quiet files name
             config_path warnings config in
  (McpInstall.counted s <> Ok true -> McpInstall.files_after s = files)
  /\ (forall p, p <> config_path ->
                dict_get p (McpInstall.files_after s) = dict_get p files).
Proof.
  unfold McpInstall.write_config.
  destruct (if is_toml then _ else _) as [text|e]; simpl.
  - split; [congruence|]. intros p Hp. now apply dict_get_set_other.
  - auto.
Qed.

(** One client step either completes or leaves every file untouched, and
    touches no other path than the client's configuration file. *)
Lemma install_client_files h stdio mode uninstall quiet files name dir file :
  let s := McpInstall.install_client h stdio mode uninstall quiet files
             (name, (dir, file)) in
  (McpInstall.counted s <> Ok true -> McpInstall.files_after s = files)
  /\ (forall p, p <> McpInstall.join_path h dir file ->
                dict_get p (McpInstall.files_after s) = dict_get p files)
  /\ (McpInstall.dir_exists h dir = false ->
      McpInstall.files_after s = files).
Proof.
  unfold McpInstall.install_client.
  destruct (McpInstall.dir_exists h dir); cbn [negb];
    [|simpl; repeat split; intros; reflexivity].
  assert (Hskip : forall out r,
             (McpInstall.counted (McpInstall.mk_step files out r) <> Ok true ->
              McpInstall.files_after (McpInstall.mk_step files out r) = files)
             /\ (forall p, p <> McpInstall.join_path h dir file ->
                           dict_get p (McpInstall.files_after
                                         (McpInstall.mk_step files out r))
                           = dict_get p files)
             /\ (true = false ->
                 McpInstall.files_after (McpInstall.mk_step files out r)
                 = files))
    by (intros out r; simpl; repeat split; intros; reflexivity).
  assert (Hwrite : forall uninstall warnings config,
             let s := McpInstall.write_config h
                        (ClientConfig.endswith ".toml" file) uninstall quiet
                        files name (McpInstall.join_path h dir file) warnings
                        config in
             (McpInstall.counted s <> Ok true ->
              McpInstall.files_after s = files)
             /\ (forall p, p <> McpInstall.join_path h dir file ->
                           dict_get p (McpInstall.files_after s)
                           = dict_get p files)
             /\ (true = false -> McpInstall.files_after s = files)).
  { intros u warnings config.
    pose proof (write_config_files h (ClientConfig.endswith ".toml" file)
                  u quiet files name (McpInstall.join_path h dir file)
                  warnings config) as (H1 & H2).
    split; [exact H1 | split; [exact H2 | discriminate]]. }
  destruct (McpInstall.read_config h _ files _) as [config|reason|e];
    [|apply Hskip|apply Hskip].
  destruct (McpInstall.locate _ name config) as [loc|e]; [|apply Hskip].
  destruct (McpInstall.migrate (McpInstall.mcp_name h) (McpInstall.table loc))
    as [migrated|e]; [|apply Hskip].
  destruct uninstall.
  - destruct (McpInstall.remove_entry (McpInstall.mcp_name h) migrated)
      as [[t|]|e]; [apply Hwrite | apply Hskip | apply Hskip].
  - destruct (ClientConfig.generate_mcp_config _ _ stdio mode)
      as [warnings entry].
    destruct (McpInstall.set_entry (McpInstall.mcp_name h) entry migrated)
      as [t|e]; [apply Hwrite | apply Hskip].
Qed.

(** X21: a client step is all or nothing: unless it reaches the end of the
    iteration (the file was replaced), every file still has its former
    content; this covers a missing directory, an undecodable file, a server
    that is not installed and every exception.  A step that completes
    changes no other path than the client's configuration file. *)
Theorem install_client_atomic :
  forall h stdio mode uninstall quiet files name dir file,
    (McpInstall.counted
       (McpInstall.install_client h stdio mode uninstall quiet files
          (name, (dir, file))) <> Ok true ->
     McpInstall.files_after
       (McpInstall.install_client h stdio mode uninstall quiet files
          (name, (dir, file))) = files)
    /\ (forall p,
          p <> McpInstall.join_path h dir file ->
          dict_get p
            (McpInstall.files_after
               (McpInstall.install_client h stdio mode uninstall quiet files
                  (name, (dir, file))))
          = dict_get p files).
Proof.
  intros h stdio mode uninstall quiet files name dir file.
  pose proof (install_client_files h stdio mode uninstall quiet files name
                dir file) as (H1 & H2 & _).
  split; [exact H1 | exact H2].
Qed.

Lemma install_loop_frame h stdio mode uninstall quiet configs :
  forall files installed p,
    ~ In p (McpInstall.writable_paths h configs) ->
    dict_get p
      (fst (fst (McpInstall.install_loop h stdio mode uninstall quiet configs
                   files installed)))
    = dict_get p files.
Proof.
  induction configs as [|[name [dir file]] rest IH]; intros files installed p
    Hp; [reflexivity|].
  pose proof (install_client_files h stdio mode uninstall quiet files name
                dir file) as (_ & Hother & Hmissing).
  assert (Hstep : dict_get p
                    (McpInstall.files_after
                       (McpInstall.install_client h stdio mode uninstall
                          quiet files (name, (dir, file))))
                  = dict_get p files).
  { unfold McpInstall.writable_paths in Hp. simpl in Hp.
    destruct (McpInstall.dir_exists h dir) eqn:Hdir.
    - apply Hother. simpl in Hp. intros ->. tauto.
    - now rewrite Hmissing. }
  assert (Hrest : ~ In p (McpInstall.writable_paths h rest)).
  { unfold McpInstall.writable_paths in *. simpl in Hp.
    destruct (McpInstall.dir_exists h dir); simpl in Hp; tauto. }
  cbn [McpInstall.install_loop].
  destruct (McpInstall.counted _) as [reached|e]; [|exact Hstep].
  specialize (IH (McpInstall.files_after
                    (McpInstall.install_client h stdio mode uninstall quiet
                       files (name, (dir, file))))
                 (if reached then S installed else installed) p Hrest).
  destruct (McpInstall.install_loop h stdio mode uninstall quiet rest _ _)
    as [[files' out] r].
  simpl in *. congruence.
Qed.

(** X22: whatever happens during [install_mcp_servers], every path that is
    not the configuration file of a client of the platform's table whose
    directory exists keeps its content; on an unsupported platform no file
    changes at all. *)
Theorem install_mcp_servers_frame :
  forall h stdio mode uninstall quiet files p,
    (forall configs,
       McpInstall.configs_for h = Some configs ->
       ~ In p (McpInstall.writable_paths h configs)) ->
    dict_get p
      (fst (fst (McpInstall.install_mcp_servers h stdio mode uninstall quiet
                   files)))
    = dict_get p files.
Proof.
  intros h stdio mode uninstall quiet files p Hp.
  unfold McpInstall.install_mcp_servers.
  destruct (McpInstall.configs_for h) as [configs|]; [|reflexivity].
  pose proof (install_loop_frame h stdio mode uninstall quiet configs files
                0%nat p (Hp configs eq_refl)) as Hloop.
  destruct (McpInstall.install_loop h stdio mode uninstall quiet configs
              files 0) as [[files' out] [installed|e]]; simpl in *.
  - destruct (negb uninstall && (installed =? 0)%nat); exact Hloop.
  - exact Hloop.
Qed.

(** Locating again after a put finds the table that was put, at the same
    place. *)
Lemma locate_after_put is_toml name config loc t :
  McpInstall.locate is_toml name config = Ok loc ->
  exists loc',
    McpInstall.locate is_toml name (McpInstall.put loc t) = Ok loc'
    /\ McpInstall.table loc' = t
    /\ forall t2, McpInstall.put loc' t2 = McpInstall.put loc t2.
Proof.
  assert (Hat : forall key,
             McpInstall.locate_at key config = Ok loc ->
             exists loc',
               McpInstall.locate_at key (McpInstall.put loc t) = Ok loc'
               /\ McpInstall.table loc' = t
               /\ forall t2, McpInstall.put loc' t2 = McpInstall.put loc t2).
  { intros key Hloc.
    destruct (locate_at_inv _ _ _ Hloc) as (original & f0 & _ & _ & Hput).
    rewrite Hput. unfold McpInstall.locate_at. rewrite ensure_after_put.
    eexists. split; [reflexivity|]. split; [reflexivity|].
    intros t2. simpl. now rewrite dict_set_set. }
  unfold McpInstall.locate.
  destruct is_toml; [apply Hat|].
  destruct (dict_get name McpInstall.special_json_structures)
    as [[[top_key|] nested_key]|]; try apply Hat.
  destruct (McpInstall.ensure top_key config) as [[f0 inner]|e];
    [|discriminate].
  destruct (McpInstall.ensure nested_key inner) as [[inner_fields value]|e];
    [|discriminate].
  intros H. injection H as <-. cbn [McpInstall.put McpInstall.table].
  rewrite ensure_after_put, ensure_after_put.
  eexists. split; [reflexivity|]. split; [reflexivity|].
  intros t2. simpl. now rewrite !dict_set_set.
Qed.

(** Installing again into a table that already went through an install
    changes nothing. *)
Lemma install_table_again mcp_name entry fields t :
  NoDup (map fst fields) ->
  mcp_name <> McpInstall.old_name ->
  McpInstall.install_table mcp_name entry (JObj fields) = Ok t ->
  McpInstall.install_table mcp_name entry t = Ok t.
Proof.
  intros Hnd Hne Hfirst.
  destruct (migrate_dict mcp_name fields Hnd Hne)
    as (migrated & Hmig & Hold & _).
  unfold McpInstall.install_table in *. rewrite Hmig in Hfirst.
  simpl in Hfirst. injection Hfirst as <-.
  unfold McpInstall.migrate, McpInstall.py_in, dict_has.
  rewrite dict_get_set_other by congruence. rewrite Hold. simpl.
  now rewrite dict_set_set.
Qed.

(** X23: installing twice is installing once.  When an install step for a
    client completed, the server table it found had unique keys, and
    reading the file back yields the configuration that was serialised, a
    second install step for the same client completes and leaves every
    file exactly as the first one did. *)
Theorem install_client_twice :
  forall h stdio mode quiet files name dir file config',
    McpInstall.mcp_name h <> McpInstall.old_name ->
    McpInstall.counted
      (McpInstall.install_client h stdio mode false quiet files
         (name, (dir, file))) = Ok true ->
    McpInstall.installed_config h stdio mode files (name, (dir, file))
      = Some config' ->
    (forall config loc fields,
       McpInstall.read_config h (ClientConfig.endswith ".toml" file) files
         (McpInstall.join_path h dir file) = McpInstall.Loaded config ->
       McpInstall.locate (ClientConfig.endswith ".toml" file) name config
         = Ok loc ->
       McpInstall.table loc = JObj fields ->
       NoDup (map fst fields)) ->
    McpInstall.read_config h (ClientConfig.endswith ".toml" file)
      (McpInstall.files_after
         (McpInstall.install_client h stdio mode false quiet files
            (name, (dir, file))))
      (McpInstall.join_path h dir file) = McpInstall.Loaded config' ->
    McpInstall.counted
      (McpInstall.install_client h stdio mode false quiet
         (McpInstall.files_after
            (McpInstall.install_client h stdio mode false quiet files
               (name, (dir, file))))
         (name, (dir, file))) = Ok true
    /\ McpInstall.files_after
         (McpInstall.install_client h stdio mode false quiet
            (McpInstall.files_after
               (McpInstall.install_client h stdio mode false quiet files
                  (name, (dir, file))))
            (name, (dir, file)))
       = McpInstall.files_after
           (McpInstall.install_client h stdio mode false quiet files
              (name, (dir, file))).
Proof.
  intros h stdio mode quiet files name dir file config' Hne Hdone Hcfg
    Hunique Hback.
  set (path := McpInstall.join_path h dir file) in *.
  set (is_toml := ClientConfig.endswith ".toml" file) in *.
  (* the first step *)
  assert (Hfirst : exists config loc t text,
             McpInstall.dir_exists h dir = true
             /\ McpInstall.read_config h is_toml files path
                = McpInstall.Loaded config
             /\ McpInstall.locate is_toml name config = Ok loc
             /\ McpInstall.install_table (McpInstall.mcp_name h)
                  (snd (ClientConfig.generate_mcp_config
                          (McpInstall.process h) (McpInstall.globals h)
                          stdio mode))
                  (McpInstall.table loc) = Ok t
             /\ config' = McpInstall.put loc t
             /\ (if is_toml then McpInstall.toml_dumps h config'
                 else Ok (McpInstall.json_dumps h config')) = Ok text
             /\ McpInstall.files_after
                  (McpInstall.install_client h stdio mode false quiet files
                     (name, (dir, file)))
                = dict_set path text files).
  { revert Hdone Hcfg.
    unfold McpInstall.install_client, McpInstall.installed_config,
      McpInstall.install_table.
    fold path. fold is_toml.
    destruct (McpInstall.dir_exists h dir); cbn [negb]; [|discriminate].
    destruct (McpInstall.read_config h is_toml files path) as [config|r|r]
      eqn:Hread; [|discriminate|discriminate].
    destruct (McpInstall.locate is_toml name config) as [loc|e] eqn:Hloc;
      [|discriminate].
    destruct (McpInstall.migrate (McpInstall.mcp_name h)
                (McpInstall.table loc)) as [migrated|e] eqn:Hmig;
      [|discriminate].
    destruct (ClientConfig.generate_mcp_config (McpInstall.process h)
                (McpInstall.globals h) stdio mode) as [warnings entry].
    cbn [snd].
    destruct (McpInstall.set_entry (McpInstall.mcp_name h) entry migrated)
      as [t|e] eqn:Hset; [|discriminate].
    unfold McpInstall.write_config.
    intros Hdone Hcfg. injection Hcfg as <-.
    destruct (if is_toml then _ else _) as [text|e] eqn:Hser;
      [|discriminate].
    exists config, loc, t, text. repeat split; auto.
    now rewrite Hmig. }
  destruct Hfirst as (config & loc & t & text & Hdir & Hread & Hloc & Htab
                      & -> & Hser & Hfiles).
  rewrite Hfiles in *.
  (* the table written has been through an install *)
  assert (Hagain : McpInstall.install_table (McpInstall.mcp_name h)
                     (snd (ClientConfig.generate_mcp_config
                             (McpInstall.process h) (McpInstall.globals h)
                             stdio mode)) t = Ok t).
  { destruct (McpInstall.table loc) as [| | | | |fields] eqn:Htable;
      try (unfold McpInstall.install_table, McpInstall.migrate in Htab;
           simpl in Htab;
           repeat match type of Htab with
                  | context [if ?b then _ else _] => destruct b
                  end; discriminate).
    eapply install_table_again; eauto. }
  destruct (locate_after_put is_toml name config loc t Hloc)
    as (loc' & Hloc' & Htable' & Hput').
  unfold McpInstall.install_client. fold path. fold is_toml.
  rewrite Hdir. cbn [negb]. rewrite Hback, Hloc', Htable'.
  unfold McpInstall.install_table in Hagain.
  destruct (McpInstall.migrate (McpInstall.mcp_name h) t) as [migrated|e];
    [|discriminate].
  destruct (ClientConfig.generate_mcp_config (McpInstall.process h)
              (McpInstall.globals h) stdio mode) as [warnings entry].
  cbn [snd] in Hagain. rewrite Hagain, Hput'.
  unfold McpInstall.write_config. rewrite Hser. simpl.
  split; [reflexivity | apply dict_set_set].
Qed.

(** A configuration file that is not UTF-8 is not skipped: the
    [UnicodeDecodeError] of the read leaves [install_mcp_servers], with
    every file as it was and nothing printed. *)
Example undecodable_config_ends_install :
  McpInstall.install_mcp_servers Samples.dev_host true "hybrid" false false
    [("/home/u/.cursor/mcp.json", "latin-1")]
  = ([("/home/u/.cursor/mcp.json", "latin-1")], [],
     Some (mk_exn ValueError
             "'utf-8' codec can't decode byte 0xe9 in position 0")).
Proof. reflexivity. Qed.

(** * Properties of the plugin installation *)

Lemma targets_app l1 l2 :
  PluginInstall.targets (l1 ++ l2)
  = (PluginInstall.targets l1 ++ PluginInstall.targets l2)%list.
Proof. unfold PluginInstall.targets. apply flat_map_app. Qed.

Lemma targets_say quiet line :
  PluginInstall.targets (PluginInstall.say quiet line) = [].
Proof. destruct quiet; reflexivity. Qed.

Lemma targets_prints items :
  PluginInstall.targets
    (map (fun item => PluginInstall.Print ("  " ++ item)) items) = [].
Proof. induction items; simpl; auto. Qed.

(** The paths the install branch may change. *)
Lemma install_steps_targets m quiet folder p :
  In p (PluginInstall.targets (PluginInstall.install_steps m quiet folder)) ->
  In p [ PluginInstall.plugin_folder m folder;
         PluginInstall.loader_destination m folder;
         PluginInstall.pkg_destination m folder;
         PluginInstall.old_plugin m folder ].
Proof.
  unfold PluginInstall.install_steps, PluginInstall.install_loader,
    PluginInstall.install_package, PluginInstall.remove_package.
  destruct (PluginInstall.exists_ m _);
    destruct (PluginInstall.lexists m (PluginInstall.old_plugin m folder));
    destruct (PluginInstall.lexists m
                (PluginInstall.loader_destination m folder));
    destruct (PluginInstall.lexists m
                (PluginInstall.pkg_destination m folder));
    destruct (PluginInstall.realpath m
                (PluginInstall.loader_destination m folder)
              =? PluginInstall.IDA_PLUGIN_LOADER m);
    destruct (PluginInstall.realpath m
                (PluginInstall.pkg_destination m folder)
              =? PluginInstall.IDA_PLUGIN_PKG m);
    destruct (PluginInstall.symlink_fails m (PluginInstall.IDA_PLUGIN_LOADER m)
                (PluginInstall.loader_destination m folder));
    destruct (PluginInstall.symlink_fails m (PluginInstall.IDA_PLUGIN_PKG m)
                (PluginInstall.pkg_destination m folder));
    destruct (PluginInstall.isdir m (PluginInstall.pkg_destination m folder)
              && negb (PluginInstall.islink m
                         (PluginInstall.pkg_destination m folder)));
    destruct quiet; simpl; tauto.
Qed.

Lemma uninstall_steps_shape m quiet folder a :
  In a (PluginInstall.uninstall_steps m quiet folder) ->
  (exists line, a = PluginInstall.Print line)
  \/ a = PluginInstall.Remove (PluginInstall.loader_destination m folder)
  \/ a = PluginInstall.remove_package m (PluginInstall.pkg_destination m folder)
  \/ a = PluginInstall.Remove (PluginInstall.old_plugin m folder).
Proof.
  unfold PluginInstall.uninstall_steps, PluginInstall.say.
  destruct (PluginInstall.lexists m
              (PluginInstall.loader_destination m folder));
    destruct (PluginInstall.exists_ m
                (PluginInstall.pkg_destination m folder));
    destruct (PluginInstall.lexists m (PluginInstall.old_plugin m folder));
    destruct quiet; simpl; intuition eauto.
Qed.

(** The directories [os.makedirs] creates above its argument are missing
    ancestors of it. *)
Lemma missing_prefix_in m dirs p :
  In p (PluginInstall.missing_prefix m dirs) ->
  In p dirs /\ PluginInstall.exists_ m p = false.
Proof.
  induction dirs as [|d rest IH]; simpl; [tauto|].
  destruct (PluginInstall.exists_ m d) eqn:Hd; simpl; [tauto|].
  intros [<- | Hin]; [auto|]. destruct (IH Hin). auto.
Qed.

(** Every action changes the path it is called on; only [os.makedirs]
    changes more. *)
Lemma changes_target m a p :
  In p (PluginInstall.changes m a) ->
  PluginInstall.target a = Some p
  \/ exists folder,
       a = PluginInstall.Makedirs folder
       /\ In p (PluginInstall.missing_prefix m (PluginInstall.ancestors m folder)).
Proof.
  destruct a; simpl; try tauto;
    try (intros [<- | []]; left; reflexivity).
  intros [<- | Hin]; [left; reflexivity | right; eauto].
Qed.

Lemma changed_paths_targets m steps p :
  In p (PluginInstall.changed_paths m steps) ->
  In p (PluginInstall.targets steps)
  \/ exists folder,
       In (PluginInstall.Makedirs folder) steps
       /\ In p (PluginInstall.missing_prefix m (PluginInstall.ancestors m folder)).
Proof.
  unfold PluginInstall.changed_paths, PluginInstall.targets.
  rewrite in_flat_map. intros (a & Ha & Hp).
  destruct (changes_target m a p Hp) as [Ht | (folder & -> & Hmiss)].
  - left. apply in_flat_map. exists a. split; [exact Ha|].
    rewrite Ht. now left.
  - right. eauto.
Qed.

(** Some path changes exactly when some call is made on a path. *)
Lemma changed_paths_nil m steps :
  PluginInstall.changed_paths m steps = [] <-> PluginInstall.targets steps = [].
Proof.
  unfold PluginInstall.changed_paths, PluginInstall.targets.
  induction steps as [|a rest IH]; simpl; [tauto|].
  destruct a; simpl; try exact IH; split; discriminate.
Qed.

(** The install branch calls [os.makedirs] on the plugins folder only, and
    only when that folder does not exist. *)
Lemma install_steps_makedirs m quiet folder path :
  In (PluginInstall.Makedirs path) (PluginInstall.install_steps m quiet folder) ->
  path = PluginInstall.plugin_folder m folder
  /\ PluginInstall.exists_ m (PluginInstall.plugin_folder m folder) = false.
Proof.
  unfold PluginInstall.install_steps, PluginInstall.install_loader,
    PluginInstall.install_package, PluginInstall.remove_package,
    PluginInstall.say.
  destruct (PluginInstall.exists_ m _);
    destruct (PluginInstall.lexists m (PluginInstall.old_plugin m folder));
    destruct (PluginInstall.lexists m
                (PluginInstall.loader_destination m folder));
    destruct (PluginInstall.lexists m
                (PluginInstall.pkg_destination m folder));
    destruct (PluginInstall.realpath m
                (PluginInstall.loader_destination m folder)
              =? PluginInstall.IDA_PLUGIN_LOADER m);
    destruct (PluginInstall.realpath m
                (PluginInstall.pkg_destination m folder)
              =? PluginInstall.IDA_PLUGIN_PKG m);
    destruct (PluginInstall.symlink_fails m (PluginInstall.IDA_PLUGIN_LOADER m)
                (PluginInstall.loader_destination m folder));
    destruct (PluginInstall.symlink_fails m (PluginInstall.IDA_PLUGIN_PKG m)
                (PluginInstall.pkg_destination m folder));
    destruct (PluginInstall.isdir m (PluginInstall.pkg_destination m folder)
              && negb (PluginInstall.islink m
                         (PluginInstall.pkg_destination m folder)));
    destruct quiet; simpl;
    intuition (try discriminate; try congruence).
Qed.

(** X24: the paths [install_ida_plugin] creates, replaces or removes are
    the plugins folder of the IDA user directory, the loader, the package
    and the old plugin inside it and, when an install has to create the
    plugins folder, the missing directories above that folder, which
    [os.makedirs] creates with it; an uninstall creates nothing (it only
    removes and prints); and when an IDA Free licence is found and not
    allowed, the call changes nothing and ends with [sys.exit(1)]. *)
Theorem install_ida_plugin_frame :
  forall m uninstall quiet allow_ida_free,
    (forall p,
       In p (PluginInstall.changed_paths m
               (fst (PluginInstall.install_ida_plugin m uninstall quiet
                       allow_ida_free))) ->
       exists folder,
         PluginInstall.ida_folder m = Ok folder
         /\ (In p [ PluginInstall.plugin_folder m folder;
                    PluginInstall.loader_destination m folder;
                    PluginInstall.pkg_destination m folder;
                    PluginInstall.old_plugin m folder ]
             \/ (uninstall = false
                 /\ PluginInstall.exists_ m
                      (PluginInstall.plugin_folder m folder) = false
                 /\ In p (PluginInstall.ancestors m
                            (PluginInstall.plugin_folder m folder))
                 /\ PluginInstall.exists_ m p = false)))
    /\ (uninstall = true ->
        forall a,
          In a (fst (PluginInstall.install_ida_plugin m uninstall quiet
                       allow_ida_free)) ->
          match a with
          | PluginInstall.Print _ | PluginInstall.Remove _
          | PluginInstall.Rmtree _ => True
          | _ => False
          end)
    /\ (forall folder,
          PluginInstall.ida_folder m = Ok folder ->
          allow_ida_free = false ->
          PluginInstall.glob m
            (PluginInstall.join m [folder; "idafree_*.hexlic"]) <> [] ->
          PluginInstall.changed_paths m
            (fst (PluginInstall.install_ida_plugin m uninstall quiet
                    allow_ida_free)) = []
          /\ snd (PluginInstall.install_ida_plugin m uninstall quiet
                    allow_ida_free) = PluginInstall.SysExit 1).
Proof.
  intros m uninstall quiet allow_ida_free.
  unfold PluginInstall.install_ida_plugin.
  destruct (PluginInstall.ida_folder m) as [folder|e];
    [|simpl; repeat split; try tauto; discriminate].
  destruct (negb allow_ida_free
            && negb (length (PluginInstall.glob m
                               (PluginInstall.join m
                                  [folder; "idafree_*.hexlic"])) =? 0)%nat)
    eqn:Hguard.
  - simpl. repeat split; try tauto.
    intros _ a [<- | []]. exact I.
  - split; [|split].
    + intros p Hp. exists folder. split; [reflexivity|].
      destruct uninstall; simpl in Hp.
      * left. revert Hp. unfold PluginInstall.changed_paths.
        rewrite in_flat_map.
        intros (a & Ha & Hpa).
        apply uninstall_steps_shape in Ha.
        unfold PluginInstall.remove_package in Ha.
        destruct Ha as [(line & ->) | [-> | [-> | ->]]];
          try (destruct (PluginInstall.isdir m
                           (PluginInstall.pkg_destination m folder)
                         && negb (PluginInstall.islink m
                                    (PluginInstall.pkg_destination m folder))));
          simpl in Hpa; simpl; tauto.
      * destruct (changed_paths_targets m _ p Hp)
          as [Ht | (path & Hmk & Hmiss)].
        -- left. now apply (install_steps_targets m quiet folder).
        -- right. destruct (install_steps_makedirs m quiet folder path Hmk)
             as (-> & Hno).
           destruct (missing_prefix_in m _ p Hmiss) as (Hin & Hmissing).
           auto.
    + intros -> a Ha. simpl in Ha.
      apply uninstall_steps_shape in Ha.
      unfold PluginInstall.remove_package in Ha.
      destruct Ha as [(line & ->) | [-> | [-> | ->]]]; try exact I.
      destruct (PluginInstall.isdir m (PluginInstall.pkg_destination m folder)
                && negb (PluginInstall.islink m
                           (PluginInstall.pkg_destination m folder)));
        exact I.
    + intros folder' Hf -> Hglob. injection Hf as <-.
      exfalso. simpl in Hguard.
      destruct (PluginInstall.glob m _); [congruence | discriminate].
Qed.

(** On a machine without an IDA user directory the install creates it
    together with the plugins folder. *)
Example install_creates_ida_folder :
  PluginInstall.changed_paths Samples.first_install
    (fst (PluginInstall.install_ida_plugin Samples.first_install false true
            false))
  = [ "/home/u/.idapro/plugins"; "/home/u/.idapro";
      "/home/u/.idapro/plugins/ida_mcp.py";
      "/home/u/.idapro/plugins/ida_mcp" ].
Proof. reflexivity. Qed.

(** X25: a package destination is deleted recursively only when it is a
    real directory: [install_ida_plugin] never calls [shutil.rmtree] on a
    symbolic link or on a file. *)
Theorem rmtree_only_real_directories :
  forall m uninstall quiet allow_ida_free p,
    In (PluginInstall.Rmtree p)
       (fst (PluginInstall.install_ida_plugin m uninstall quiet
               allow_ida_free)) ->
    PluginInstall.isdir m p = true /\ PluginInstall.islink m p = false.
Proof.
  intros m uninstall quiet allow_ida_free p.
  unfold PluginInstall.install_ida_plugin.
  destruct (PluginInstall.ida_folder m) as [folder|e]; [|simpl; tauto].
  destruct (negb allow_ida_free && _);
    [simpl; intros [H | []]; discriminate|].
  assert (Hpkg : forall q,
             PluginInstall.Rmtree p = PluginInstall.remove_package m q ->
             PluginInstall.isdir m p = true
             /\ PluginInstall.islink m p = false).
  { intros q. unfold PluginInstall.remove_package.
    destruct (PluginInstall.isdir m q) eqn:Hd;
      destruct (PluginInstall.islink m q) eqn:Hl; simpl;
      intros H; try discriminate.
    injection H as ->. auto. }
  destruct uninstall; simpl.
  - intros Ha. apply uninstall_steps_shape in Ha.
    destruct Ha as [(line & H) | [H | [H | H]]]; try discriminate.
    eapply Hpkg; eauto.
  - unfold PluginInstall.install_steps, PluginInstall.install_loader,
      PluginInstall.install_package, PluginInstall.say.
    destruct (PluginInstall.exists_ m _);
      destruct (PluginInstall.lexists m (PluginInstall.old_plugin m folder));
      destruct (PluginInstall.lexists m
                  (PluginInstall.loader_destination m folder));
      destruct (PluginInstall.lexists m
                  (PluginInstall.pkg_destination m folder));
      destruct (PluginInstall.realpath m
                  (PluginInstall.loader_destination m folder)
                =? PluginInstall.IDA_PLUGIN_LOADER m);
      destruct (PluginInstall.realpath m
                  (PluginInstall.pkg_destination m folder)
                =? PluginInstall.IDA_PLUGIN_PKG m);
      destruct (PluginInstall.symlink_fails m
                  (PluginInstall.IDA_PLUGIN_LOADER m)
                  (PluginInstall.loader_destination m folder));
      destruct (PluginInstall.symlink_fails m (PluginInstall.IDA_PLUGIN_PKG m)
                  (PluginInstall.pkg_destination m folder));
      destruct quiet; simpl;
      intuition (try discriminate);
      match goal with
      | H : PluginInstall.remove_package _ _ = _ |- _ =>
          destruct (Hpkg _ (eq_sym H)); assumption
      end.
Qed.


(** * Instances of the installation properties *)

Lemma install_table_entry_witness :
  exists fields',
    McpInstall.install_table "ida-pro-mcp" (JStr "new")
      (JObj Samples.old_table) = Ok (JObj fields')
    /\ dict_get "ida-pro-mcp" fields' = Some (JStr "new")
    /\ dict_get McpInstall.old_name fields' = None.
Proof.
  destruct (install_table_entry "ida-pro-mcp" (JStr "new") Samples.old_table)
    as (fields' & Heq & Hnew & Hold & _).
  - repeat constructor; simpl; intuition discriminate.
  - discriminate.
  - exists fields'. auto.
Defined.

Lemma uninstall_table_entry_witness :
  exists fields',
    McpInstall.uninstall_table "ida-pro-mcp" (JObj Samples.old_table)
      = Ok (Some (JObj fields'))
    /\ dict_get "ida-pro-mcp" fields' = None
    /\ dict_get McpInstall.old_name fields' = None.
Proof.
  destruct (uninstall_table_entry "ida-pro-mcp" Samples.old_table)
    as [(_ & Hold & _) | (fields' & Heq & _ & Hnew & Hold & _)].
  - repeat constructor; simpl; intuition discriminate.
  - discriminate.
  - discriminate.
  - exists fields'. auto.
Defined.

Lemma put_changes_only_the_table_witness :
  exists loc fields',
    McpInstall.locate false "VS Code"
      (JObj [("editor.fontSize", JNum 12)]) = Ok loc
    /\ McpInstall.put loc (JObj Samples.old_table) = JObj fields'
    /\ dict_get "editor.fontSize" fields' = Some (JNum 12).
Proof.
  eexists. 
  destruct (put_changes_only_the_table false "VS Code"
              [("editor.fontSize", JNum 12)] _ (JObj Samples.old_table)
              eq_refl) as (fields' & Hput & Hframe & _).
  exists fields'. split; [reflexivity|]. split; [exact Hput|].
  rewrite Hframe; [reflexivity | discriminate].
Defined.

Lemma install_mcp_servers_frame_witness :
  dict_get "/home/u/.bashrc"
    (fst (fst (McpInstall.install_mcp_servers Samples.dev_host true "hybrid"
                 false false [("/home/u/.bashrc", "export A=1")])))
  = Some "export A=1".
Proof.
  rewrite (install_mcp_servers_frame Samples.dev_host true "hybrid" false
             false [("/home/u/.bashrc", "export A=1")] "/home/u/.bashrc").
  - reflexivity.
  - intros configs Hc. vm_compute in Hc. injection Hc as <-.
    vm_compute. intuition discriminate.
Defined.

Lemma install_client_twice_witness :
  McpInstall.files_after
    (McpInstall.install_client Samples.dev_host true "hybrid" false false
       (McpInstall.files_after
          (McpInstall.install_client Samples.dev_host true "hybrid" false
             false [] ("Cursor", ("/home/u/.cursor", "mcp.json"))))
       ("Cursor", ("/home/u/.cursor", "mcp.json")))
  = McpInstall.files_after
      (McpInstall.install_client Samples.dev_host true "hybrid" false false
         [] ("Cursor", ("/home/u/.cursor", "mcp.json"))).
Proof.
  apply (install_client_twice Samples.dev_host true "hybrid" false []
           "Cursor" "/home/u/.cursor" "mcp.json" Samples.cursor_written).
  - discriminate.
  - reflexivity.
  - reflexivity.
  - intros config loc fields Hread Hloc Htable.
    vm_compute in Hread. injection Hread as <-.
    vm_compute in Hloc. injection Hloc as <-.
    simpl in Htable. injection Htable as <-. constructor.
  - reflexivity.
Defined.

Lemma rmtree_only_real_directories_witness :
  PluginInstall.isdir Samples.copied_install "/home/u/.idapro/plugins/ida_mcp"
    = true
  /\ PluginInstall.islink Samples.copied_install
       "/home/u/.idapro/plugins/ida_mcp" = false.
Proof.
  apply (rmtree_only_real_directories Samples.copied_install true false false
           "/home/u/.idapro/plugins/ida_mcp").
  vm_compute. tauto.
Defined.

(** * A further property of the session tools *)

(** X27: the session a successful [switch_database] reports is the one
    [current_database] returns next: a reply with a true "success" entry
    comes from idalib mode and carries under "session" exactly the
    dictionary [current_database] gives for the manager left behind. *)
Theorem switch_then_current_agree :
  forall has_idalib h m sid m' fields,
    ApiPro.switch_database has_idalib h m sid = (m', Some (JObj fields)) ->
    dict_get "success" fields = Some (JBool true) ->
    has_idalib = true
    /\ dict_get "session" fields
       = Some (ApiPro.current_database has_idalib m').
Proof.
  intros has_idalib h m sid m' fields.
  unfold ApiPro.switch_database, ApiPro.current_database.
  destruct has_idalib; cbn [negb];
    [|intros H; injection H as <- <-; discriminate].
  destruct (SessionManager.switch_session m sid) as [m1 [[|]|e]].
  - destruct (SessionManager.get_current_session m1) as [session|] eqn:Hcur;
      intros H; injection H as <- <-; [|discriminate].
    intros _. rewrite Hcur. auto.
  - discriminate.
  - intros H. injection H as <- Hf.
    destruct (exn_kind e); injection Hf as <-; discriminate.
Qed.

Lemma switch_then_current_agree_witness :
  exists fields,
    snd (ApiPro.switch_database true Samples.two_binaries
           (fst (ApiPro.open_database true Samples.two_binaries
                   SessionManager.empty "/bin/a" true None))
           "auto-0") = Some (JObj fields)
    /\ dict_get "session" fields
       = Some (ApiPro.current_database true
                 (fst (ApiPro.switch_database true Samples.two_binaries
                         (fst (ApiPro.open_database true Samples.two_binaries
                                 SessionManager.empty "/bin/a" true None))
                         "auto-0"))).
Proof.
  eexists. split; [vm_compute; reflexivity|].
  eapply (switch_then_current_agree true Samples.two_binaries
            (fst (ApiPro.open_database true Samples.two_binaries
                    SessionManager.empty "/bin/a" true None))
            "auto-0").
  - vm_compute. reflexivity.
  - reflexivity.
Defined.
